(** * Deployment admission gate of the token-deployment MCP tools

    A shallow embedding of the deployment tools of [src/core/server.ts]
    (lines 94-690): the tweet dedup cache ([extractTweetId],
    [refreshDeployedTweetIds], [checkTweetAlreadyTokenized]), the balance
    guard ([handleGetWalletBalance]), the gate and executor sequence of
    [handleDeployToken], and [handleCanDeployNow].

    Conventions of the embedding.
    - The three module-level [let] variables and the Mongo [deployments]
      collection form one explicit [World]; handlers are computations in a
      state-and-exception monad over it.  A JavaScript [throw] keeps the
      mutations made before it, so the monad returns the world in both cases.
    - Everything the handlers obtain from outside the module (clock readings,
      reachability of the database, environment variables, the RPC balance,
      the image service, [launchToken]) is an explicit oracle argument.
    - [Date.now()] readings are integers ([Z], milliseconds).  SOL amounts and
      scores are JavaScript numbers; they are idealised as exact rationals
      ([Q]), so rounding of IEEE doubles is outside the model.
    - Error strings built from templates are kept as a tagged value carrying
      the interpolated fields. *)

From Stdlib Require Import ZArith QArith Qminmax Lia String Ascii List Bool.
From stdpp Require Import gmap strings.

Close Scope Q_scope.
Local Open Scope string_scope.
Local Open Scope Z_scope.

(** ** JavaScript value conventions used by the module *)

Module Js.

(** Truthiness of a string: every string but the empty one. *)
Definition truthy_string (s : string) : bool :=
  match s with
  | EmptyString => false
  | String _ _ => true
  end.

(** Truthiness of an optional string property ([undefined] is falsy). *)
Definition truthy_opt_string (o : option string) : bool :=
  match o with
  | Some s => truthy_string s
  | None => false
  end.

(** Truthiness of a number: every number but zero. *)
Definition truthy_number (q : Q) : bool := negb (Qeq_bool q 0).

(** [x || d] for an optional numeric property. *)
Definition number_or (o : option Q) (d : Q) : Q :=
  match o with
  | Some q => if truthy_number q then q else d
  | None => d
  end.

(** [a < b] and [a >= b] on numbers. *)
Definition lt (a b : Q) : bool := negb (Qle_bool b a).
Definition ge (a b : Q) : bool := Qle_bool b a.

(** [Math.max(a, b)]. *)
Definition Math_max (a b : Q) : Q := if Qle_bool a b then b else a.

(** [Math.ceil(n / d)] for integers [n] and a positive integer [d]. *)
Definition ceil_div (n d : Z) : Z := - ((- n) / d).

End Js.

(** ** Trigger references: [extractTweetId] *)

(** [\d] without the [u] flag: the ASCII digits. *)
Definition is_digit (c : ascii) : bool :=
  let n := nat_of_ascii c in (48 <=? n)%nat && (n <=? 57)%nat.

(** The longest run of digits at the head of a string ([\d+] is greedy). *)
Fixpoint take_digits (s : string) : string :=
  match s with
  | EmptyString => EmptyString
  | String c r => if is_digit c then String c (take_digits r) else EmptyString
  end.

(** [strip_prefix p s] removes the literal [p] from the head of [s]. *)
Fixpoint strip_prefix (p s : string) : option string :=
  match p, s with
  | EmptyString, _ => Some s
  | String a p', String b s' =>
      if Ascii.eqb a b then strip_prefix p' s' else None
  | String _ _, EmptyString => None
  end.

(** The regular expression [/status\/(\d+)/] anchored at the head of [s]:
    the capture group when it matches there. *)
Definition match_status_here (s : string) : option string :=
  match strip_prefix "status/" s with
  | Some rest =>
      match take_digits rest with
      | EmptyString => None
      | String c ds => Some (String c ds)
      end
  | None => None
  end.

(** [url.match(/status\/(\d+)/)]: leftmost match, then [match[1]]. *)
Fixpoint extractTweetId (url : string) : option string :=
  match match_status_here url with
  | Some tweetId => Some tweetId
  | None =>
      match url with
      | EmptyString => None
      | String _ rest => extractTweetId rest
      end
  end.

(** [{ $regex: needle }] for a needle without metacharacters (a tweet id is
    all digits): the needle occurs somewhere in the field. *)
Fixpoint contains (needle hay : string) : bool :=
  String.prefix needle hay ||
  match hay with
  | EmptyString => false
  | String _ rest => contains needle rest
  end.

(** ** Data model *)

Inductive Strategy := specific_moment | emerging_trend | pattern_based.

Definition strategy_name (s : Strategy) : string :=
  match s with
  | specific_moment => "specific_moment"
  | emerging_trend => "emerging_trend"
  | pattern_based => "pattern_based"
  end.

Inductive ImageStyle := cartoon | realistic | pixel | neon | minimalist.

Inductive Outcome := active | profitable | loss | dead.

(** [DeploymentRecord] of the summary manager, as [handleDeployToken]
    builds it (lines 496-518). *)
Module DeploymentRecord.
Record performance := {
  current_market_cap : Q;
  peak_market_cap : Q;
  holders : Q;
  fees_collected : Q;
  profit_sol : Q;
  outcome : Outcome
}.
Record metadata := {
  tweet_url : option string;
  virality_score : option Q;
  confidence_score : Q;
  reasoning : string
}.
Record t := {
  mint : option string;
  name : string;
  symbol : string;
  theme : string;
  strategy : Strategy;
  deployed_at : Z;
  initial_buy_sol : Q;
  perf : performance;
  meta : metadata
}.
End DeploymentRecord.

(** The process-wide gate state (lines 116-120) and the [deployments]
    collection of the database. *)
Record World := {
  lastDeploymentTime : Z;
  deployedTweetIds : gset string;
  lastTweetIdCacheRefresh : Z;
  deployments : list DeploymentRecord.t
}.

Definition MIN_WALLET_RESERVE : Q := 0.3%Q.
Definition MIN_DEPLOYMENT_INTERVAL : Z := 4 * 60 * 1000.
Definition TWEET_ID_CACHE_TTL : Z := 5 * 60 * 1000.
Definition LAMPORTS_PER_SOL : Q := 1000000000%Q.

(** The module state when the process starts. *)
Definition initial_world (db : list DeploymentRecord.t) : World :=
  {| lastDeploymentTime := 0;
     deployedTweetIds := ∅;
     lastTweetIdCacheRefresh := 0;
     deployments := db |}.

Definition set_lastDeploymentTime (t : Z) (w : World) : World :=
  {| lastDeploymentTime := t;
     deployedTweetIds := deployedTweetIds w;
     lastTweetIdCacheRefresh := lastTweetIdCacheRefresh w;
     deployments := deployments w |}.

Definition set_deployedTweetIds (s : gset string) (w : World) : World :=
  {| lastDeploymentTime := lastDeploymentTime w;
     deployedTweetIds := s;
     lastTweetIdCacheRefresh := lastTweetIdCacheRefresh w;
     deployments := deployments w |}.

Definition set_lastTweetIdCacheRefresh (t : Z) (w : World) : World :=
  {| lastDeploymentTime := lastDeploymentTime w;
     deployedTweetIds := deployedTweetIds w;
     lastTweetIdCacheRefresh := t;
     deployments := deployments w |}.

Definition set_deployments (db : list DeploymentRecord.t) (w : World) : World :=
  {| lastDeploymentTime := lastDeploymentTime w;
     deployedTweetIds := deployedTweetIds w;
     lastTweetIdCacheRefresh := lastTweetIdCacheRefresh w;
     deployments := db |}.

(** ** The state-and-exception monad of the handlers *)

Inductive outcome (A : Type) : Type :=
| Returned (a : A)
| Thrown (message : string).
Arguments Returned {A} a.
Arguments Thrown {A} message.

Definition M (A : Type) : Type := World -> outcome A * World.

Definition ret {A} (a : A) : M A := fun w => (Returned a, w).

Definition throw {A} (message : string) : M A := fun w => (Thrown message, w).

Definition bind {A B} (c : M A) (k : A -> M B) : M B :=
  fun w =>
    match c w with
    | (Returned a, w') => k a w'
    | (Thrown message, w') => (Thrown message, w')
    end.

(** [try { c } catch (error) { h error.message }] *)
Definition try_catch {A} (c : M A) (h : string -> M A) : M A :=
  fun w =>
    match c w with
    | (Returned a, w') => (Returned a, w')
    | (Thrown message, w') => h message w'
    end.

Definition get : M World := fun w => (Returned w, w).

Definition modify (f : World -> World) : M unit := fun w => (Returned tt, f w).

(** [await] of an external call whose outcome the oracle gives. *)
Definition await {A} (o : outcome A) : M A := fun w => (o, w).

Declare Scope js_scope.
Delimit Scope js_scope with js.
Notation "'let*' x ':=' c 'in' k" := (bind c (fun x => k))
  (at level 10, x name, c at level 100, k at level 200) : js_scope.
Notation "'let*' ' p ':=' c 'in' k" := (bind c (fun x => match x with p => k end))
  (at level 10, p pattern, c at level 100, k at level 200) : js_scope.
Notation "c ';;;' k" := (bind c (fun _ => k))
  (at level 100, k at level 200, right associativity) : js_scope.
Local Open Scope js_scope.

Fixpoint forEach {A} (l : list A) (body : A -> M unit) : M unit :=
  match l with
  | [] => ret tt
  | x :: rest => body x ;;; forEach rest body
  end.

(** ** The persistent store, as the dedup cache queries it *)

(** [find({ 'metadata.tweet_url': { $exists: true, $ne: null } })] *)
Definition has_tweet_url (d : DeploymentRecord.t) : bool :=
  match DeploymentRecord.tweet_url (DeploymentRecord.meta d) with
  | Some _ => true
  | None => false
  end.

(** [{ 'metadata.tweet_url': { $regex: tweetId } }] *)
Definition tweet_url_matches (tweetId : string) (d : DeploymentRecord.t) : bool :=
  match DeploymentRecord.tweet_url (DeploymentRecord.meta d) with
  | Some u => contains tweetId u
  | None => false
  end.

(** A query either reaches the database ([reachable = true]) or throws. *)
Definition db_find_with_tweet_url (reachable : bool) : M (list DeploymentRecord.t) :=
  if reachable
  then (let* w := get in ret (List.filter has_tweet_url (deployments w)))
  else throw "database unavailable".

Definition db_findOne_by_tweet_id (reachable : bool) (tweetId : string)
  : M (option DeploymentRecord.t) :=
  if reachable
  then (let* w := get in ret (List.find (tweet_url_matches tweetId) (deployments w)))
  else throw "database unavailable".

(** ** Dedup cache *)

(** The body of the loop of [refreshDeployedTweetIds] (lines 146-152). *)
Definition addDeployedTweetId (d : DeploymentRecord.t) : M unit :=
  match DeploymentRecord.tweet_url (DeploymentRecord.meta d) with
  | Some tweetUrl =>
      if Js.truthy_string tweetUrl then
        match extractTweetId tweetUrl with
        | Some tweetId =>
            modify (fun w => set_deployedTweetIds ({[tweetId]} ∪ deployedTweetIds w) w)
        | None => ret tt
        end
      else ret tt
  | None => ret tt
  end.

(** [refreshDeployedTweetIds] (lines 135-159).  [db_reachable] tells whether
    the [find] succeeds, [now] is the reading of [Date.now()] at line 154. *)
Definition refreshDeployedTweetIds (db_reachable : bool) (now : Z) : M unit :=
  try_catch
    (let* found := db_find_with_tweet_url db_reachable in
     modify (set_deployedTweetIds ∅) ;;;
     forEach found addDeployedTweetId ;;;
     modify (set_lastTweetIdCacheRefresh now))
    (fun _ => ret tt).

Record TokenizedCheck := {
  exists_ : bool;
  existingToken : option string
}.

(** [`${existing.name} ($${existing.symbol})`] *)
Definition token_label (d : DeploymentRecord.t) : string :=
  DeploymentRecord.name d ++ " ($" ++ DeploymentRecord.symbol d ++ ")".

(** What [checkTweetAlreadyTokenized] obtains from outside: the clock at
    line 171, the reachability of the database at lines 140, 181 and 200, and
    the clock at line 154. *)
Record DedupOracle := {
  now_check : Z;
  refresh_reachable : bool;
  now_refreshed : Z;
  confirm_reachable : bool;
  direct_reachable : bool
}.

(** "Refresh cache if stale" (lines 170-173). *)
Definition refreshIfStale (o : DedupOracle) : M unit :=
  let* w := get in
  if TWEET_ID_CACHE_TTL <? now_check o - lastTweetIdCacheRefresh w
  then refreshDeployedTweetIds (refresh_reachable o) (now_refreshed o)
  else ret tt.

(** [checkTweetAlreadyTokenized] (lines 164-216). *)
Definition checkTweetAlreadyTokenized (o : DedupOracle) (tweetUrl : string)
  : M TokenizedCheck :=
  match extractTweetId tweetUrl with
  | None => ret {| exists_ := false; existingToken := None |}
  | Some tweetId =>
      refreshIfStale o ;;;
      let* w := get in
      let* confirmed :=
        (if bool_decide (tweetId ∈ deployedTweetIds w) then
           try_catch
             (let* existing := db_findOne_by_tweet_id (confirm_reachable o) tweetId in
              match existing with
              | Some d =>
                  ret (Some {| exists_ := true; existingToken := Some (token_label d) |})
              | None => ret None
              end)
             (fun _ =>
                ret (Some {| exists_ := true; existingToken := Some "Unknown token" |}))
         else ret None) in
      match confirmed with
      | Some answer => ret answer
      | None =>
          let* direct :=
            try_catch
              (let* existing := db_findOne_by_tweet_id (direct_reachable o) tweetId in
               match existing with
               | Some d =>
                   modify (fun w => set_deployedTweetIds ({[tweetId]} ∪ deployedTweetIds w) w) ;;;
                   ret (Some {| exists_ := true; existingToken := Some (token_label d) |})
               | None => ret None
               end)
              (fun _ => ret None) in
          match direct with
          | Some answer => ret answer
          | None => ret {| exists_ := false; existingToken := None |}
          end
      end
  end.

(** ** Balance guard *)

(** [process.env]: the two variables the handlers read. *)
Record ProcessEnv := {
  AGENT_PRIVATE_KEY : option string;
  PRIVATE_KEY : option string
}.

(** [process.env.AGENT_PRIVATE_KEY || process.env.PRIVATE_KEY] *)
Definition privateKey_of (e : ProcessEnv) : option string :=
  if Js.truthy_opt_string (AGENT_PRIVATE_KEY e) then AGENT_PRIVATE_KEY e
  else PRIVATE_KEY e.

(** What the RPC node answers for the wallet: [connection.getBalance] in
    lamports and the address of the key pair.  [keypairFromPrivateKey] and
    [getBalance] may throw instead. *)
Record Wallet := {
  lamports : Z;
  address : string
}.

Record WalletBalanceResult := {
  balance_sol : Q;
  available_for_deployment : Q;
  can_deploy : bool;
  reserve_amount : Q;
  wallet_address : string
}.

(** [handleGetWalletBalance] (lines 276-297). *)
Definition handleGetWalletBalance (e : ProcessEnv) (rpc : outcome Wallet)
  : M WalletBalanceResult :=
  if negb (Js.truthy_opt_string (privateKey_of e))
  then throw "AGENT_PRIVATE_KEY not configured"
  else
    let* wallet := await rpc in
    let balanceSOL := (inject_Z (lamports wallet) / LAMPORTS_PER_SOL)%Q in
    let available := Js.Math_max 0%Q (balanceSOL - MIN_WALLET_RESERVE)%Q in
    ret {| balance_sol := balanceSOL;
           available_for_deployment := available;
           can_deploy := Js.ge available 0.05%Q;
           reserve_amount := MIN_WALLET_RESERVE;
           wallet_address := address wallet |}.

(** ** The gate: [handleDeployToken] *)

Module DeployTokenArgs.
Record t := {
  name : string;
  symbol : string;
  description : string;
  theme : string;
  strategy : Strategy;
  confidence_score : option Q;
  initial_buy_sol : option Q;
  image_style : option ImageStyle;
  tweet_url : option string;
  virality_score : option Q
}.
End DeployTokenArgs.

(** The [error] strings of a [DeploymentResult], by template. *)
Inductive DeployError :=
| AlreadyTokenized (existingToken : option string) (tweet_url : string)
    (* This tweet has already been tokenized as "<existingToken>". Tweet URL: <tweet_url> *)
| TooSoon (waitSeconds : Z)
    (* Too soon since last deployment. Wait <waitSeconds> seconds. *)
| ConfidenceTooLow (confidence : Q)
    (* Confidence too low (<confidence>%). Minimum 60% required. *)
| KeyNotConfigured
    (* AGENT_PRIVATE_KEY not configured *)
| InsufficientBalance (balance_sol : Q)
    (* Insufficient balance: <balance_sol> SOL. Need at least 0.35 SOL. *)
| NotEnoughAvailable (available needed : Q)
    (* Not enough available SOL. Available: <available>, Needed: <needed> *)
| Message (text : string).
    (* result.error of launchToken, or the message of a caught exception *)

Module DeploymentResult.
Record t := {
  success : bool;
  mint : option string;
  signature : option string;
  url : option string;
  error : option DeployError;
  deployment_id : option string
}.
End DeploymentResult.

(** [{ success: false, error }] *)
Definition rejected (e : DeployError) : DeploymentResult.t :=
  {| DeploymentResult.success := false;
     DeploymentResult.mint := None;
     DeploymentResult.signature := None;
     DeploymentResult.url := None;
     DeploymentResult.error := Some e;
     DeploymentResult.deployment_id := None |}.

(** [LaunchTokenResponse] of [src/clients/pumpportal.ts]. *)
Record LaunchTokenResponse := {
  launched_mint : option string;
  launched_signature : option string;
  launch_error : option string
}.

(** What one call of [handleDeployToken] obtains from outside, in the order
    of the source: the dedup oracle (line 401), the clock at line 413, the
    environment (line 432), the RPC answer (line 441), whether OpenAI is
    configured and what [generateTokenImage] gives (lines 465-469), the
    answer of [launchToken] (line 486; it catches its own exceptions), the
    clock of [new Date()] (line 502), the outcome of
    [summaryManager.recordDeployment] (line 520) and the clock at line 523. *)
Record DeployOracle := {
  dedup : DedupOracle;
  now_cooldown : Z;
  process_env : ProcessEnv;
  wallet_rpc : outcome Wallet;
  openai_configured : bool;
  generated_image : outcome string;
  launch : LaunchTokenResponse;
  now_deployed_at : Z;
  record_write : outcome unit;
  now_recorded : Z
}.

(** Modelled from the spec: [summaryManager.recordDeployment]
    ([services/summary-manager.js] is not among the sources).  The store is
    append-only ([save(record)]): the record is added after the existing
    ones, or the write fails and the call throws. *)
Definition recordDeployment (write : outcome unit) (d : DeploymentRecord.t) : M unit :=
  await write ;;;
  modify (fun w => set_deployments (deployments w ++ [d]) w).

(** What the checks hand over to the deployment steps. *)
Record Admission := {
  adm_confidence : Q;
  adm_privateKey : option string;
  adm_initialBuy : Q
}.

(** Safety check 0 (lines 399-410). *)
Definition duplicateCheck (o : DeployOracle) (args : DeployTokenArgs.t)
  : M TokenizedCheck :=
  match DeployTokenArgs.tweet_url args with
  | Some u =>
      if Js.truthy_string u then checkTweetAlreadyTokenized (dedup o) u
      else ret {| exists_ := false; existingToken := None |}
  | None => ret {| exists_ := false; existingToken := None |}
  end.

(** Safety check 1 (lines 412-420): the wait time when the cooldown holds. *)
Definition cooldownWait (last now : Z) : option Z :=
  let timeSinceLastDeployment := now - last in
  if (0 <? last) && (timeSinceLastDeployment <? MIN_DEPLOYMENT_INTERVAL)
  then Some (Js.ceil_div (MIN_DEPLOYMENT_INTERVAL - timeSinceLastDeployment) 1000)
  else None.

(** The safety checks of [handleDeployToken] (lines 399-458): a rejection,
    or the values the deployment steps go on with. *)
Definition safetyChecks (o : DeployOracle) (args : DeployTokenArgs.t)
  : M (DeploymentResult.t + Admission) :=
  let* duplicate := duplicateCheck o args in
  if exists_ duplicate then
    ret (inl (rejected (AlreadyTokenized (existingToken duplicate)
                          (default "" (DeployTokenArgs.tweet_url args)))))
  else
    let* w := get in
    match cooldownWait (lastDeploymentTime w) (now_cooldown o) with
    | Some waitSeconds => ret (inl (rejected (TooSoon waitSeconds)))
    | None =>
        let confidence := Js.number_or (DeployTokenArgs.confidence_score args) 70%Q in
        if Js.lt confidence 60%Q then
          ret (inl (rejected (ConfidenceTooLow confidence)))
        else
          let privateKey := privateKey_of (process_env o) in
          if negb (Js.truthy_opt_string privateKey) then
            ret (inl (rejected KeyNotConfigured))
          else
            let* balanceResult := handleGetWalletBalance (process_env o) (wallet_rpc o) in
            let initialBuy := Js.number_or (DeployTokenArgs.initial_buy_sol args) 0.05%Q in
            if negb (can_deploy balanceResult) then
              ret (inl (rejected (InsufficientBalance (balance_sol balanceResult))))
            else if Js.lt (available_for_deployment balanceResult) initialBuy then
              ret (inl (rejected (NotEnoughAvailable
                                    (available_for_deployment balanceResult) initialBuy)))
            else
              ret (inr {| adm_confidence := confidence;
                          adm_privateKey := privateKey;
                          adm_initialBuy := initialBuy |})
    end.

(** The record of lines 496-518. *)
Definition deploymentRecord (o : DeployOracle) (args : DeployTokenArgs.t)
    (a : Admission) : DeploymentRecord.t :=
  {| DeploymentRecord.mint := launched_mint (launch o);
     DeploymentRecord.name := DeployTokenArgs.name args;
     DeploymentRecord.symbol := DeployTokenArgs.symbol args;
     DeploymentRecord.theme := DeployTokenArgs.theme args;
     DeploymentRecord.strategy := DeployTokenArgs.strategy args;
     DeploymentRecord.deployed_at := now_deployed_at o;
     DeploymentRecord.initial_buy_sol := adm_initialBuy a;
     DeploymentRecord.perf :=
       {| DeploymentRecord.current_market_cap := 0%Q;
          DeploymentRecord.peak_market_cap := 0%Q;
          DeploymentRecord.holders := 0%Q;
          DeploymentRecord.fees_collected := 0%Q;
          DeploymentRecord.profit_sol := 0%Q;
          DeploymentRecord.outcome := active |};
     DeploymentRecord.meta :=
       {| DeploymentRecord.tweet_url := DeployTokenArgs.tweet_url args;
          DeploymentRecord.virality_score := DeployTokenArgs.virality_score args;
          DeploymentRecord.confidence_score := adm_confidence a;
          DeploymentRecord.reasoning :=
            "Deployed using " ++ strategy_name (DeployTokenArgs.strategy args)
              ++ " strategy" |} |}.

(** [`https://pump.fun/${result.mint}`] *)
Definition pump_url (mint : option string) : string :=
  "https://pump.fun/" ++ default "undefined" mint.

(** The deployment steps of [handleDeployToken] (lines 460-544): image,
    launch, record, and only then the update of [lastDeploymentTime].  The
    image URL and the launch request reach the outside only, whose answer is
    the oracle's. *)
Definition deploySteps (o : DeployOracle) (args : DeployTokenArgs.t)
    (a : Admission) : M DeploymentResult.t :=
  try_catch
    ((if openai_configured o
      then (await (generated_image o) ;;; ret tt)
      else ret tt) ;;;
     let result := launch o in
     if Js.truthy_opt_string (launch_error result) then
       ret (rejected (Message (default "" (launch_error result))))
     else
       recordDeployment (record_write o) (deploymentRecord o args a) ;;;
       modify (set_lastDeploymentTime (now_recorded o)) ;;;
       ret {| DeploymentResult.success := true;
              DeploymentResult.mint := launched_mint result;
              DeploymentResult.signature := launched_signature result;
              DeploymentResult.url := Some (pump_url (launched_mint result));
              DeploymentResult.error := None;
              DeploymentResult.deployment_id := launched_mint result |})
    (fun message => ret (rejected (Message message))).

(** What follows the safety checks: the early [return] of a rejection, or
    the deployment steps. *)
Definition afterChecks (o : DeployOracle) (args : DeployTokenArgs.t)
    (checked : DeploymentResult.t + Admission) : M DeploymentResult.t :=
  match checked with
  | inl rejection => ret rejection
  | inr admission => deploySteps o args admission
  end.

(** [handleDeployToken] (lines 395-544). *)
Definition handleDeployToken (o : DeployOracle) (args : DeployTokenArgs.t)
  : M DeploymentResult.t :=
  let* checked := safetyChecks o args in
  afterChecks o args checked.

(** Two calls of [handleDeployToken] in flight at once.  The handler is an
    [async] function: it runs until an [await] and then yields to the other
    pending handlers.  Between the read of [lastDeploymentTime] (line 413)
    and its update (line 523) it awaits [handleGetWalletBalance] (line 441),
    [generateTokenImage] (line 466), [launchToken] (line 486) and
    [recordDeployment] (line 520).  This is the schedule in which the second
    call runs its safety checks while the first one awaits [launchToken]. *)
Definition interleaved (oA : DeployOracle) (argsA : DeployTokenArgs.t)
    (oB : DeployOracle) (argsB : DeployTokenArgs.t)
  : M (DeploymentResult.t * DeploymentResult.t) :=
  let* checkedA := safetyChecks oA argsA in
  let* checkedB := safetyChecks oB argsB in
  let* resultA := afterChecks oA argsA checkedA in
  let* resultB := afterChecks oB argsB checkedB in
  ret (resultA, resultB).

(** The same two calls one after the other: the second starts when the
    first has returned. *)
Definition sequential (oA : DeployOracle) (argsA : DeployTokenArgs.t)
    (oB : DeployOracle) (argsB : DeployTokenArgs.t)
  : M (DeploymentResult.t * DeploymentResult.t) :=
  let* resultA := handleDeployToken oA argsA in
  let* resultB := handleDeployToken oB argsB in
  ret (resultA, resultB).

(** ** [handleCanDeployNow] *)

Inductive Reason :=
| MustWait (waitSeconds : Z)
    (* Must wait <waitSeconds> more seconds since last deployment *)
| BalanceTooLow (balance_sol : Q)
    (* Insufficient balance: <balance_sol> SOL *)
| BalanceCheckFailed
    (* Failed to check wallet balance *)
| PrivateKeyMissing
    (* AGENT_PRIVATE_KEY not configured *)
| OpenAIMissing
    (* OpenAI not configured - will use placeholder images *)
| AllChecksPassed.
    (* All checks passed *)

Module CanDeployResult.
Record t := {
  can_deploy : bool;
  reasons : list Reason;
  time_until_allowed_seconds : Z
}.
End CanDeployResult.

(** What one call of [handleCanDeployNow] obtains from outside. *)
Record CanDeployOracle := {
  cd_now : Z;
  cd_process_env : ProcessEnv;
  cd_wallet_rpc : outcome Wallet;
  cd_openai_configured : bool
}.

(** [handleCanDeployNow] (lines 609-658).  The local variables [canDeploy]
    and [reasons] are threaded through the four checks. *)
Definition handleCanDeployNow (o : CanDeployOracle) : M CanDeployResult.t :=
  let* w := get in
  let timeSinceLast := cd_now o - lastDeploymentTime w in
  let '(canDeploy, reasons) :=
    if (0 <? lastDeploymentTime w) && (timeSinceLast <? MIN_DEPLOYMENT_INTERVAL)
    then (false, [MustWait (Js.ceil_div (MIN_DEPLOYMENT_INTERVAL - timeSinceLast) 1000)])
    else (true, []) in
  let* '(canDeploy, reasons) :=
    try_catch
      (let* balance := handleGetWalletBalance (cd_process_env o) (cd_wallet_rpc o) in
       if negb (can_deploy balance)
       then ret (false, (reasons ++ [BalanceTooLow (balance_sol balance)])%list)
       else ret (canDeploy, reasons))
      (fun _ => ret (false, (reasons ++ [BalanceCheckFailed])%list)) in
  let '(canDeploy, reasons) :=
    if negb (Js.truthy_opt_string (privateKey_of (cd_process_env o)))
    then (false, (reasons ++ [PrivateKeyMissing])%list)
    else (canDeploy, reasons) in
  let reasons :=
    if negb (cd_openai_configured o) then (reasons ++ [OpenAIMissing])%list else reasons in
  let reasons :=
    if canDeploy && (length reasons =? 0)%nat then (reasons ++ [AllChecksPassed])%list
    else reasons in
  ret {| CanDeployResult.can_deploy := canDeploy;
         CanDeployResult.reasons := reasons;
         CanDeployResult.time_until_allowed_seconds :=
           if 0 <? lastDeploymentTime w
           then Z.max 0 (Js.ceil_div (MIN_DEPLOYMENT_INTERVAL - timeSinceLast) 1000)
           else 0 |}.

(** ** Views of the handlers

    Readings of the definitions above that the properties are stated
    with: what a stored record contributes to the cache, what a lookup
    answers, what the checks decide, why a deployment fails.  Each one is
    tied to the handler it reads by a lemma of the section "The gate, step by
    step" or "Dedup cache" below. *)

(** Every character of the string is an ASCII digit. *)
Fixpoint all_digits (s : string) : bool :=
  match s with
  | EmptyString => true
  | String c r => is_digit c && all_digits r
  end.

(** The pattern [status/<digits>] occurs in [url]: what the regular
    expression of [extractTweetId] recognises, stated on the text. *)
Definition has_status_id (url : string) : Prop :=
  exists pre d post, url = pre ++ "status/" ++ String d post /\ is_digit d = true.

(** The identifier a stored record contributes to the cache, if any. *)
Definition tweetIdOf (d : DeploymentRecord.t) : option string :=
  match DeploymentRecord.tweet_url (DeploymentRecord.meta d) with
  | Some tweetUrl => if Js.truthy_string tweetUrl then extractTweetId tweetUrl else None
  | None => None
  end.

Definition add_id (s : gset string) (d : DeploymentRecord.t) : gset string :=
  match tweetIdOf d with
  | Some tweetId => {[tweetId]} ∪ s
  | None => s
  end.

(** What the dedup cache may change: the cache and its time stamp, never the
    cooldown time stamp or the store. *)
Definition cache_only (w w' : World) : Prop :=
  lastDeploymentTime w' = lastDeploymentTime w /\ deployments w' = deployments w.

Definition not_tokenized : TokenizedCheck :=
  {| exists_ := false; existingToken := None |}.

Definition tokenized_as (label : string) : TokenizedCheck :=
  {| exists_ := true; existingToken := Some label |}.

(** The answer of [checkTweetAlreadyTokenized] for an identifier, from the
    cache after the refresh step and the two lookups. *)
Definition lookup_answer (o : DedupOracle) (tweetId : string) (w1 : World)
  : TokenizedCheck :=
  let found := List.find (tweet_url_matches tweetId) (deployments w1) in
  let direct :=
    if direct_reachable o then
      match found with
      | Some d => tokenized_as (token_label d)
      | None => not_tokenized
      end
    else not_tokenized in
  if bool_decide (tweetId ∈ deployedTweetIds w1) then
    if confirm_reachable o then
      match found with
      | Some d => tokenized_as (token_label d)
      | None => direct
      end
    else tokenized_as "Unknown token"
  else direct.

(** The balance guard as a function of the wallet the RPC node reports. *)
Definition walletBalance (wallet : Wallet) : WalletBalanceResult :=
  let balanceSOL := (inject_Z (lamports wallet) / LAMPORTS_PER_SOL)%Q in
  let available := Js.Math_max 0%Q (balanceSOL - MIN_WALLET_RESERVE)%Q in
  {| balance_sol := balanceSOL;
     available_for_deployment := available;
     can_deploy := Js.ge available 0.05%Q;
     reserve_amount := MIN_WALLET_RESERVE;
     wallet_address := address wallet |}.

(** What the checks after the duplicate check decide, from the time stamp of
    the last deployment and the oracle: they read the module state and do
    not write it. *)
Definition checksAfterDuplicate (o : DeployOracle) (args : DeployTokenArgs.t)
    (last : Z) : outcome (DeploymentResult.t + Admission) :=
  match cooldownWait last (now_cooldown o) with
  | Some waitSeconds => Returned (inl (rejected (TooSoon waitSeconds)))
  | None =>
      let confidence := Js.number_or (DeployTokenArgs.confidence_score args) 70%Q in
      if Js.lt confidence 60%Q then
        Returned (inl (rejected (ConfidenceTooLow confidence)))
      else
        let privateKey := privateKey_of (process_env o) in
        if negb (Js.truthy_opt_string privateKey) then
          Returned (inl (rejected KeyNotConfigured))
        else
          match wallet_rpc o with
          | Thrown message => Thrown message
          | Returned wallet =>
              let balanceResult := walletBalance wallet in
              let initialBuy :=
                Js.number_or (DeployTokenArgs.initial_buy_sol args) 0.05%Q in
              if negb (can_deploy balanceResult) then
                Returned (inl (rejected (InsufficientBalance (balance_sol balanceResult))))
              else if Js.lt (available_for_deployment balanceResult) initialBuy then
                Returned (inl (rejected (NotEnoughAvailable
                                           (available_for_deployment balanceResult)
                                           initialBuy)))
              else
                Returned (inr {| adm_confidence := confidence;
                                 adm_privateKey := privateKey;
                                 adm_initialBuy := initialBuy |})
          end
  end.

(** Why the deployment steps fail, if they do: the image service throws,
    [launchToken] reports an error, or the record cannot be written. *)
Definition deployFailure (o : DeployOracle) : option string :=
  match (if openai_configured o then generated_image o else Returned "") with
  | Thrown message => Some message
  | Returned _ =>
      if Js.truthy_opt_string (launch_error (launch o)) then
        Some (default "" (launch_error (launch o)))
      else
        match record_write o with
        | Thrown message => Some message
        | Returned _ => None
        end
  end.

Definition deployed (o : DeployOracle) : DeploymentResult.t :=
  {| DeploymentResult.success := true;
     DeploymentResult.mint := launched_mint (launch o);
     DeploymentResult.signature := launched_signature (launch o);
     DeploymentResult.url := Some (pump_url (launched_mint (launch o)));
     DeploymentResult.error := None;
     DeploymentResult.deployment_id := launched_mint (launch o) |}.

(** Reading a handler's result. *)
Definition deploy_success (r : outcome DeploymentResult.t) : bool :=
  match r with
  | Returned d => DeploymentResult.success d
  | Thrown _ => false
  end.

Definition deploy_error (r : outcome DeploymentResult.t) : option DeployError :=
  match r with
  | Returned d => DeploymentResult.error d
  | Thrown _ => None
  end.

(** Whether safety check 0 reports the trigger reference as a duplicate. *)
Definition reportsDuplicate (o : DeployOracle) (args : DeployTokenArgs.t)
    (w : World) : bool :=
  match fst (duplicateCheck o args w) with
  | Returned answer => exists_ answer
  | Thrown _ => false
  end.

(** The amount the proposal asks to spend: [args.initial_buy_sol || 0.05]. *)
Definition requestedSpend (args : DeployTokenArgs.t) : Q :=
  Js.number_or (DeployTokenArgs.initial_buy_sol args) 0.05%Q.

(** The confidence the gate judges: [args.confidence_score || 70]. *)
Definition effectiveConfidence (args : DeployTokenArgs.t) : Q :=
  Js.number_or (DeployTokenArgs.confidence_score args) 70%Q.

(** The two rejections of safety check 3. *)
Definition insufficient_funds (e : option DeployError) : bool :=
  match e with
  | Some (InsufficientBalance _) | Some (NotEnoughAvailable _ _) => true
  | _ => false
  end.

(** The proposal gets as far as the balance check: no duplicate, no
    cooldown, confidence accepted, key configured. *)
Definition reachesBalanceCheck (o : DeployOracle) (args : DeployTokenArgs.t)
    (w : World) : bool :=
  negb (reportsDuplicate o args w)
  && match cooldownWait (lastDeploymentTime w) (now_cooldown o) with
     | Some _ => false
     | None => true
     end
  && negb (Js.lt (effectiveConfidence args) 60%Q)
  && Js.truthy_opt_string (privateKey_of (process_env o)).

(** ** Concrete scenarios

    The values the examples run the handlers on. *)

Module Scenario.

(** A database that answers every query. *)
Definition reachable (now : Z) : DedupOracle :=
  {| now_check := now;
     refresh_reachable := true;
     now_refreshed := now + 1;
     confirm_reachable := true;
     direct_reachable := true |}.

(** A database that throws on every query. *)
Definition unreachable (now : Z) : DedupOracle :=
  {| now_check := now;
     refresh_reachable := false;
     now_refreshed := now + 1;
     confirm_reachable := false;
     direct_reachable := false |}.

Definition launched : LaunchTokenResponse :=
  {| launched_mint := Some "7xKXtg2CW87d97TXJSDpbD5jBkheTqA83TZRuJosgAsU";
     launched_signature := Some "5VERv8NMvzbJMEkV8xnrLkEaWRtSz9CosKDYjCJjBRnb";
     launch_error := None |}.


(** A call that starts at [now] with a configured key, a wallet holding
    [balance] lamports, a reachable database and a launch that answers
    [response]; the record is written 9 seconds after the cooldown check. *)
Definition oracle_with (response : LaunchTokenResponse) (now balance : Z)
  : DeployOracle :=
  {| dedup := reachable now;
     now_cooldown := now + 2;
     process_env := {| AGENT_PRIVATE_KEY := Some "agent-key"; PRIVATE_KEY := None |};
     wallet_rpc := Returned {| lamports := balance; address := "AgentWallet" |};
     openai_configured := false;
     generated_image := Returned "";
     launch := response;
     now_deployed_at := now + 9000;
     record_write := Returned tt;
     now_recorded := now + 9002 |}.

Definition oracle := oracle_with launched.

Definition proposal (tweet : option string) (confidence : option Q)
  : DeployTokenArgs.t :=
  {| DeployTokenArgs.name := "Lobster Way";
     DeployTokenArgs.symbol := "LBSTR";
     DeployTokenArgs.description := "The way of the lobster";
     DeployTokenArgs.theme := "cute lobster mascot with sunglasses";
     DeployTokenArgs.strategy := specific_moment;
     DeployTokenArgs.confidence_score := confidence;
     DeployTokenArgs.initial_buy_sol := Some 0.05%Q;
     DeployTokenArgs.image_style := None;
     DeployTokenArgs.tweet_url := tweet;
     DeployTokenArgs.virality_score := None |}.

(** The world a call leaves behind. *)
Definition after (o : DeployOracle) (args : DeployTokenArgs.t) (w : World) : World :=
  snd (handleDeployToken o args w).

(** The start of the process, in milliseconds since the epoch. *)
Definition t0 : Z := 1700000000000.

End Scenario.

(** * The rest of the deployment tools and their callers *)

From Stdlib Require Import Lqa Qround Qpower Sorted Permutation.

(** ** Double precision

    The numbers of the source are IEEE 754 doubles.  A double is a rational;
    an operation of the source gives the exact result rounded to 53
    significant bits, to the nearest, a tie to the even one.  Overflow and
    subnormal numbers are left out: the properties below state the range of
    their inputs, in which neither occurs. *)

Module Binary64.

(** Round to the nearest integer, a tie to the even one. *)
Definition rne (m : Q) : Z :=
  let f := Qfloor m in
  match (m - inject_Z f ?= 1 # 2)%Q with
  | Lt => f
  | Gt => f + 1
  | Eq => if Z.even f then f else f + 1
  end.

(** The exponent [e] of a positive number: [2^e <= x < 2^(e+1)]. *)
Definition exponent (x : Q) : Z :=
  let e0 := Z.log2 (Qnum x) - Z.log2 (Zpos (Qden x)) in
  if Qle_bool (2 ^ e0) x then e0 else e0 - 1.

(** A positive number rounded to 53 significant bits. *)
Definition round_positive (x : Q) : Q :=
  let ulp := (2 ^ (exponent x - 52))%Q in
  (inject_Z (rne (x / ulp)) * ulp)%Q.

(** The double nearest to a rational. *)
Definition round64 (x : Q) : Q :=
  match (x ?= 0)%Q with
  | Eq => 0%Q
  | Gt => round_positive x
  | Lt => (- round_positive (- x))%Q
  end.

(** [x + y], [x - y], [x * y] and [x / y] on doubles. *)
Definition add (x y : Q) : Q := round64 (x + y).
Definition sub (x y : Q) : Q := round64 (x - y).
Definition mul (x y : Q) : Q := round64 (x * y).
Definition div (x y : Q) : Q := round64 (x / y).

(** A decimal literal of the source denotes the double nearest to it. *)
Definition literal (q : Q) : Q := round64 q.

(** [MIN_WALLET_RESERVE] (line 111), [LAMPORTS_PER_SOL] and the threshold of
    line 293, as doubles. *)
Definition MIN_WALLET_RESERVE : Q := literal 0.3.
Definition LAMPORTS_PER_SOL : Q := 1000000000%Q.
Definition MIN_DEPLOYABLE : Q := literal 0.05.

(** [handleGetWalletBalance] (lines 276-297) with the arithmetic of the
    source.  [getBalance] gives a whole number of lamports. *)
Definition handleGetWalletBalance (e : ProcessEnv) (rpc : outcome Wallet)
  : M WalletBalanceResult :=
  if negb (Js.truthy_opt_string (privateKey_of e))
  then throw "AGENT_PRIVATE_KEY not configured"
  else
    let* wallet := await rpc in
    let balanceSOL := div (inject_Z (lamports wallet)) LAMPORTS_PER_SOL in
    let available := Js.Math_max 0%Q (sub balanceSOL MIN_WALLET_RESERVE) in
    ret {| balance_sol := balanceSOL;
           available_for_deployment := available;
           can_deploy := Js.ge available MIN_DEPLOYABLE;
           reserve_amount := MIN_WALLET_RESERVE;
           wallet_address := address wallet |}.

End Binary64.

(** The largest whole number up to which every whole number is a double. *)
Definition MAX_SAFE_INTEGER : Z := 2 ^ 53 - 1.

(** ** Invariants of the module state *)

(** Every identifier in the dedup cache occurs in the tweet URL of a stored
    record: the cache is filled from the store only (lines 150 and 205). *)
Definition cache_sound (w : World) : Prop :=
  forall tweetId,
    tweetId ∈ deployedTweetIds w ->
    exists d, In d (deployments w) /\ tweet_url_matches tweetId d = true.

(** A series of [deploy_token] calls handled one after the other, each with
    its own oracle.  A call that throws (answered with HTTP 500 by the
    router) does not stop the calls after it. *)
Fixpoint runCalls (calls : list (DeployOracle * DeployTokenArgs.t)) (w : World)
  : list (outcome DeploymentResult.t) * World :=
  match calls with
  | [] => ([], w)
  | (o, args) :: rest =>
      let (result, w1) := handleDeployToken o args w in
      let (results, w2) := runCalls rest w1 in
      (result :: results, w2)
  end.

(** The calls of a series that were deployed. *)
Definition successes (results : list (outcome DeploymentResult.t)) : nat :=
  length (List.filter deploy_success results).

(** The values [handleDeployToken] goes on with after its checks
    (lines 423, 432 and 442). *)
Definition admissionOf (o : DeployOracle) (args : DeployTokenArgs.t) : Admission :=
  {| adm_confidence := effectiveConfidence args;
     adm_privateKey := privateKey_of (process_env o);
     adm_initialBuy := requestedSpend args |}.

(** ** Tool routing ([src/core/tools.ts], [src/core/server.ts] and the
    research and Twitter tool modules)

    A tool of the lists is kept by its [name]; the dispatchers are followed
    up to the handler they call ([return await handle...(args)]), which is
    named by a constructor of [Handler]. *)

Module Routing.

Inductive Handler :=
| handleGetCoinState | handleBuyback | handleBurnTokens | handleAirdropSol
| handleAirdropTokens | handleSendSolToTreasury | handleSendTokensToTreasury
| handleScanMarketMeta | handleFindTwitterOpportunities
| handleAnalyzeTokenPatterns | handleFindAllOpportunities
| handleGetRollingSummary | handleGetWalletBalance | handleDeployToken
| handleGetRecentDeployments | handleCanDeployNow
| handleSearchTwitterCustom | handleSearchTwitterFresh | handleGetTweetDetails.

(** The names of [COIN_TOOLS] ([tools.ts], lines 26-155). *)
Definition COIN_TOOLS : list string :=
  ["get_coin_state"; "buyback"; "burn_tokens"; "airdrop_sol"; "airdrop_tokens";
   "send_sol_to_treasury"; "send_tokens_to_treasury"].

(** The names of [RESEARCH_TOOLS] (research tools, lines 252-257). *)
Definition RESEARCH_TOOLS : list string :=
  ["scan_market_meta"; "find_twitter_opportunities"; "analyze_token_patterns";
   "find_all_opportunities"].

(** The names of [DEPLOYMENT_TOOLS] ([server.ts], lines 663-669). *)
Definition DEPLOYMENT_TOOLS : list string :=
  ["get_rolling_summary"; "get_wallet_balance"; "deploy_token";
   "get_recent_deployments"; "can_deploy_now"].

(** The names of [TWITTER_TOOLS] (Twitter tools, lines 14-122). *)
Definition TWITTER_TOOLS : list string :=
  ["search_twitter_custom"; "search_twitter_fresh"; "get_tweet_details"].

(** [MCP_TOOLS] ([tools.ts], lines 160-165). *)
Definition MCP_TOOLS : list string :=
  (COIN_TOOLS ++ RESEARCH_TOOLS ++ DEPLOYMENT_TOOLS ++ TWITTER_TOOLS)%list.

(** [list.includes(toolName)] *)
Definition includes (l : list string) (toolName : string) : bool :=
  existsb (String.eqb toolName) l.

(** [executeResearchToolCall] (research tools, lines 262-275). *)
Definition executeResearchToolCall (toolName : string) : outcome Handler :=
  if String.eqb toolName "scan_market_meta" then Returned handleScanMarketMeta
  else if String.eqb toolName "find_twitter_opportunities"
       then Returned handleFindTwitterOpportunities
  else if String.eqb toolName "analyze_token_patterns"
       then Returned handleAnalyzeTokenPatterns
  else if String.eqb toolName "find_all_opportunities"
       then Returned handleFindAllOpportunities
  else Thrown ("Unknown research tool: " ++ toolName).

(** [executeDeploymentToolCall] ([server.ts], lines 674-689). *)
Definition executeDeploymentToolCall (toolName : string) : outcome Handler :=
  if String.eqb toolName "get_rolling_summary" then Returned handleGetRollingSummary
  else if String.eqb toolName "get_wallet_balance" then Returned handleGetWalletBalance
  else if String.eqb toolName "deploy_token" then Returned handleDeployToken
  else if String.eqb toolName "get_recent_deployments"
       then Returned handleGetRecentDeployments
  else if String.eqb toolName "can_deploy_now" then Returned handleCanDeployNow
  else Thrown ("Unknown deployment tool: " ++ toolName).

(** [executeTwitterToolCall] (Twitter tools, lines 127-138). *)
Definition executeTwitterToolCall (toolName : string) : outcome Handler :=
  if String.eqb toolName "search_twitter_custom" then Returned handleSearchTwitterCustom
  else if String.eqb toolName "search_twitter_fresh"
       then Returned handleSearchTwitterFresh
  else if String.eqb toolName "get_tweet_details" then Returned handleGetTweetDetails
  else Thrown ("Unknown Twitter tool: " ++ toolName).

(** [executeToolCall] ([tools.ts], lines 320-359). *)
Definition executeToolCall (toolName : string) : outcome Handler :=
  if String.eqb toolName "get_coin_state" then Returned handleGetCoinState
  else if String.eqb toolName "buyback" then Returned handleBuyback
  else if String.eqb toolName "burn_tokens" then Returned handleBurnTokens
  else if String.eqb toolName "airdrop_sol" then Returned handleAirdropSol
  else if String.eqb toolName "airdrop_tokens" then Returned handleAirdropTokens
  else if String.eqb toolName "send_sol_to_treasury"
       then Returned handleSendSolToTreasury
  else if String.eqb toolName "send_tokens_to_treasury"
       then Returned handleSendTokensToTreasury
  else if includes ["scan_market_meta"; "find_twitter_opportunities";
                    "analyze_token_patterns"; "find_all_opportunities"] toolName
       then executeResearchToolCall toolName
  else if includes ["get_rolling_summary"; "get_wallet_balance"; "deploy_token";
                    "get_recent_deployments"; "can_deploy_now"] toolName
       then executeDeploymentToolCall toolName
  else if includes ["search_twitter_custom"; "search_twitter_fresh";
                    "get_tweet_details"] toolName
       then executeTwitterToolCall toolName
  else Thrown ("Unknown tool: " ++ toolName).

(** The answers of [POST /mcp/tools/:toolName] ([server.ts], lines 34-67),
    for a handler result of type [R]. *)
Inductive Response (R : Type) :=
| NotFound (toolName : string)      (* 404, Tool "<toolName>" does not exist *)
| Success (result : R)              (* 200, { success: true, result } *)
| ServerError (message : string).   (* 500, { success: false, error } *)
Arguments NotFound {R} toolName.
Arguments Success {R} result.
Arguments ServerError {R} message.

(** Node's message for [const { arguments: args } = req.body] when
    [req.body] is [undefined]. *)
Definition cannot_destructure_body : string :=
  "Cannot destructure property 'arguments' of 'req.body' as it is undefined.".

(** The route [POST /mcp/tools/:toolName] (lines 34-67).  Inside the [try],
    the arguments are taken from the body of the request (line 37), the tool
    is looked up in [MCP_TOOLS], then [executeToolCall] runs.  [body] is
    [req.body]: [None] when no body was parsed, and otherwise its
    [arguments] property, which may be missing; [run] is what the handler
    that is called does with the arguments. *)
Definition postTool {A R} (run : Handler -> option A -> outcome R)
    (body : option (option A)) (toolName : string) : Response R :=
  match body with
  | None => ServerError cannot_destructure_body
  | Some args =>
      match List.find (String.eqb toolName) MCP_TOOLS with
      | None => NotFound toolName
      | Some _ =>
          match executeToolCall toolName with
          | Returned handler =>
              match run handler args with
              | Returned result => Success result
              | Thrown message => ServerError message
              end
          | Thrown message => ServerError message
          end
      end
  end.

End Routing.

(** ** Coin tools ([src/core/tools.ts]) and the holders query
    ([src/clients/soltracker.ts]) *)

Module CoinTools.

(** [Holder] of the Solana Tracker client. *)
Record Holder := {
  holder_address : string;
  holder_balance : Q
}.

(** One entry of the [accounts] or [holders] array of the API. *)
Record RawHolder := {
  raw_wallet : option string;
  raw_owner : option string;
  raw_address : option string;
  raw_amount : option Q;
  raw_balance : option Q
}.

(** The body of the holders response. *)
Record HoldersBody := {
  body_accounts : option (list RawHolder);
  body_holders : option (list RawHolder)
}.

(** What [fetch] gives: it throws, or answers with [ok] and a body whose
    [json()] may throw. *)
Record HttpResponse (Body : Type) := {
  ok : bool;
  status : Z;
  json : outcome Body
}.
Arguments ok {Body} _.
Arguments status {Body} _.
Arguments json {Body} _.

(** [a || b] on optional strings. *)
Definition string_or (a b : option string) : option string :=
  if Js.truthy_opt_string a then a else b.

(** [a || b] on optional numbers. *)
Definition number_or_opt (a b : option Q) : option Q :=
  match a with
  | Some q => if Js.truthy_number q then a else b
  | None => b
  end.

(** The transformation of lines 72-75. *)
Definition toHolder (h : RawHolder) : Holder :=
  {| holder_address :=
       default "" (string_or (string_or (raw_wallet h) (raw_owner h)) (raw_address h));
     holder_balance :=
       Js.number_or (number_or_opt (raw_amount h) (raw_balance h)) 0%Q |}.

(** [getHolders] ([soltracker.ts], lines 34-82).  An array, also an empty
    one, is truthy: [data.accounts || data.holders || []] takes [accounts]
    whenever it is present. *)
Definition getHolders (response : outcome (HttpResponse HoldersBody)) : list Holder :=
  match response with
  | Thrown _ => []
  | Returned r =>
      if negb (ok r) then []
      else
        match json r with
        | Thrown _ => []
        | Returned data =>
            let accountsArray :=
              match body_accounts data with
              | Some accounts => accounts
              | None => default [] (body_holders data)
              end in
            List.map toHolder accountsArray
        end
  end.

(** The flags of [coin.enabled_actions] that the handlers read. *)
Record EnabledActions := {
  buyback : bool;
  burn : bool;
  airdrop_sol : bool;
  airdrop_tokens : bool;
  treasury_sol : bool;
  treasury_tokens : bool
}.

(** The fields of a [Coin] document ([models/coin.js]) that the handlers
    read; [stats] is passed through as it is stored. *)
Record Coin := {
  mint : string;
  name : string;
  symbol : string;
  coin_status : string;
  stats : string;
  enabled_actions : option EnabledActions;
  treasury_wallet : option string
}.

(** [coin.enabled_actions?.<flag>] *)
Definition enabled (flag : EnabledActions -> bool) (coin : Coin) : bool :=
  match enabled_actions coin with
  | Some actions => flag actions
  | None => false
  end.

(** The arguments of a coin tool ([args: any]). *)
Record CoinArgs := {
  coin_mint : string;
  amount_sol : option Q;
  percentage : option Q
}.

(** The executor a handler ends in ([return await execute...(...)]); the
    executors are in [engine/executor.js]. *)
Inductive ExecutorCall :=
| executeBuyback (coin : Coin) (amount_sol : option Q)
| executeBurnTokens (coin : Coin) (percentage : option Q)
| executeAirdropSol (coin : Coin) (amount_sol : option Q) (holders : list Holder)
| executeAirdropTokens (coin : Coin) (percentage : option Q) (holders : list Holder)
| executeSendSolToTreasury (coin : Coin) (amount_sol : option Q)
| executeSendTokensToTreasury (coin : Coin) (percentage : option Q).

(** [coinsCollection.findOne({ mint: coin_mint })] followed by the
    "not found" check that opens every handler; the collection is given by
    the documents it holds, or the query throws. *)
Definition findCoin (coins : outcome (list Coin)) (args : CoinArgs) : outcome Coin :=
  match coins with
  | Thrown message => Thrown message
  | Returned documents =>
      match List.find (fun c => String.eqb (mint c) (coin_mint args)) documents with
      | Some coin => Returned coin
      | None => Thrown ("Coin " ++ coin_mint args ++ " not found")
      end
  end.

(** [handleBuyback] (lines 203-218). *)
Definition handleBuyback (coins : outcome (list Coin)) (args : CoinArgs)
  : outcome ExecutorCall :=
  match findCoin coins args with
  | Thrown message => Thrown message
  | Returned coin =>
      if negb (enabled buyback coin)
      then Thrown "Buyback action is not enabled for this coin"
      else Returned (executeBuyback coin (amount_sol args))
  end.

(** [handleBurnTokens] (lines 220-235). *)
Definition handleBurnTokens (coins : outcome (list Coin)) (args : CoinArgs)
  : outcome ExecutorCall :=
  match findCoin coins args with
  | Thrown message => Thrown message
  | Returned coin =>
      if negb (enabled burn coin)
      then Thrown "Burn action is not enabled for this coin"
      else Returned (executeBurnTokens coin (percentage args))
  end.

(** [handleAirdropSol] (lines 237-254). *)
Definition handleAirdropSol (coins : outcome (list Coin))
    (holders : outcome (HttpResponse HoldersBody)) (args : CoinArgs)
  : outcome ExecutorCall :=
  match findCoin coins args with
  | Thrown message => Thrown message
  | Returned coin =>
      if negb (enabled airdrop_sol coin)
      then Thrown "Airdrop SOL action is not enabled for this coin"
      else Returned (executeAirdropSol coin (amount_sol args) (getHolders holders))
  end.

(** [handleAirdropTokens] (lines 256-273). *)
Definition handleAirdropTokens (coins : outcome (list Coin))
    (holders : outcome (HttpResponse HoldersBody)) (args : CoinArgs)
  : outcome ExecutorCall :=
  match findCoin coins args with
  | Thrown message => Thrown message
  | Returned coin =>
      if negb (enabled airdrop_tokens coin)
      then Thrown "Airdrop tokens action is not enabled for this coin"
      else Returned (executeAirdropTokens coin (percentage args) (getHolders holders))
  end.

Definition no_treasury_wallet : string :=
  "Treasury wallet is not configured for this coin. Please set a treasury wallet before using treasury actions.".

(** [handleSendSolToTreasury] (lines 275-294). *)
Definition handleSendSolToTreasury (coins : outcome (list Coin)) (args : CoinArgs)
  : outcome ExecutorCall :=
  match findCoin coins args with
  | Thrown message => Thrown message
  | Returned coin =>
      if negb (enabled treasury_sol coin)
      then Thrown "Send SOL to treasury action is not enabled for this coin"
      else if negb (Js.truthy_opt_string (treasury_wallet coin))
      then Thrown no_treasury_wallet
      else Returned (executeSendSolToTreasury coin (amount_sol args))
  end.

(** [handleSendTokensToTreasury] (lines 296-315). *)
Definition handleSendTokensToTreasury (coins : outcome (list Coin)) (args : CoinArgs)
  : outcome ExecutorCall :=
  match findCoin coins args with
  | Thrown message => Thrown message
  | Returned coin =>
      if negb (enabled treasury_tokens coin)
      then Thrown "Send tokens to treasury action is not enabled for this coin"
      else if negb (Js.truthy_opt_string (treasury_wallet coin))
      then Thrown no_treasury_wallet
      else Returned (executeSendTokensToTreasury coin (percentage args))
  end.

(** The six handlers that end in an executor, by the handler
    [executeToolCall] reaches. *)
Definition coinAction (handler : Routing.Handler) (coins : outcome (list Coin))
    (holders : outcome (HttpResponse HoldersBody)) (args : CoinArgs)
  : option (outcome ExecutorCall) :=
  match handler with
  | Routing.handleBuyback => Some (handleBuyback coins args)
  | Routing.handleBurnTokens => Some (handleBurnTokens coins args)
  | Routing.handleAirdropSol => Some (handleAirdropSol coins holders args)
  | Routing.handleAirdropTokens => Some (handleAirdropTokens coins holders args)
  | Routing.handleSendSolToTreasury => Some (handleSendSolToTreasury coins args)
  | Routing.handleSendTokensToTreasury => Some (handleSendTokensToTreasury coins args)
  | _ => None
  end.

(** The coin an executor is called with, the flag of [enabled_actions]
    that belongs to it, and whether it pays into the treasury. *)
Definition call_coin (call : ExecutorCall) : Coin :=
  match call with
  | executeBuyback coin _ | executeBurnTokens coin _
  | executeAirdropSol coin _ _ | executeAirdropTokens coin _ _
  | executeSendSolToTreasury coin _ | executeSendTokensToTreasury coin _ => coin
  end.

Definition call_flag (call : ExecutorCall) : EnabledActions -> bool :=
  match call with
  | executeBuyback _ _ => buyback
  | executeBurnTokens _ _ => burn
  | executeAirdropSol _ _ _ => airdrop_sol
  | executeAirdropTokens _ _ _ => airdrop_tokens
  | executeSendSolToTreasury _ _ => treasury_sol
  | executeSendTokensToTreasury _ _ => treasury_tokens
  end.

Definition to_treasury (call : ExecutorCall) : bool :=
  match call with
  | executeSendSolToTreasury _ _ | executeSendTokensToTreasury _ _ => true
  | _ => false
  end.

(** The tool each executor serves. *)
Definition call_tool (call : ExecutorCall) : string :=
  match call with
  | executeBuyback _ _ => "buyback"
  | executeBurnTokens _ _ => "burn_tokens"
  | executeAirdropSol _ _ _ => "airdrop_sol"
  | executeAirdropTokens _ _ _ => "airdrop_tokens"
  | executeSendSolToTreasury _ _ => "send_sol_to_treasury"
  | executeSendTokensToTreasury _ _ => "send_tokens_to_treasury"
  end.

End CoinTools.

(** ** [launchToken] ([src/clients/pumpportal.ts], lines 248-389) *)

Module PumpPortal.

(** A thrown value as the [catch] block reads it: its message
    ([error.message], or [String(error)]) and whether it is an object with
    a [logs] property (a [SendTransactionError]). *)
Record Exception := {
  message : string;
  has_logs : bool
}.

(** [new Error(message)] *)
Definition Error (text : string) : Exception :=
  {| message := text; has_logs := false |}.

(** A step of the [try] block: it gives a value or throws. *)
Inductive attempt (A : Type) :=
| Done (a : A)
| Failed (e : Exception).
Arguments Done {A} a.
Arguments Failed {A} e.

Definition andThen {A B} (step : attempt A) (k : A -> attempt B) : attempt B :=
  match step with
  | Done a => k a
  | Failed e => Failed e
  end.

Declare Scope attempt_scope.
Delimit Scope attempt_scope with attempt.
Notation "'let*' x ':=' c 'in' k" := (andThen c (fun x => k)) : attempt_scope.

(** [LaunchTokenRequest] *)
Record LaunchTokenRequest := {
  name : string;
  symbol : string;
  description : string;
  imageUrl : string;
  twitter : option string;
  telegram : option string;
  website : option string;
  initialBuyAmount : option Q
}.

(** The answer of [fetch(request.imageUrl)]. *)
Record ImageResponse := {
  image_ok : bool;
  image_statusText : string;
  image_buffer : attempt string
}.

(** The form posted to [https://pump.fun/api/ipfs]. *)
Record MetadataForm := {
  form_name : string;
  form_symbol : string;
  form_description : string;
  form_showName : string;
  form_twitter : option string;
  form_telegram : option string;
  form_website : option string;
  form_file : string
}.

(** The JSON body of the metadata answer. *)
Record MetadataJson := {
  metadataUri : option string;
  metadata_name : option string;
  metadata_symbol : option string
}.

Record MetadataResponse := {
  metadata_ok : bool;
  metadata_text : attempt string;
  metadata_json : attempt MetadataJson
}.

(** The body posted to [trade-local]. *)
Record CreateRequest := {
  publicKey : string;
  action : string;
  token_name : string;
  token_symbol : string;
  token_uri : option string;
  mint : string;
  denominatedInSol : string;
  amount : Q;
  slippage : Q;
  priorityFee : Q;
  pool : string;
  isMayhemMode : string
}.

Record CreateResponse := {
  create_status : Z;
  create_text : attempt string;
  create_arrayBuffer : attempt string
}.

(** What one call of [launchToken] obtains from outside, in the order of
    the source: the signer's public key from [keypairFromPrivateKey], the
    public key of [Keypair.generate()], the three HTTP exchanges, the
    deserialisation and the signing of the transaction, the balance read
    (with the [new Connection] before it) and [sendTransaction]. *)
Record LaunchOracle := {
  signer : string -> attempt string;
  mint_address : string;
  fetch_image : string -> attempt ImageResponse;
  post_metadata : MetadataForm -> attempt MetadataResponse;
  post_create : CreateRequest -> attempt CreateResponse;
  deserialize : string -> attempt string;
  sign : string -> attempt string;
  getBalance : attempt Z;
  sendTransaction : string -> attempt string
}.

(** [if (request.x) formData.append('x', request.x)] *)
Definition if_truthy (o : option string) : option string :=
  if Js.truthy_opt_string o then o else None.

(** [a || b] for an optional string and a string. *)
Definition string_or (o : option string) (d : string) : string :=
  if Js.truthy_opt_string o then default d o else d.

Definition metadataForm (request : LaunchTokenRequest) (imageBuffer : string)
  : MetadataForm :=
  {| form_name := name request;
     form_symbol := symbol request;
     form_description := description request;
     form_showName := "true";
     form_twitter := if_truthy (twitter request);
     form_telegram := if_truthy (telegram request);
     form_website := if_truthy (website request);
     form_file := imageBuffer |}.

Definition createRequest (request : LaunchTokenRequest) (signerKey mintKey : string)
    (metadataJson : MetadataJson) : CreateRequest :=
  let buyAmount := Js.number_or (initialBuyAmount request) 0.01%Q in
  {| publicKey := signerKey;
     action := "create";
     token_name := string_or (metadata_name metadataJson) (name request);
     token_symbol := string_or (metadata_symbol metadataJson) (symbol request);
     token_uri := metadataUri metadataJson;
     mint := mintKey;
     denominatedInSol := "true";
     amount := buyAmount;
     slippage := 10%Q;
     priorityFee := 0.0005%Q;
     pool := "pump";
     isMayhemMode := "false" |}.

(** The [try] block (lines 252-366): the mint address and the signature. *)
Definition launchSteps (o : LaunchOracle) (privateKey : string)
    (request : LaunchTokenRequest) : attempt (string * string) :=
  (let* signerKey := signer o privateKey in
   let* imageResponse := fetch_image o (imageUrl request) in
   if negb (image_ok imageResponse) then
     Failed (Error ("Failed to fetch image: " ++ image_statusText imageResponse))
   else
     let* imageBuffer := image_buffer imageResponse in
     let* metadataResponse := post_metadata o (metadataForm request imageBuffer) in
     if negb (metadata_ok metadataResponse) then
       let* errorText := metadata_text metadataResponse in
       Failed (Error ("Failed to upload metadata to Pump.fun: " ++ errorText))
     else
       let* metadataJson := metadata_json metadataResponse in
       let* response :=
         post_create o (createRequest request signerKey (mint_address o) metadataJson) in
       if negb (create_status response =? 200) then
         let* errorText := create_text response in
         Failed (Error ("Failed to get create transaction: " ++ errorText))
       else
         let* data := create_arrayBuffer response in
         let* tx := deserialize o data in
         let* signed := sign o tx in
         let* balance := getBalance o in
         let* signature := sendTransaction o signed in
         Done (mint_address o, signature))%attempt.

Definition insufficient_balance_hint : string :=
  "Insufficient balance to complete transaction. The wallet needs more SOL to cover: token creation fees (~0.01 SOL) + initial buy amount + account rent (~0.01 SOL) + priority fees (~0.0005 SOL) + buffer for network fees. Please add at least 0.05 SOL to your wallet. Original error: ".

(** The message of the [catch] block (lines 368-387). *)
Definition launchErrorMessage (e : Exception) : string :=
  if has_logs e && contains "0x1" (message e)
  then insufficient_balance_hint ++ message e
  else message e.

(** [launchToken]. *)
Definition launchToken (o : LaunchOracle) (privateKey : string)
    (request : LaunchTokenRequest) : LaunchTokenResponse :=
  match launchSteps o privateKey request with
  | Done (mintKey, signature) =>
      {| launched_mint := Some mintKey;
         launched_signature := Some signature;
         launch_error := None |}
  | Failed e =>
      {| launched_mint := None;
         launched_signature := None;
         launch_error := Some (launchErrorMessage e) |}
  end.

End PumpPortal.

(** The same oracle with another answer of the balance read. *)
Definition with_balance (o : PumpPortal.LaunchOracle) (balance : Z)
  : PumpPortal.LaunchOracle :=
  {| PumpPortal.signer := PumpPortal.signer o;
     PumpPortal.mint_address := PumpPortal.mint_address o;
     PumpPortal.fetch_image := PumpPortal.fetch_image o;
     PumpPortal.post_metadata := PumpPortal.post_metadata o;
     PumpPortal.post_create := PumpPortal.post_create o;
     PumpPortal.deserialize := PumpPortal.deserialize o;
     PumpPortal.sign := PumpPortal.sign o;
     PumpPortal.getBalance := PumpPortal.Done balance;
     PumpPortal.sendTransaction := PumpPortal.sendTransaction o |}.

(** Every step of [launchToken] answers: the chain of values from the
    private key to the signature. *)
Definition launch_chain (o : PumpPortal.LaunchOracle) (privateKey : string)
    (request : PumpPortal.LaunchTokenRequest) (signature : string) : Prop :=
  exists signerKey imageResponse imageBuffer metadataResponse metadataJson
         response data tx signed balance,
    PumpPortal.signer o privateKey = PumpPortal.Done signerKey
    /\ PumpPortal.fetch_image o (PumpPortal.imageUrl request)
       = PumpPortal.Done imageResponse
    /\ PumpPortal.image_ok imageResponse = true
    /\ PumpPortal.image_buffer imageResponse = PumpPortal.Done imageBuffer
    /\ PumpPortal.post_metadata o (PumpPortal.metadataForm request imageBuffer)
       = PumpPortal.Done metadataResponse
    /\ PumpPortal.metadata_ok metadataResponse = true
    /\ PumpPortal.metadata_json metadataResponse = PumpPortal.Done metadataJson
    /\ PumpPortal.post_create o
         (PumpPortal.createRequest request signerKey (PumpPortal.mint_address o)
            metadataJson)
       = PumpPortal.Done response
    /\ PumpPortal.create_status response = 200
    /\ PumpPortal.create_arrayBuffer response = PumpPortal.Done data
    /\ PumpPortal.deserialize o data = PumpPortal.Done tx
    /\ PumpPortal.sign o tx = PumpPortal.Done signed
    /\ PumpPortal.getBalance o = PumpPortal.Done balance
    /\ PumpPortal.sendTransaction o signed = PumpPortal.Done signature.

(** A launch in which every service answers. *)
Definition launch_answers : PumpPortal.LaunchOracle :=
  {| PumpPortal.signer := fun _ => PumpPortal.Done "AgentWallet";
     PumpPortal.mint_address := "7xKXtg2CW87d97TXJSDpbD5jBkheTqA83TZRuJosgAsU";
     PumpPortal.fetch_image := fun _ =>
       PumpPortal.Done {| PumpPortal.image_ok := true;
                          PumpPortal.image_statusText := "OK";
                          PumpPortal.image_buffer := PumpPortal.Done "png" |};
     PumpPortal.post_metadata := fun _ =>
       PumpPortal.Done
         {| PumpPortal.metadata_ok := true;
            PumpPortal.metadata_text := PumpPortal.Done "";
            PumpPortal.metadata_json :=
              PumpPortal.Done {| PumpPortal.metadataUri := Some "ipfs://meta";
                                 PumpPortal.metadata_name := None;
                                 PumpPortal.metadata_symbol := None |} |};
     PumpPortal.post_create := fun _ =>
       PumpPortal.Done {| PumpPortal.create_status := 200;
                          PumpPortal.create_text := PumpPortal.Done "";
                          PumpPortal.create_arrayBuffer := PumpPortal.Done "tx" |};
     PumpPortal.deserialize := fun data => PumpPortal.Done data;
     PumpPortal.sign := fun tx => PumpPortal.Done tx;
     PumpPortal.getBalance := PumpPortal.Done 400000000;
     PumpPortal.sendTransaction := fun _ =>
       PumpPortal.Done "5VERv8NMvzbJMEkV8xnrLkEaWRtSz9CosKDYjCJjBRnb" |}.

(** The same launch when signing throws an error without a message. *)
Definition launch_fails_silently : PumpPortal.LaunchOracle :=
  {| PumpPortal.signer := PumpPortal.signer launch_answers;
     PumpPortal.mint_address := PumpPortal.mint_address launch_answers;
     PumpPortal.fetch_image := PumpPortal.fetch_image launch_answers;
     PumpPortal.post_metadata := PumpPortal.post_metadata launch_answers;
     PumpPortal.post_create := PumpPortal.post_create launch_answers;
     PumpPortal.deserialize := PumpPortal.deserialize launch_answers;
     PumpPortal.sign := fun _ => PumpPortal.Failed (PumpPortal.Error "");
     PumpPortal.getBalance := PumpPortal.getBalance launch_answers;
     PumpPortal.sendTransaction := PumpPortal.sendTransaction launch_answers |}.

Definition launch_request : PumpPortal.LaunchTokenRequest :=
  {| PumpPortal.name := "Lobster Way";
     PumpPortal.symbol := "LBSTR";
     PumpPortal.description := "The way of the lobster";
     PumpPortal.imageUrl := "https://via.placeholder.com/512/7C3AED/FFFFFF?text=LBSTR";
     PumpPortal.twitter := None;
     PumpPortal.telegram := None;
     PumpPortal.website := None;
     PumpPortal.initialBuyAmount := Some 0.05%Q |}.

(** A coin with buybacks switched on and nothing else. *)
Definition lobster_coin : CoinTools.Coin :=
  {| CoinTools.mint := "7xKXtg2CW87d97TXJSDpbD5jBkheTqA83TZRuJosgAsU";
     CoinTools.name := "Lobster Way";
     CoinTools.symbol := "LBSTR";
     CoinTools.coin_status := "active";
     CoinTools.stats := "{}";
     CoinTools.enabled_actions :=
       Some {| CoinTools.buyback := true;
               CoinTools.burn := false;
               CoinTools.airdrop_sol := false;
               CoinTools.airdrop_tokens := false;
               CoinTools.treasury_sol := false;
               CoinTools.treasury_tokens := false |};
     CoinTools.treasury_wallet := None |}.

Definition lobster_buyback : CoinTools.CoinArgs :=
  {| CoinTools.coin_mint := "7xKXtg2CW87d97TXJSDpbD5jBkheTqA83TZRuJosgAsU";
     CoinTools.amount_sol := Some 0.1%Q;
     CoinTools.percentage := None |}.

(** ** Twitter tools ([src/unnamed/part_004]) *)

Module TwitterTools.

(** [TWITTER_CONFIG] of [research/twitter-client.js]: the settings the
    handlers read. *)
Record Config := {
  FRESH_CONTENT_HOURS : Q;
  MAX_PAGES_PER_QUERY : Q;
  MIN_ENGAGEMENT_FRESH : Q
}.

(** A [Tweet] as the handlers read it.  [createdAt] is what
    [new Date(t.createdAt).getTime()] gives: milliseconds since the epoch,
    or [None] for [NaN] (a date that does not parse). *)
Record Tweet := {
  id : string;
  text : string;
  createdAt : option Z;
  author_username : string;
  author_followers : Q;
  likes : Q;
  retweets : Q;
  url : string
}.

Record ViralMoment := {
  tweet : Tweet;
  tokenizableConcept : option string;
  viralityScore : Q;
  reasoning : string
}.

(** [Math.round]: the nearest integer, a half rounded up.  It is exact:
    its argument is a double, its result the whole number nearest to it. *)
Definition Math_round (q : Q) : Z := Qfloor (q + (1 # 2))%Q.

(** [(Date.now() - new Date(createdAt).getTime()) / (1000 * 60 * 60)];
    [None] is [NaN].  The two times are whole numbers of milliseconds, so
    their difference is exact; the division is the double one. *)
Definition ageHours (now : Z) (created : option Z) : option Q :=
  match created with
  | Some t => Some (Binary64.div (inject_Z (now - t)) 3600000)
  | None => None
  end.

(** [Math.round(ageHours)] *)
Definition roundedAge (now : Z) (created : option Z) : option Z :=
  match ageHours now created with
  | Some age => Some (Math_round age)
  | None => None
  end.

(** [50 - (ageHours * 50 / 48)], each operation rounded as the source
    rounds it. *)
Definition freshness (age : Q) : Q :=
  Binary64.sub 50 (Binary64.div (Binary64.mul age 50) 48).

(** [Math.max(0, Math.round(50 - (ageHours * 50 / 48)))] *)
Definition freshnessScore (now : Z) (created : option Z) : option Z :=
  match ageHours now created with
  | Some age => Some (Z.max 0 (Math_round (freshness age)))
  | None => None
  end.

(** [text.substring(0, 200) + (text.length > 200 ? '...' : '')]; the
    characters of the string are the code units of the JavaScript string. *)
Definition truncate (text : string) : string :=
  substring 0 200 text ++ (if (200 <? String.length text)%nat then "..." else "").

(** [a || b] for an optional string and a string. *)
Definition string_or (o : option string) (d : string) : string :=
  if Js.truthy_opt_string o then default d o else d.

(** Reading a property of [undefined] (Node's message). *)
Definition cannot_read (property : string) : string :=
  "Cannot read properties of undefined (reading '" ++ property ++ "')".

(** *** [search_twitter_custom] *)

Record CustomArgs := {
  query : option string;
  queryType : option string;
  hoursAgo : option Q;
  maxPages : option Q;
  minEngagement : option Q
}.

(** The argument of [twitterClient.searchCustom], which is also the
    [settings] of the response together with the query. *)
Record SearchParams := {
  sp_query : string;
  sp_queryType : string;
  sp_hoursAgo : Q;
  sp_maxPages : Q;
  sp_minEngagement : Q
}.

Record Stats := {
  total : Q;
  filtered : Q;
  oldest_hours : Q;
  newest_hours : Q
}.

Record SearchResult := {
  result_tweets : list Tweet;
  result_moments : list ViralMoment;
  result_stats : Stats
}.

Record FormattedTweet := {
  ft_id : string;
  ft_text : string;
  ft_author : string;
  ft_followers : Q;
  ft_engagement : Q;
  ft_ageHours : option Z;
  ft_url : string
}.

Record FormattedMoment := {
  fm_concept : option string;
  fm_viralityScore : Q;
  fm_freshnessScore : option Z;
  fm_reasoning : string
}.

Record CustomResponse := {
  cr_success : bool;
  cr_query : string;
  cr_settings : SearchParams;
  cr_tweets : list FormattedTweet;
  cr_moments : list FormattedMoment;
  cr_stats : Stats
}.

Definition formatTweet (now : Z) (t : Tweet) : FormattedTweet :=
  {| ft_id := id t;
     ft_text := truncate (text t);
     ft_author := "@" ++ author_username t;
     ft_followers := author_followers t;
     ft_engagement := (likes t + retweets t)%Q;
     ft_ageHours := roundedAge now (createdAt t);
     ft_url := url t |}.

Definition formatMoment (now : Z) (m : ViralMoment) : FormattedMoment :=
  {| fm_concept := tokenizableConcept m;
     fm_viralityScore := viralityScore m;
     fm_freshnessScore := freshnessScore now (createdAt (tweet m));
     fm_reasoning := reasoning m |}.

(** [handleSearchTwitterCustom] (lines 143-229).  [clock n] is the [n]-th
    reading of [Date.now()] during the call: one per formatted tweet, then
    one per formatted moment.  The query is first read by the log line
    ([args.query.substring(0, 60)]), which throws when it is missing. *)
Definition handleSearchTwitterCustom (config : Config)
    (searchCustom : SearchParams -> outcome SearchResult) (clock : nat -> Z)
    (args : CustomArgs) : outcome CustomResponse :=
  let queryType := string_or (queryType args) "Top" in
  let hoursAgo := Js.number_or (hoursAgo args) (FRESH_CONTENT_HOURS config) in
  let maxPages := Js.number_or (maxPages args) (MAX_PAGES_PER_QUERY config) in
  let minEngagement := Js.number_or (minEngagement args) 100%Q in
  match query args with
  | None => Thrown (cannot_read "substring")
  | Some query =>
      let settings :=
        {| sp_query := query;
           sp_queryType := queryType;
           sp_hoursAgo := hoursAgo;
           sp_maxPages := maxPages;
           sp_minEngagement := minEngagement |} in
      match searchCustom settings with
      | Thrown message => Thrown message
      | Returned result =>
          let formattedTweets :=
            imap (fun i t => formatTweet (clock i) t) (take 20 (result_tweets result)) in
          let formattedMoments :=
            imap (fun j m => formatMoment (clock (length formattedTweets + j)%nat) m)
              (take 10 (result_moments result)) in
          Returned {| cr_success := true;
                      cr_query := query;
                      cr_settings := settings;
                      cr_tweets := formattedTweets;
                      cr_moments := formattedMoments;
                      cr_stats := result_stats result |}
      end
  end.

(** *** [search_twitter_fresh] *)

Record FreshArgs := {
  fresh_query : option string;
  fresh_hoursAgo : option Q;
  fresh_minEngagement : option Q
}.

(** The argument of [twitterClient.searchFreshContent]. *)
Record FreshParams := {
  fp_query : string;
  fp_hoursAgo : Q;
  fp_sortBy : string;
  fp_minEngagement : Q;
  fp_maxResults : Q
}.

Record FreshMoment := {
  fr_text : string;
  fr_author : string;
  fr_followers : Q;
  fr_engagement : Q;
  fr_ageHours : option Z;
  fr_url : string;
  fr_concept : option string;
  fr_freshnessScore : option Z;
  fr_viralityScore : Q
}.

(** The [summary] of the response, by template. *)
Inductive FreshSummary :=
| FoundFresh (count : nat) (newestAge : option Z) (topConcept : string)
    (* Found <count> fresh moments. Newest is <newestAge>h old. Top concept: "<topConcept>" *)
| NoFreshMoments.
    (* No fresh viral moments found for this query *)

Record FreshResponse := {
  fresh_success : bool;
  fresh_query_echo : string;
  fresh_hoursAgo_used : Q;
  freshMoments : list FreshMoment;
  summary : FreshSummary
}.

Definition formatFresh (now : Z) (m : ViralMoment) : FreshMoment :=
  {| fr_text := truncate (text (tweet m));
     fr_author := "@" ++ author_username (tweet m);
     fr_followers := author_followers (tweet m);
     fr_engagement := (likes (tweet m) + retweets (tweet m))%Q;
     fr_ageHours := roundedAge now (createdAt (tweet m));
     fr_url := url (tweet m);
     fr_concept := tokenizableConcept m;
     fr_freshnessScore := freshnessScore now (createdAt (tweet m));
     fr_viralityScore := viralityScore m |}.

(** [handleSearchTwitterFresh] (lines 234-303). *)
Definition handleSearchTwitterFresh (config : Config)
    (searchFreshContent : FreshParams -> outcome (list ViralMoment))
    (clock : nat -> Z) (args : FreshArgs) : outcome FreshResponse :=
  let hoursAgo := Js.number_or (fresh_hoursAgo args) 48%Q in
  let minEngagement :=
    Js.number_or (fresh_minEngagement args) (MIN_ENGAGEMENT_FRESH config) in
  match fresh_query args with
  | None => Thrown (cannot_read "substring")
  | Some query =>
      match searchFreshContent {| fp_query := query;
                                  fp_hoursAgo := hoursAgo;
                                  fp_sortBy := "latest";
                                  fp_minEngagement := minEngagement;
                                  fp_maxResults := 20%Q |} with
      | Thrown message => Thrown message
      | Returned moments =>
          let formatted := imap (fun i m => formatFresh (clock i) m) (take 15 moments) in
          let summary :=
            match formatted with
            | first :: _ =>
                FoundFresh (length formatted) (fr_ageHours first)
                  (string_or (fr_concept first) "N/A")
            | [] => NoFreshMoments
            end in
          Returned {| fresh_success := true;
                      fresh_query_echo := query;
                      fresh_hoursAgo_used := hoursAgo;
                      freshMoments := formatted;
                      summary := summary |}
      end
  end.

(** *** [get_tweet_details] *)

(** The [error] of the response, by template. *)
Inductive DetailsError :=
| InvalidTweetUrl
    (* Invalid tweet URL. Expected format: https://x.com/user/status/123456789 *)
| LookupNeedsDirectAccess (tweetId : string).
    (* Tweet lookup by ID (<tweetId>) requires Twitter API v2 direct access. ... *)

(** The response; its optional properties [tweet] and [analysis] are set
    in no branch. *)
Record DetailsResponse := {
  details_success : bool;
  details_error : option DetailsError
}.

(** [handleGetTweetDetails] (lines 309-353); the regular expression of line
    337 is the one of [extractTweetId]. *)
Definition handleGetTweetDetails (tweet_url : option string) : outcome DetailsResponse :=
  match tweet_url with
  | None => Thrown (cannot_read "match")
  | Some u =>
      match extractTweetId u with
      | None =>
          Returned {| details_success := false;
                      details_error := Some InvalidTweetUrl |}
      | Some tweetId =>
          Returned {| details_success := false;
                      details_error := Some (LookupNeedsDirectAccess tweetId) |}
      end
  end.

End TwitterTools.

(** A client that finds one tweet, posted an hour before [Scenario.t0]. *)
Definition twitter_config : TwitterTools.Config :=
  {| TwitterTools.FRESH_CONTENT_HOURS := 48%Q;
     TwitterTools.MAX_PAGES_PER_QUERY := 3%Q;
     TwitterTools.MIN_ENGAGEMENT_FRESH := 50%Q |}.

Definition lobster_tweet : TwitterTools.Tweet :=
  {| TwitterTools.id := "1893456789012345678";
     TwitterTools.text := "the way of the lobster";
     TwitterTools.createdAt := Some (Scenario.t0 - 3600000);
     TwitterTools.author_username := "lobsterfan";
     TwitterTools.author_followers := 1200%Q;
     TwitterTools.likes := 900%Q;
     TwitterTools.retweets := 300%Q;
     TwitterTools.url := "https://x.com/lobsterfan/status/1893456789012345678" |}.

Definition lobster_moment : TwitterTools.ViralMoment :=
  {| TwitterTools.tweet := lobster_tweet;
     TwitterTools.tokenizableConcept := None;
     TwitterTools.viralityScore := 80%Q;
     TwitterTools.reasoning := "viral quote" |}.

Definition finds_lobster (_ : TwitterTools.SearchParams)
  : outcome TwitterTools.SearchResult :=
  Returned {| TwitterTools.result_tweets := [lobster_tweet];
              TwitterTools.result_moments := [lobster_moment];
              TwitterTools.result_stats :=
                {| TwitterTools.total := 1%Q;
                   TwitterTools.filtered := 1%Q;
                   TwitterTools.oldest_hours := 1%Q;
                   TwitterTools.newest_hours := 1%Q |} |}.

Definition lobster_query : TwitterTools.CustomArgs :=
  {| TwitterTools.query := Some "lobster";
     TwitterTools.queryType := None;
     TwitterTools.hoursAgo := None;
     TwitterTools.maxPages := None;
     TwitterTools.minEngagement := None |}.

Definition lobster_fresh_query : TwitterTools.FreshArgs :=
  {| TwitterTools.fresh_query := Some "lobster";
     TwitterTools.fresh_hoursAgo := None;
     TwitterTools.fresh_minEngagement := None |}.

(** ** Research tools ([src/unnamed/part_003]) *)

Module ResearchTools.

Record TwitterOpportunitiesArgs := {
  saturated_themes : option (list string);
  emerging_themes : option (list string);
  min_engagement : option Q
}.

Inductive OpportunityType := specific_moment | emerging_trend.

(** The [source] of an opportunity, by template. *)
Inductive Source :=
| clawd_viral_quote
| emerging (theme : string)
    (* emerging_<theme in lower case, runs of white space replaced by _> *)
| crypto_viral.

Record TwitterOpportunity := {
  type : OpportunityType;
  source : Source;
  tweet : string;
  tweetUrl : string;
  tokenizableConcept : option string;
  viralityScore : Q;
  theme : option string;
  reasoning : string
}.

(** The three searches of [twitterClient] the handler calls, each with the
    engagement threshold it is given; [validateEmergingTheme] also gets the
    theme, and the position of the call among the validations. *)
Record TwitterClient := {
  findClawdMoments : Q -> outcome (list TwitterTools.ViralMoment);
  validateEmergingTheme : nat -> string -> Q -> outcome (list TwitterTools.ViralMoment);
  findCryptoViralMoments : Q -> outcome (list TwitterTools.ViralMoment)
}.

Definition includes (themes : list string) (t : string) : bool :=
  existsb (String.eqb t) themes.

(** The objects pushed at lines 108-116 and 145-153. *)
Definition specificMoment (from : Source) (moment : TwitterTools.ViralMoment)
  : TwitterOpportunity :=
  {| type := specific_moment;
     source := from;
     tweet := TwitterTools.text (TwitterTools.tweet moment);
     tweetUrl := TwitterTools.url (TwitterTools.tweet moment);
     tokenizableConcept := TwitterTools.tokenizableConcept moment;
     viralityScore := TwitterTools.viralityScore moment;
     theme := None;
     reasoning := TwitterTools.reasoning moment |}.

(** The object pushed at lines 127-135. *)
Definition emergingTrend (t : string) (moment : TwitterTools.ViralMoment)
  : TwitterOpportunity :=
  {| type := emerging_trend;
     source := emerging t;
     tweet := TwitterTools.text (TwitterTools.tweet moment);
     tweetUrl := TwitterTools.url (TwitterTools.tweet moment);
     tokenizableConcept := None;
     viralityScore := TwitterTools.viralityScore moment;
     theme := Some t;
     reasoning := TwitterTools.reasoning moment |}.

(** Strategy 1 (lines 101-118). *)
Definition clawdStrategy (client : TwitterClient) (saturatedThemes : list string)
    (minEngagement : Q) : outcome (list TwitterOpportunity) :=
  if includes saturatedThemes "Clawd" || includes saturatedThemes "AI Agent" then
    match findClawdMoments client minEngagement with
    | Thrown message => Thrown message
    | Returned clawdMoments =>
        Returned (List.map (specificMoment clawd_viral_quote) (take 5 clawdMoments))
    end
  else Returned [].

(** Strategy 2 (lines 120-137): the loop over the first three emerging
    themes, [position] counting the validations. *)
Fixpoint emergingStrategy (client : TwitterClient) (position : nat)
    (themes : list string) (minEngagement : Q) : outcome (list TwitterOpportunity) :=
  match themes with
  | [] => Returned []
  | t :: rest =>
      match validateEmergingTheme client position t (minEngagement / 2)%Q with
      | Thrown message => Thrown message
      | Returned moments =>
          match emergingStrategy client (S position) rest minEngagement with
          | Thrown message => Thrown message
          | Returned later =>
              Returned (List.map (emergingTrend t) (take 3 moments) ++ later)%list
          end
      end
  end.

(** Strategy 3 (lines 139-155), reached with no opportunity so far. *)
Definition cryptoStrategy (client : TwitterClient) (minEngagement : Q)
  : outcome (list TwitterOpportunity) :=
  match findCryptoViralMoments client minEngagement with
  | Thrown message => Thrown message
  | Returned cryptoMoments =>
      Returned (List.map (specificMoment crypto_viral) (take 5 cryptoMoments))
  end.

(** [Array.prototype.sort] with the comparator
    [(a, b) => b.viralityScore - a.viralityScore]: the sort is stable, so
    with scores that are numbers the result is the one of any stable sort;
    this is insertion from the right. *)
Fixpoint insert (x : TwitterOpportunity) (sorted : list TwitterOpportunity)
  : list TwitterOpportunity :=
  match sorted with
  | [] => [x]
  | y :: rest =>
      if Qle_bool (viralityScore y - viralityScore x) 0
      then x :: y :: rest
      else y :: insert x rest
  end.

Fixpoint sort (l : list TwitterOpportunity) : list TwitterOpportunity :=
  match l with
  | [] => []
  | x :: rest => insert x (sort rest)
  end.

(** [handleFindTwitterOpportunities] (lines 93-159). *)
Definition handleFindTwitterOpportunities (client : TwitterClient)
    (args : TwitterOpportunitiesArgs) : outcome (list TwitterOpportunity) :=
  let minEngagement := Js.number_or (min_engagement args) 1000%Q in
  let saturatedThemes := default [] (saturated_themes args) in
  match clawdStrategy client saturatedThemes minEngagement with
  | Thrown message => Thrown message
  | Returned specific =>
      let emergingThemes := default [] (emerging_themes args) in
      match emergingStrategy client 0 (take 3 emergingThemes) minEngagement with
      | Thrown message => Thrown message
      | Returned validated =>
          let opportunities := (specific ++ validated)%list in
          match opportunities with
          | [] =>
              match cryptoStrategy client minEngagement with
              | Thrown message => Thrown message
              | Returned general => Returned (sort general)
              end
          | _ :: _ => Returned (sort opportunities)
          end
      end
  end.

(** The fields of an [Opportunity] of [research/opportunity-finder.js] that
    [handleFindAllOpportunities] reads. *)
Record Opportunity := {
  opportunity_type : string;
  confidence : Q;
  opportunity_reasoning : string
}.

Record MarketMeta := {
  saturatedThemes : list string;
  emergingThemes : list string;
  recommendation : string
}.

(** What [opportunityFinder.findOpportunities] gives. *)
Record Analysis := {
  analysis_marketMeta : MarketMeta;
  analysis_opportunities : list Opportunity;
  analysis_bestOpportunity : option Opportunity
}.

(** The [reasoning] of the result, by template. *)
Inductive Reasoning :=
| HighConfidence (type : string) (confidence : Q) (reasoning : string)
    (* High confidence opportunity found: <type> with <confidence>% confidence. <reasoning> *)
| OnlyConfidence (type : string) (confidence : Q)
    (* Best opportunity (<type>) has only <confidence>% confidence. Consider waiting for better moment. *)
| NoClearOpportunities.
    (* No clear opportunities found. Market may be unclear or all themes saturated without viral moments. *)

Record AllOpportunitiesResult := {
  marketMeta : MarketMeta;
  opportunities : list Opportunity;
  bestOpportunity : option Opportunity;
  shouldDeploy : bool;
  result_reasoning : Reasoning
}.

(** [handleFindAllOpportunities] (lines 220-249). *)
Definition handleFindAllOpportunities (findOpportunities : outcome Analysis)
  : outcome AllOpportunitiesResult :=
  match findOpportunities with
  | Thrown message => Thrown message
  | Returned analysis =>
      let shouldDeploy :=
        match analysis_bestOpportunity analysis with
        | Some best => Js.ge (confidence best) 70%Q
        | None => false
        end in
      let reasoning :=
        match analysis_bestOpportunity analysis with
        | Some best =>
            if shouldDeploy
            then HighConfidence (opportunity_type best) (confidence best)
                   (opportunity_reasoning best)
            else OnlyConfidence (opportunity_type best) (confidence best)
        | None => NoClearOpportunities
        end in
      Returned {| marketMeta :=
                    {| saturatedThemes := saturatedThemes (analysis_marketMeta analysis);
                       emergingThemes := emergingThemes (analysis_marketMeta analysis);
                       recommendation := recommendation (analysis_marketMeta analysis) |};
                  opportunities := analysis_opportunities analysis;
                  bestOpportunity := analysis_bestOpportunity analysis;
                  shouldDeploy := shouldDeploy;
                  result_reasoning := reasoning |}
  end.

End ResearchTools.



(** An analysis whose best opportunity has 85% confidence. *)
Definition confident_analysis : ResearchTools.Analysis :=
  let best := {| ResearchTools.opportunity_type := "viral_moment";
                 ResearchTools.confidence := 85%Q;
                 ResearchTools.opportunity_reasoning := "viral quote" |} in
  {| ResearchTools.analysis_marketMeta :=
       {| ResearchTools.saturatedThemes := ["Clawd"];
          ResearchTools.emergingThemes := [];
          ResearchTools.recommendation := "find specific moments" |};
     ResearchTools.analysis_opportunities := [best];
     ResearchTools.analysis_bestOpportunity := Some best |}.

(** The holders query fails in one of the three ways [getHolders] catches:
    [fetch] throws, the status is not OK, or the body is not JSON. *)
Definition holders_query_fails
    (response : outcome (CoinTools.HttpResponse CoinTools.HoldersBody)) : Prop :=
  match response with
  | Thrown _ => True
  | Returned r =>
      CoinTools.ok r = false
      \/ exists message, CoinTools.json r = Thrown message
  end.

(** A coin with SOL airdrops switched on. *)
Definition airdrop_coin : CoinTools.Coin :=
  {| CoinTools.mint := "7xKXtg2CW87d97TXJSDpbD5jBkheTqA83TZRuJosgAsU";
     CoinTools.name := "Lobster Way";
     CoinTools.symbol := "LBSTR";
     CoinTools.coin_status := "active";
     CoinTools.stats := "{}";
     CoinTools.enabled_actions :=
       Some {| CoinTools.buyback := false;
               CoinTools.burn := false;
               CoinTools.airdrop_sol := true;
               CoinTools.airdrop_tokens := false;
               CoinTools.treasury_sol := false;
               CoinTools.treasury_tokens := false |};
     CoinTools.treasury_wallet := None |}.

(** * Properties *)

(** ** Trigger references *)

Example extractTweetId_x :
  extractTweetId "https://x.com/elonmusk/status/1876543210987654321?s=20"
  = Some "1876543210987654321".
Proof. reflexivity. Qed.

Example extractTweetId_none :
  extractTweetId "https://x.com/elonmusk/status/" = None.
Proof. reflexivity. Qed.

Example extractTweetId_leftmost :
  extractTweetId "status/x/status/42/status/7" = Some "42".
Proof. reflexivity. Qed.

(** String append, one character at a time. *)
Lemma append_String c (s t : string) : String c s ++ t = String c (s ++ t).
Proof. reflexivity. Qed.

Lemma append_empty (t : string) : "" ++ t = t.
Proof. reflexivity. Qed.

(** [strip_prefix] succeeds exactly on the strings that start with the
    prefix, and returns what follows it. *)
Lemma strip_prefix_Some p s r : strip_prefix p s = Some r <-> s = p ++ r.
Proof.
  revert s; induction p as [|a p IH]; intros s; simpl.
  - split; [intros [= ->]; reflexivity | intros ->; reflexivity].
  - destruct s as [|b s].
    + split; [discriminate | discriminate].
    + destruct (Ascii.eqb_spec a b) as [->|Hne].
      * rewrite IH. split; [intros ->; reflexivity | intros [= ->]; reflexivity].
      * split; [discriminate | intros [= Hb _]; congruence].
Qed.

(** [take_digits] returns digits only, and they are the head of the string. *)
Lemma take_digits_all s : all_digits (take_digits s) = true.
Proof.
  induction s as [|c s IH]; simpl; [reflexivity|].
  destruct (is_digit c) eqn:Hc; simpl; [rewrite Hc; exact IH | reflexivity].
Qed.

Lemma take_digits_split s : exists post, s = take_digits s ++ post.
Proof.
  induction s as [|c s [post IH]]; simpl.
  - exists ""; reflexivity.
  - destruct (is_digit c).
    + exists post. rewrite append_String. f_equal. exact IH.
    + exists (String c s). reflexivity.
Qed.

(** The anchored match returns a non-empty run of digits after [status/]. *)
Lemma match_status_here_Some s tweetId :
  match_status_here s = Some tweetId ->
  exists post, s = "status/" ++ tweetId ++ post
               /\ tweetId <> "" /\ all_digits tweetId = true.
Proof.
  unfold match_status_here.
  destruct (strip_prefix "status/" s) as [rest|] eqn:Hp; [|discriminate].
  apply strip_prefix_Some in Hp.
  destruct (take_digits rest) as [|c ds] eqn:Hd; [discriminate|].
  intros [= <-].
  destruct (take_digits_split rest) as [post Hpost].
  exists post. rewrite <- Hd. split; [rewrite Hp at 1; f_equal; exact Hpost|].
  split; [rewrite Hd; discriminate | apply take_digits_all].
Qed.

(** The anchored match fails exactly when the string does not start with
    [status/] and a digit. *)
Lemma match_status_here_None s :
  match_status_here s = None <->
  ~ exists d post, s = "status/" ++ String d post /\ is_digit d = true.
Proof.
  unfold match_status_here. split.
  - intros H (d & post & -> & Hd).
    assert (Hp : strip_prefix "status/" ("status/" ++ String d post)
                 = Some (String d post)) by (apply strip_prefix_Some; reflexivity).
    rewrite Hp in H. simpl in H. rewrite Hd in H. discriminate.
  - intros H.
    destruct (strip_prefix "status/" s) as [rest|] eqn:Hp; [|reflexivity].
    apply strip_prefix_Some in Hp.
    destruct rest as [|c rest]; [reflexivity|]. simpl.
    destruct (is_digit c) eqn:Hc; [|reflexivity].
    exfalso. apply H. exists c, rest. split; assumption.
Qed.

(** The identifier [extractTweetId] returns is a non-empty run of digits
    that stands in the URL right after [status/]. *)
Lemma extractTweetId_Some url tweetId :
  extractTweetId url = Some tweetId ->
  exists pre post, url = pre ++ "status/" ++ tweetId ++ post
                   /\ tweetId <> "" /\ all_digits tweetId = true.
Proof.
  induction url as [|c url IH]; simpl.
  - discriminate.
  - destruct (match_status_here (String c url)) as [found|] eqn:Hm.
    + intros [= <-]. apply match_status_here_Some in Hm as (post & Hs & Hne & Hd).
      exists "", post. split; [exact Hs | split; assumption].
    + intros H. destruct (IH H) as (pre & post & -> & Hne & Hd).
      exists (String c pre), post. split; [reflexivity | split; assumption].
Qed.

(** [extractTweetId] fails exactly on the URLs without [status/<digit>]. *)
Lemma extractTweetId_None url :
  extractTweetId url = None <-> ~ has_status_id url.
Proof.
  unfold has_status_id. induction url as [|c url IH].
  - simpl. split; [|reflexivity].
    intros _ (pre & d & post & H & _). destruct pre; discriminate.
  - cbn [extractTweetId].
    destruct (match_status_here (String c url)) as [found|] eqn:Hm.
    + split; [discriminate|]. intros H. exfalso. apply H.
      apply match_status_here_Some in Hm as (post & Hs & Hne & Hd).
      destruct found as [|d ds]; [congruence|].
      exists "", d, (ds ++ post). split; [exact Hs|].
      simpl in Hd. apply andb_true_iff in Hd. tauto.
    + rewrite IH. apply match_status_here_None in Hm.
      split.
      * intros H (pre & d & post & Heq & Hd). destruct pre as [|c' pre].
        -- apply Hm. exists d, post. split; assumption.
        -- apply H. exists pre, d, post. rewrite append_String in Heq.
           injection Heq as _ Heq. split; assumption.
      * intros H (pre & d & post & -> & Hd). apply H.
        exists (String c pre), d, post. split; [reflexivity | exact Hd].
Qed.

(** Substring search. *)
Lemma prefix_append n post : String.prefix n (n ++ post) = true.
Proof.
  induction n as [|c n IH]; simpl; [destruct post; reflexivity|].
  destruct (ascii_dec c c); [exact IH | congruence].
Qed.

Lemma contains_unfold n hay :
  contains n hay =
  String.prefix n hay ||
  match hay with
  | EmptyString => false
  | String _ rest => contains n rest
  end.
Proof. destruct hay; reflexivity. Qed.

Lemma contains_prefix n hay : String.prefix n hay = true -> contains n hay = true.
Proof. intros H. rewrite contains_unfold, H. reflexivity. Qed.

Lemma contains_String n c hay : contains n hay = true -> contains n (String c hay) = true.
Proof. intros H. rewrite contains_unfold, H. apply orb_true_r. Qed.

Lemma contains_append pre n post : contains n (pre ++ n ++ post) = true.
Proof.
  induction pre as [|c pre IH].
  - rewrite append_empty. apply contains_prefix, prefix_append.
  - rewrite append_String. apply contains_String, IH.
Qed.

(** The identifier extracted from a URL occurs in that URL, so the [$regex]
    lookup by identifier finds the record that carries the URL. *)
Lemma contains_extractTweetId url tweetId :
  extractTweetId url = Some tweetId -> contains tweetId url = true.
Proof.
  intros H. apply extractTweetId_Some in H as (pre & post & -> & _).
  replace (pre ++ "status/" ++ tweetId ++ post)
    with ((pre ++ "status/") ++ tweetId ++ post).
  - apply contains_append.
  - induction pre as [|c pre IH]; [reflexivity|].
    rewrite !append_String. f_equal. exact IH.
Qed.

(** ** Running computations *)

(** Unfold the monad in the goal. *)
Ltac run :=
  cbv beta iota zeta delta [bind ret get modify try_catch throw await].

(** Split the goal along the decisions of the safety checks and of the
    deployment steps, in the order the handler takes them. *)
Ltac each_verdict :=
  repeat match goal with
         | |- context [cooldownWait ?last ?now] => destruct (cooldownWait last now)
         | |- context [Js.lt ?a ?b] => destruct (Js.lt a b)
         | |- context [negb ?b] => destruct (negb b)
         | |- context [wallet_rpc ?o] => destruct (wallet_rpc o)
         | |- context [deployFailure ?o] => destruct (deployFailure o)
         end.

(** Writing back the cache that is there changes nothing. *)
Lemma set_deployedTweetIds_same w : set_deployedTweetIds (deployedTweetIds w) w = w.
Proof. destruct w; reflexivity. Qed.

(** ** Dedup cache *)

(** One iteration of the refresh loop adds the identifier of the record, if
    it has one. *)
Lemma addDeployedTweetId_run d w :
  addDeployedTweetId d w = (Returned tt, set_deployedTweetIds (add_id (deployedTweetIds w) d) w).
Proof.
  unfold addDeployedTweetId, add_id, tweetIdOf.
  destruct (DeploymentRecord.tweet_url (DeploymentRecord.meta d)) as [u|];
    [destruct (Js.truthy_string u); [destruct (extractTweetId u)|]|];
    run; rewrite ?set_deployedTweetIds_same; reflexivity.
Qed.

(** The loop of [refreshDeployedTweetIds] never throws and only grows the
    cache, record by record. *)
Lemma forEach_addDeployedTweetId_run ds w :
  forEach ds addDeployedTweetId w
  = (Returned tt, set_deployedTweetIds (fold_left add_id ds (deployedTweetIds w)) w).
Proof.
  revert w; induction ds as [|d ds IH]; intros w; simpl.
  - unfold ret. rewrite set_deployedTweetIds_same. reflexivity.
  - unfold bind at 1. rewrite addDeployedTweetId_run, IH. reflexivity.
Qed.

(** The identifiers in the cache after the loop: those that were there and
    those of the records. *)
Lemma elem_of_fold_add_id tweetId ds s :
  tweetId ∈ fold_left add_id ds s <->
  tweetId ∈ s \/ exists d, In d ds /\ tweetIdOf d = Some tweetId.
Proof.
  revert s; induction ds as [|d ds IH]; intros s; simpl.
  - split; [auto | intros [H | (d & [] & _)]; exact H].
  - rewrite IH. unfold add_id. split.
    + intros [H | (d' & Hin & Hd')].
      * destruct (tweetIdOf d) as [i|] eqn:Hd; [|auto].
        apply elem_of_union in H as [H%elem_of_singleton | H]; [|auto].
        subst i. right. exists d. auto.
      * right. exists d'. auto.
    + intros [H | (d' & [-> | Hin] & Hd')].
      * left. destruct (tweetIdOf d); [apply elem_of_union; auto | exact H].
      * left. rewrite Hd'. apply elem_of_union. left. apply elem_of_singleton.
        reflexivity.
      * right. exists d'. auto.
Qed.

(** A successful refresh rebuilds the cache from the store and stamps it. *)
Lemma refreshDeployedTweetIds_reachable now w :
  refreshDeployedTweetIds true now w
  = (Returned tt,
     set_lastTweetIdCacheRefresh now
       (set_deployedTweetIds
          (fold_left add_id (List.filter has_tweet_url (deployments w)) ∅) w)).
Proof.
  unfold refreshDeployedTweetIds, db_find_with_tweet_url.
  unfold try_catch, bind, get, ret, modify.
  rewrite forEach_addDeployedTweetId_run. reflexivity.
Qed.

(** After a successful refresh the cache holds exactly the identifiers of
    the stored tweet URLs. *)
Lemma refreshed_cache_complete now w tweetId :
  tweetId ∈ deployedTweetIds (snd (refreshDeployedTweetIds true now w)) <->
  exists d, In d (deployments w) /\ tweetIdOf d = Some tweetId.
Proof.
  rewrite refreshDeployedTweetIds_reachable. cbn [snd deployedTweetIds
    set_lastTweetIdCacheRefresh set_deployedTweetIds].
  rewrite elem_of_fold_add_id. split.
  - intros [H | (d & Hin & Hd)]; [exfalso; exact (not_elem_of_empty _ H)|].
    apply filter_In in Hin as [Hin _]. eauto.
  - intros (d & Hin & Hd). right. exists d. split; [|exact Hd].
    apply filter_In. split; [exact Hin|].
    unfold tweetIdOf in Hd. unfold has_tweet_url.
    destruct (DeploymentRecord.tweet_url (DeploymentRecord.meta d));
      [reflexivity | discriminate].
Qed.

(** A failed refresh is caught and leaves the module state as it was. *)
Lemma refreshDeployedTweetIds_unreachable now w :
  refreshDeployedTweetIds false now w = (Returned tt, w).
Proof. reflexivity. Qed.

Lemma cache_only_refl w : cache_only w w.
Proof. split; reflexivity. Qed.

(** The refresh step never throws and touches the cache only; with the
    database unreachable it changes nothing. *)
Lemma refreshIfStale_run o w :
  exists w1, refreshIfStale o w = (Returned tt, w1) /\ cache_only w w1
             /\ (refresh_reachable o = false -> w1 = w).
Proof.
  unfold refreshIfStale, bind, get.
  destruct (TWEET_ID_CACHE_TTL <? now_check o - lastTweetIdCacheRefresh w).
  - destruct (refresh_reachable o).
    + rewrite refreshDeployedTweetIds_reachable. eexists. split; [reflexivity|].
      split; [split; reflexivity | discriminate].
    + exists w. split; [reflexivity|]. split; [apply cache_only_refl | reflexivity].
  - exists w. split; [reflexivity|]. split; [apply cache_only_refl | reflexivity].
Qed.

(** [checkTweetAlreadyTokenized] always returns: after the refresh step it
    gives [lookup_answer], and it touches the cache only. *)
Lemma checkTweetAlreadyTokenized_run o tweetUrl tweetId w :
  extractTweetId tweetUrl = Some tweetId ->
  exists w1 w2,
    refreshIfStale o w = (Returned tt, w1) /\
    checkTweetAlreadyTokenized o tweetUrl w = (Returned (lookup_answer o tweetId w1), w2) /\
    cache_only w w1 /\
    cache_only w w2 /\
    (refresh_reachable o = false -> w1 = w) /\
    (direct_reachable o = false -> w2 = w1).
Proof.
  intros Hid. unfold checkTweetAlreadyTokenized. rewrite Hid.
  destruct (refreshIfStale_run o w) as (w1 & Hr & Hco & Hun).
  exists w1. unfold bind at 1. rewrite Hr. unfold lookup_answer.
  unfold db_findOne_by_tweet_id.
  destruct (confirm_reachable o); destruct (direct_reachable o); run;
    destruct (bool_decide (tweetId ∈ deployedTweetIds w1));
    destruct (List.find (tweet_url_matches tweetId) (deployments w1)) eqn:Hfind;
    run; rewrite ?Hfind; run; eexists; (split; [reflexivity|]); (split; [reflexivity|]);
    (split; [exact Hco|]);
    (split; [exact Hco || (destruct Hco; split; assumption)|]);
    (split; [exact Hun|]); try reflexivity; discriminate.
Qed.

(** With the database answering, a stored record whose URL contains the
    identifier makes the answer a duplicate with that record's label, whether
    or not the identifier is cached. *)
Lemma lookup_answer_found o tweetId w1 d :
  confirm_reachable o = true ->
  direct_reachable o = true ->
  List.find (tweet_url_matches tweetId) (deployments w1) = Some d ->
  lookup_answer o tweetId w1 = tokenized_as (token_label d).
Proof.
  intros Hc Hd Hf. unfold lookup_answer. rewrite Hc, Hd, Hf.
  destruct (bool_decide _); reflexivity.
Qed.

(** Without an identifier the check returns at line 167. *)
Lemma checkTweetAlreadyTokenized_unparseable o tweetUrl w :
  extractTweetId tweetUrl = None ->
  checkTweetAlreadyTokenized o tweetUrl w = (Returned not_tokenized, w).
Proof. intros H. unfold checkTweetAlreadyTokenized. rewrite H. reflexivity. Qed.

(** The check never throws and touches the cache only. *)
Lemma checkTweetAlreadyTokenized_total o tweetUrl w :
  exists answer w', checkTweetAlreadyTokenized o tweetUrl w = (Returned answer, w')
                    /\ cache_only w w'.
Proof.
  destruct (extractTweetId tweetUrl) as [tweetId|] eqn:Hid.
  - destruct (checkTweetAlreadyTokenized_run o tweetUrl tweetId w Hid)
      as (w1 & w2 & _ & Hc & _ & Hco & _).
    eauto.
  - rewrite (checkTweetAlreadyTokenized_unparseable _ _ _ Hid).
    eexists _, _. split; [reflexivity | apply cache_only_refl].
Qed.

(** ** The gate, step by step *)

(** [handleGetWalletBalance] throws without a key or when the RPC call
    throws; otherwise it returns [walletBalance] and writes nothing. *)
Lemma handleGetWalletBalance_run e rpc w :
  handleGetWalletBalance e rpc w =
  if Js.truthy_opt_string (privateKey_of e) then
    match rpc with
    | Returned wallet => (Returned (walletBalance wallet), w)
    | Thrown message => (Thrown message, w)
    end
  else (Thrown "AGENT_PRIVATE_KEY not configured", w).
Proof.
  unfold handleGetWalletBalance.
  destruct (Js.truthy_opt_string (privateKey_of e)); [|reflexivity].
  destruct rpc; reflexivity.
Qed.

(** Safety check 0 never throws and touches the cache only. *)
Lemma duplicateCheck_total o args w :
  exists answer w', duplicateCheck o args w = (Returned answer, w') /\ cache_only w w'.
Proof.
  unfold duplicateCheck.
  destruct (DeployTokenArgs.tweet_url args) as [u|];
    [destruct (Js.truthy_string u)|];
    try apply checkTweetAlreadyTokenized_total;
    eexists _, _; (split; [reflexivity | apply cache_only_refl]).
Qed.

(** The safety checks, run: the duplicate verdict first, then
    [checksAfterDuplicate] on the time stamp the module holds. *)
Lemma safetyChecks_run o args w answer w1 :
  duplicateCheck o args w = (Returned answer, w1) ->
  safetyChecks o args w =
  if exists_ answer then
    (Returned (inl (rejected (AlreadyTokenized (existingToken answer)
                                (default "" (DeployTokenArgs.tweet_url args))))), w1)
  else (checksAfterDuplicate o args (lastDeploymentTime w1), w1).
Proof.
  intros Hdup. unfold safetyChecks, checksAfterDuplicate.
  unfold bind at 1. rewrite Hdup.
  destruct (exists_ answer); [reflexivity|].
  unfold bind at 1, get.
  destruct (cooldownWait (lastDeploymentTime w1) (now_cooldown o)); [reflexivity|].
  destruct (Js.lt _ 60%Q); [reflexivity|].
  destruct (Js.truthy_opt_string (privateKey_of (process_env o))) eqn:Hkey;
    [|reflexivity].
  cbn [negb]. run. rewrite handleGetWalletBalance_run, Hkey.
  destruct (wallet_rpc o) as [wallet|]; [|reflexivity].
  destruct (can_deploy (walletBalance wallet)); [|reflexivity].
  cbn [negb]. run.
  destruct (Js.lt (available_for_deployment (walletBalance wallet)) _); reflexivity.
Qed.

(** The deployment steps never throw.  They write the module state in one
    case only, after the launch and the record have both succeeded. *)
Lemma deploySteps_run o args a w :
  deploySteps o args a w =
  match deployFailure o with
  | Some message => (Returned (rejected (Message message)), w)
  | None =>
      (Returned (deployed o),
       set_lastDeploymentTime (now_recorded o)
         (set_deployments (deployments w ++ [deploymentRecord o args a]) w))
  end.
Proof.
  unfold deploySteps, deployFailure, recordDeployment, deployed.
  destruct (openai_configured o); [destruct (generated_image o)|];
    destruct (Js.truthy_opt_string (launch_error (launch o)));
    try reflexivity;
    destruct (record_write o) as [[]|]; reflexivity.
Qed.

(** The whole handler, run from the answer of the duplicate check. *)
Lemma handleDeployToken_run o args w answer w1 :
  duplicateCheck o args w = (Returned answer, w1) ->
  handleDeployToken o args w =
  if exists_ answer then
    (Returned (rejected (AlreadyTokenized (existingToken answer)
                           (default "" (DeployTokenArgs.tweet_url args)))), w1)
  else
    match checksAfterDuplicate o args (lastDeploymentTime w1) with
    | Thrown message => (Thrown message, w1)
    | Returned (inl rejection) => (Returned rejection, w1)
    | Returned (inr admission) => deploySteps o args admission w1
    end.
Proof.
  intros Hdup. unfold handleDeployToken, bind.
  rewrite (safetyChecks_run _ _ _ _ _ Hdup).
  destruct (exists_ answer); [reflexivity|].
  destruct (checksAfterDuplicate o args (lastDeploymentTime w1)) as [[r|a]|];
    reflexivity.
Qed.

(** The gate, with the duplicate check's verdict read off [reportsDuplicate]:
    the form the claims are proved from. *)
Lemma handleDeployToken_cases o args w :
  exists answer w1,
    duplicateCheck o args w = (Returned answer, w1) /\
    cache_only w w1 /\
    reportsDuplicate o args w = exists_ answer /\
    handleDeployToken o args w =
    if reportsDuplicate o args w then
      (Returned (rejected (AlreadyTokenized (existingToken answer)
                             (default "" (DeployTokenArgs.tweet_url args)))), w1)
    else
      match checksAfterDuplicate o args (lastDeploymentTime w) with
      | Thrown message => (Thrown message, w1)
      | Returned (inl rejection) => (Returned rejection, w1)
      | Returned (inr admission) =>
          match deployFailure o with
          | Some message => (Returned (rejected (Message message)), w1)
          | None =>
              (Returned (deployed o),
               set_lastDeploymentTime (now_recorded o)
                 (set_deployments
                    (deployments w1 ++ [deploymentRecord o args admission]) w1))
          end
      end.
Proof.
  destruct (duplicateCheck_total o args w) as (answer & w1 & Hdup & Hco).
  exists answer, w1. split; [exact Hdup|]. split; [exact Hco|].
  assert (Hrep : reportsDuplicate o args w = exists_ answer)
    by (unfold reportsDuplicate; rewrite Hdup; reflexivity).
  split; [exact Hrep|].
  rewrite (handleDeployToken_run _ _ _ _ _ Hdup), Hrep.
  destruct Hco as [Hlast _]. rewrite <- Hlast.
  destruct (exists_ answer); [reflexivity|].
  destruct (checksAfterDuplicate o args (lastDeploymentTime w1)) as [[r|a]|];
    try reflexivity.
  apply deploySteps_run.
Qed.

(** [Math.ceil(n / d)] is the least integer [c] with [n <= d * c]. *)
Lemma ceil_div_bounds n d :
  0 < d -> d * (Js.ceil_div n d - 1) < n <= d * Js.ceil_div n d.
Proof.
  intros Hd. unfold Js.ceil_div.
  pose proof (Z.div_mod (- n) d ltac:(lia)) as Hdm.
  pose proof (Z.mod_pos_bound (- n) d Hd) as Hb.
  lia.
Qed.

(** The cooldown check: skipped for the initial time stamp, and the
    remaining time rounded up when the last deployment is recent. *)
Lemma cooldownWait_first now : cooldownWait 0 now = None.
Proof. reflexivity. Qed.

Lemma cooldownWait_Some last now :
  0 < last -> now - last < MIN_DEPLOYMENT_INTERVAL ->
  cooldownWait last now
  = Some (Js.ceil_div (MIN_DEPLOYMENT_INTERVAL - (now - last)) 1000).
Proof.
  intros Hl Hn. unfold cooldownWait.
  apply Z.ltb_lt in Hl, Hn. rewrite Hl, Hn. reflexivity.
Qed.

(** ** The cooldown before the first deployment *)

(** [handleCanDeployNow] before the first deployment: it returns, writes
    nothing, and reports no wait. *)
Lemma handleCanDeployNow_first o w :
  lastDeploymentTime w = 0 ->
  exists r, handleCanDeployNow o w = (Returned r, w)
            /\ CanDeployResult.time_until_allowed_seconds r = 0
            /\ forall waitSeconds, ~ In (MustWait waitSeconds) (CanDeployResult.reasons r).
Proof.
  intros Hlast. unfold handleCanDeployNow. run. rewrite Hlast.
  change (0 <? 0) with false. cbn [andb].
  rewrite handleGetWalletBalance_run.
  destruct (Js.truthy_opt_string (privateKey_of (cd_process_env o)));
    [destruct (cd_wallet_rpc o) as [wallet|]; [destruct (can_deploy (walletBalance wallet))|]|];
    cbn [negb]; destruct (cd_openai_configured o); cbn;
    (eexists; split; [reflexivity|]; split; [reflexivity|]);
    intros waitSeconds Hin; cbn in Hin; intuition discriminate.
Qed.

(** C10.  While [lastDeploymentTime] still has its initial value [0], the
    cooldown check of [handleDeployToken] is skipped (it gives no wait time,
    whatever the clock says), so the proposal is never answered with the
    "too soon" rejection; and [handleCanDeployNow] reports a wait time of
    zero seconds and no "must wait" reason. *)
Theorem first_proposal_skips_cooldown (w : World) :
  lastDeploymentTime w = 0 ->
  (forall now, cooldownWait (lastDeploymentTime w) now = None) /\
  (forall o args waitSeconds,
     deploy_error (fst (handleDeployToken o args w)) <> Some (TooSoon waitSeconds)) /\
  (forall o, exists r,
     handleCanDeployNow o w = (Returned r, w)
     /\ CanDeployResult.time_until_allowed_seconds r = 0
     /\ forall waitSeconds, ~ In (MustWait waitSeconds) (CanDeployResult.reasons r)).
Proof.
  intros Hlast. split; [intros now; rewrite Hlast; reflexivity|].
  split; [|intros o; apply handleCanDeployNow_first, Hlast].
  intros o args waitSeconds.
  destruct (handleDeployToken_cases o args w) as (answer & w1 & _ & _ & _ & ->).
  destruct (reportsDuplicate o args w); [discriminate|].
  unfold checksAfterDuplicate. rewrite Hlast, cooldownWait_first.
  each_verdict; discriminate.
Qed.

Lemma first_proposal_skips_cooldown_witness :
  deploy_error
    (fst (handleDeployToken (Scenario.oracle 1700000000000 1000000000)
            (Scenario.proposal None (Some 80%Q)) (initial_world [])))
  <> Some (TooSoon 240).
Proof.
  apply (first_proposal_skips_cooldown (initial_world [])). reflexivity.
Defined.

(** ** Cooldown rejections *)

(** C5, as stated, fails: a proposal made 91 seconds after the last
    deployment, carrying the tweet that deployment tokenized, is answered by
    safety check 0 with the duplicate rejection, not with a cooldown
    rejection. *)
Lemma cooldown_proposal_rejected_as_duplicate :
  let url := "https://x.com/lobster/status/1876543210987654321" in
  let w := Scenario.after (Scenario.oracle Scenario.t0 1000000000)
             (Scenario.proposal (Some url) (Some 80%Q)) (initial_world []) in
  let o := Scenario.oracle (Scenario.t0 + 100000) 1000000000 in
  0 < lastDeploymentTime w
  /\ now_cooldown o - lastDeploymentTime w < MIN_DEPLOYMENT_INTERVAL
  /\ fst (handleDeployToken o (Scenario.proposal (Some url) (Some 80%Q)) w)
     = Returned (rejected (AlreadyTokenized (Some "Lobster Way ($LBSTR)") url)).
Proof. vm_compute. repeat split. Qed.

(** C5, amended.  A proposal that safety check 0 does not report as a
    duplicate, made less than [MIN_DEPLOYMENT_INTERVAL] after a recorded
    deployment, is answered with the cooldown rejection; its wait time is the
    remaining cooldown in milliseconds rounded up to whole seconds, and is at
    least one second.  The module state keeps its cooldown time stamp. *)
Theorem cooldown_rejection_wait o args w :
  reportsDuplicate o args w = false ->
  0 < lastDeploymentTime w ->
  now_cooldown o - lastDeploymentTime w < MIN_DEPLOYMENT_INTERVAL ->
  let remaining := MIN_DEPLOYMENT_INTERVAL - (now_cooldown o - lastDeploymentTime w) in
  exists waitSeconds,
    fst (handleDeployToken o args w) = Returned (rejected (TooSoon waitSeconds))
    /\ waitSeconds = Js.ceil_div remaining 1000
    /\ 1000 * (waitSeconds - 1) < remaining <= 1000 * waitSeconds
    /\ 0 < waitSeconds
    /\ lastDeploymentTime (snd (handleDeployToken o args w)) = lastDeploymentTime w.
Proof.
  intros Hdup Hlast Hnow remaining.
  destruct (handleDeployToken_cases o args w) as (answer & w1 & _ & [Hl _] & _ & ->).
  rewrite Hdup. unfold checksAfterDuplicate.
  rewrite (cooldownWait_Some _ _ Hlast Hnow). fold remaining.
  exists (Js.ceil_div remaining 1000). cbn [fst snd].
  pose proof (ceil_div_bounds remaining 1000 ltac:(lia)) as Hb.
  assert (0 < remaining) by (unfold remaining; lia).
  repeat split; lia.
Qed.

Lemma cooldown_rejection_wait_witness :
  exists waitSeconds,
    fst (handleDeployToken (Scenario.oracle (Scenario.t0 + 100000) 1000000000)
           (Scenario.proposal None (Some 80%Q))
           (set_lastDeploymentTime Scenario.t0 (initial_world [])))
    = Returned (rejected (TooSoon waitSeconds))
    /\ waitSeconds = 140.
Proof.
  destruct (cooldown_rejection_wait
              (Scenario.oracle (Scenario.t0 + 100000) 1000000000)
              (Scenario.proposal None (Some 80%Q))
              (set_lastDeploymentTime Scenario.t0 (initial_world [])))
    as (waitSeconds & Hr & Hw & _);
    [reflexivity | reflexivity | reflexivity |].
  exists waitSeconds. split; [exact Hr | rewrite Hw; reflexivity].
Defined.

(** The scenario of the specification: cooldown 240 s, last deployment at
    [T = 0 s]; a proposal at [T = 100 s] is told to wait 140 seconds, the
    same proposal at [T = 300 s] is deployed. *)
Example cooldown_scenario :
  let w := set_lastDeploymentTime Scenario.t0 (initial_world []) in
  let args := Scenario.proposal None (Some 90%Q) in
  fst (handleDeployToken (Scenario.oracle (Scenario.t0 + 99998) 1000000000) args w)
    = Returned (rejected (TooSoon 140))
  /\ deploy_success
       (fst (handleDeployToken (Scenario.oracle (Scenario.t0 + 299998) 1000000000) args w))
     = true.
Proof. vm_compute. repeat split. Qed.

(** ** Numbers *)

(** The comparisons of the model are those of the rationals. *)
Lemma Js_lt_spec (a b : Q) : Js.lt a b = true <-> (a < b)%Q.
Proof.
  unfold Js.lt. rewrite negb_true_iff. split.
  - intros H. apply Qnot_le_lt. intros Hle. apply Qle_bool_iff in Hle. congruence.
  - intros H. destruct (Qle_bool b a) eqn:E; [|reflexivity].
    apply Qle_bool_iff in E. exfalso. exact (Qlt_not_le _ _ H E).
Qed.

Lemma Js_ge_spec (a b : Q) : Js.ge a b = true <-> (b <= a)%Q.
Proof. apply Qle_bool_iff. Qed.

(** [q || d] is [q] for a number other than zero. *)
Lemma number_or_truthy (q d : Q) : ~ (q == 0)%Q -> Js.number_or (Some q) d = q.
Proof.
  intros H. unfold Js.number_or, Js.truthy_number.
  destruct (Qeq_bool q 0) eqn:E; [|reflexivity].
  apply Qeq_bool_iff in E. contradiction.
Qed.


(** ** Insufficient funds *)

(** C3, as stated, fails: with 0.32 SOL in the wallet the headroom above
    the reserve is below the 0.05 SOL asked for, yet a proposal made 100
    seconds after the last deployment is answered with the cooldown
    rejection, which comes first. *)
Lemma insufficient_funds_hidden_by_cooldown :
  let w := set_lastDeploymentTime Scenario.t0 (initial_world []) in
  let o := Scenario.oracle (Scenario.t0 + 99998) 320000000 in
  let args := Scenario.proposal None (Some 80%Q) in
  Js.lt (available_for_deployment
           (walletBalance {| lamports := 320000000; address := "AgentWallet" |}))
        (requestedSpend args) = true
  /\ fst (handleDeployToken o args w) = Returned (rejected (TooSoon 140))
  /\ insufficient_funds (deploy_error (fst (handleDeployToken o args w))) = false.
Proof. vm_compute. repeat split. Qed.

(** C3, amended.  When the headroom above the reserve is below the amount
    the proposal asks to spend, the proposal is never deployed and the
    cooldown time stamp and the store stay as they were, whatever its
    confidence and the cooldown state; the rejection names insufficient
    funds when the proposal gets as far as the balance check, and otherwise
    it is the rejection of the earlier check. *)
Theorem insufficient_headroom_never_deployed o args w wallet :
  wallet_rpc o = Returned wallet ->
  (available_for_deployment (walletBalance wallet) < requestedSpend args)%Q ->
  deploy_success (fst (handleDeployToken o args w)) = false
  /\ (exists e, fst (handleDeployToken o args w) = Returned (rejected e))
  /\ lastDeploymentTime (snd (handleDeployToken o args w)) = lastDeploymentTime w
  /\ deployments (snd (handleDeployToken o args w)) = deployments w
  /\ (reachesBalanceCheck o args w = true ->
      insufficient_funds (deploy_error (fst (handleDeployToken o args w))) = true).
Proof.
  intros Hrpc Hlt. apply Js_lt_spec in Hlt. unfold requestedSpend in Hlt.
  unfold reachesBalanceCheck, effectiveConfidence.
  destruct (handleDeployToken_cases o args w)
    as (answer & w1 & _ & [Hl Hd] & _ & ->).
  destruct (reportsDuplicate o args w);
    [cbn; repeat split; eauto; discriminate|].
  unfold checksAfterDuplicate.
  destruct (cooldownWait (lastDeploymentTime w) (now_cooldown o));
    [cbn; repeat split; eauto; discriminate|].
  destruct (Js.lt _ 60%Q); [cbn; repeat split; eauto; discriminate|].
  destruct (Js.truthy_opt_string _); cbn [negb];
    [|cbn; repeat split; eauto; discriminate].
  rewrite Hrpc.
  destruct (can_deploy (walletBalance wallet)); cbn [negb];
    [rewrite Hlt|]; cbn; repeat split; eauto.
Qed.

Lemma insufficient_headroom_never_deployed_witness :
  insufficient_funds
    (deploy_error
       (fst (handleDeployToken (Scenario.oracle Scenario.t0 345000000)
               (Scenario.proposal None (Some 80%Q)) (initial_world []))))
  = true.
Proof.
  apply (insufficient_headroom_never_deployed
           (Scenario.oracle Scenario.t0 345000000)
           (Scenario.proposal None (Some 80%Q)) (initial_world [])
           {| lamports := 345000000; address := "AgentWallet" |});
    reflexivity.
Defined.

(** ** Low confidence *)

(** C4, as stated, fails: a proposal with confidence 30, made 100 seconds
    after the last deployment, is answered with the cooldown rejection, which
    comes before the confidence check. *)
Lemma low_confidence_hidden_by_cooldown :
  let w := set_lastDeploymentTime Scenario.t0 (initial_world []) in
  let o := Scenario.oracle (Scenario.t0 + 99998) 1000000000 in
  let args := Scenario.proposal None (Some 30%Q) in
  fst (handleDeployToken o args w) = Returned (rejected (TooSoon 140))
  /\ forall c, deploy_error (fst (handleDeployToken o args w)) <> Some (ConfidenceTooLow c).
Proof. vm_compute. split; [reflexivity | discriminate]. Qed.

(** C4, amended.  A proposal that carries a confidence score other than
    zero and below 60 is never deployed and leaves the cooldown time stamp
    and the store as they were; when it is not reported as a duplicate and no
    cooldown holds, it is answered with the low-confidence rejection. *)
Theorem low_confidence_never_deployed o args w c :
  DeployTokenArgs.confidence_score args = Some c ->
  ~ (c == 0)%Q ->
  (c < 60)%Q ->
  deploy_success (fst (handleDeployToken o args w)) = false
  /\ (exists e, fst (handleDeployToken o args w) = Returned (rejected e))
  /\ lastDeploymentTime (snd (handleDeployToken o args w)) = lastDeploymentTime w
  /\ deployments (snd (handleDeployToken o args w)) = deployments w
  /\ (reportsDuplicate o args w = false ->
      cooldownWait (lastDeploymentTime w) (now_cooldown o) = None ->
      fst (handleDeployToken o args w) = Returned (rejected (ConfidenceTooLow c))).
Proof.
  intros Hc Hnz Hlt.
  destruct (handleDeployToken_cases o args w)
    as (answer & w1 & _ & [Hl Hd] & _ & ->).
  destruct (reportsDuplicate o args w);
    [cbn; repeat split; eauto; discriminate|].
  unfold checksAfterDuplicate.
  destruct (cooldownWait (lastDeploymentTime w) (now_cooldown o));
    [cbn; repeat split; eauto; discriminate|].
  rewrite Hc, (number_or_truthy _ _ Hnz).
  apply Js_lt_spec in Hlt. rewrite Hlt.
  cbn; repeat split; eauto.
Qed.

Lemma low_confidence_never_deployed_witness :
  fst (handleDeployToken (Scenario.oracle Scenario.t0 1000000000)
         (Scenario.proposal None (Some 59%Q)) (initial_world []))
  = Returned (rejected (ConfidenceTooLow 59%Q)).
Proof.
  apply (low_confidence_never_deployed
           (Scenario.oracle Scenario.t0 1000000000)
           (Scenario.proposal None (Some 59%Q)) (initial_world []) 59%Q);
    [reflexivity | discriminate | reflexivity | reflexivity | reflexivity].
Defined.

(** A confidence score of zero is falsy, so [args.confidence_score || 70]
    judges it as 70: the proposal passes the confidence check and is
    deployed, and the record stores a confidence of 70. *)
Example zero_confidence_deployed :
  let r := handleDeployToken (Scenario.oracle Scenario.t0 1000000000)
             (Scenario.proposal None (Some 0%Q)) (initial_world []) in
  deploy_success (fst r) = true
  /\ List.map (fun d => DeploymentRecord.confidence_score (DeploymentRecord.meta d))
       (deployments (snd r)) = [70%Q].
Proof. vm_compute. repeat split. Qed.

(** ** Balance guard *)



(** ** Trigger references without an identifier *)

(** C7.  When the URL holds no [status/<digits>], [extractTweetId] finds no
    identifier, [checkTweetAlreadyTokenized] answers "not tokenized" without
    consulting the cache, the clock or the database and without touching the
    module state, and a proposal carrying that URL is never answered with the
    duplicate rejection. *)
Theorem unparseable_reference_never_duplicate (url : string) :
  ~ has_status_id url ->
  extractTweetId url = None
  /\ (forall o w, checkTweetAlreadyTokenized o url w = (Returned not_tokenized, w))
  /\ (forall o args w,
        DeployTokenArgs.tweet_url args = Some url ->
        reportsDuplicate o args w = false
        /\ forall label u,
             deploy_error (fst (handleDeployToken o args w))
             <> Some (AlreadyTokenized label u)).
Proof.
  intros Hno. apply extractTweetId_None in Hno.
  split; [exact Hno|].
  split; [intros o w; apply checkTweetAlreadyTokenized_unparseable, Hno|].
  intros o args w Hurl.
  assert (Hrep : reportsDuplicate o args w = false).
  { unfold reportsDuplicate, duplicateCheck. rewrite Hurl.
    destruct (Js.truthy_string url); [|reflexivity].
    rewrite (checkTweetAlreadyTokenized_unparseable _ _ _ Hno). reflexivity. }
  split; [exact Hrep|]. intros label u.
  destruct (handleDeployToken_cases o args w) as (answer & w1 & _ & _ & _ & ->).
  rewrite Hrep. unfold checksAfterDuplicate.
  each_verdict; discriminate.
Qed.

Lemma unparseable_reference_never_duplicate_witness :
  checkTweetAlreadyTokenized (Scenario.unreachable Scenario.t0)
    "https://x.com/lobster/photo/1"
    (initial_world [])
  = (Returned not_tokenized, initial_world []).
Proof.
  apply (unparseable_reference_never_duplicate "https://x.com/lobster/photo/1").
  apply extractTweetId_None. reflexivity.
Defined.

(** ** The dedup check during a store outage *)

(** C8.  [checkTweetAlreadyTokenized] returns an answer under every oracle:
    it never throws.  When the database is unreachable for the refresh and
    for both lookups, the module state, and so the cache, is exactly what it
    was before the call, and the answer is read off that cache: a duplicate
    (labelled "Unknown token") when the identifier is cached, not a duplicate
    otherwise. *)
Theorem dedup_check_survives_store_outage :
  (forall o url w, exists answer w',
      checkTweetAlreadyTokenized o url w = (Returned answer, w'))
  /\ (forall now w, refreshDeployedTweetIds false now w = (Returned tt, w))
  /\ (forall o url w,
        refresh_reachable o = false ->
        confirm_reachable o = false ->
        direct_reachable o = false ->
        exists answer,
          checkTweetAlreadyTokenized o url w = (Returned answer, w)
          /\ answer =
             match extractTweetId url with
             | Some tweetId =>
                 if bool_decide (tweetId ∈ deployedTweetIds w)
                 then tokenized_as "Unknown token"
                 else not_tokenized
             | None => not_tokenized
             end).
Proof.
  split.
  { intros o url w.
    destruct (checkTweetAlreadyTokenized_total o url w) as (answer & w' & H & _).
    eauto. }
  split; [intros; apply refreshDeployedTweetIds_unreachable|].
  intros o url w Hr Hc Hd.
  destruct (extractTweetId url) as [tweetId|] eqn:Hid.
  - destruct (checkTweetAlreadyTokenized_run o url tweetId w Hid)
      as (w1 & w2 & _ & Hrun & _ & _ & Hw1 & Hw2).
    specialize (Hw1 Hr). specialize (Hw2 Hd). subst w2 w1.
    eexists. split; [exact Hrun|].
    unfold lookup_answer. rewrite Hc, Hd.
    destruct (bool_decide _); reflexivity.
  - eexists. split; [apply checkTweetAlreadyTokenized_unparseable, Hid | reflexivity].
Qed.

Lemma dedup_check_survives_store_outage_witness :
  exists answer,
    checkTweetAlreadyTokenized (Scenario.unreachable Scenario.t0)
      "https://x.com/lobster/status/1876543210987654321"
      (set_deployedTweetIds {["1876543210987654321"]} (initial_world []))
    = (Returned answer,
       set_deployedTweetIds {["1876543210987654321"]} (initial_world []))
    /\ answer = tokenized_as "Unknown token".
Proof.
  destruct dedup_check_survives_store_outage as (_ & _ & H).
  destruct (H (Scenario.unreachable Scenario.t0)
              "https://x.com/lobster/status/1876543210987654321"
              (set_deployedTweetIds {["1876543210987654321"]} (initial_world []))
              eq_refl eq_refl eq_refl) as (answer & Hrun & Hans).
  exists answer. split; [exact Hrun | rewrite Hans; reflexivity].
Defined.

(** ** What a call writes *)

(** [lastDeploymentTime] and the store change in one case only: the call
    returns success, the record of the proposal has been appended and the
    time stamp is the clock reading of line 523. *)
Lemma handleDeployToken_writes o args w :
  let r := handleDeployToken o args w in
  (deploy_success (fst r) = false
   /\ lastDeploymentTime (snd r) = lastDeploymentTime w
   /\ deployments (snd r) = deployments w)
  \/ (fst r = Returned (deployed o)
      /\ reportsDuplicate o args w = false
      /\ cooldownWait (lastDeploymentTime w) (now_cooldown o) = None
      /\ deployFailure o = None
      /\ lastDeploymentTime (snd r) = now_recorded o
      /\ exists admission,
           deployments (snd r) = (deployments w ++ [deploymentRecord o args admission])%list).
Proof.
  cbv zeta.
  destruct (handleDeployToken_cases o args w)
    as (answer & w1 & _ & [Hl Hd] & _ & ->).
  destruct (reportsDuplicate o args w); [left; cbn; auto|].
  unfold checksAfterDuplicate.
  destruct (cooldownWait (lastDeploymentTime w) (now_cooldown o)) eqn:Hcool;
    [left; cbn; auto|].
  destruct (deployFailure o) eqn:Hfail; each_verdict; try (left; cbn; solve [auto]).
  right. cbn. rewrite Hd. repeat split; eauto.
Qed.

(** ** Duplicate trigger references *)

(** [findOne] finds a record as soon as one matches, and it is the new
    record when none of the older ones matches. *)
Lemma find_matching {A} (f : A -> bool) (l : list A) (x : A) :
  In x l -> f x = true -> exists y, List.find f l = Some y.
Proof.
  intros Hin Hf. destruct (List.find f l) as [y|] eqn:E; [eauto|].
  pose proof (find_none f l E x Hin). congruence.
Qed.

Lemma find_app_fresh {A} (f : A -> bool) (l : list A) (x : A) :
  List.find f l = None -> f x = true -> List.find f (l ++ [x])%list = Some x.
Proof.
  induction l as [|y l IH]; simpl; intros Hn Hf.
  - rewrite Hf. reflexivity.
  - destruct (f y); [discriminate | auto].
Qed.

(** C1, as stated, fails: a tweet URL without [status/<digits>] is never
    deduplicated, so two proposals carrying it, ten minutes apart, are both
    deployed and the store holds two records with that URL. *)
Lemma unparseable_reference_deployed_twice :
  let url := "https://x.com/i/web/1876543210987654321" in
  let args := Scenario.proposal (Some url) (Some 80%Q) in
  let first := handleDeployToken (Scenario.oracle Scenario.t0 1000000000) args
                 (initial_world []) in
  let second := handleDeployToken (Scenario.oracle (Scenario.t0 + 600000) 1000000000)
                  args (snd first) in
  deploy_success (fst first) = true
  /\ deploy_success (fst second) = true
  /\ List.map (fun d => DeploymentRecord.tweet_url (DeploymentRecord.meta d))
       (deployments (snd second)) = [Some url; Some url].
Proof. vm_compute. repeat split. Qed.

(** C1, amended.  Let a proposal whose tweet URL holds an identifier
    ([status/<digits>]) be deployed.  Its record, carrying the URL, is then in
    the store; and in every state whose store holds a record with that URL,
    every proposal with that URL is answered with the duplicate rejection
    whenever the database answers the lookups.  The rejection carries the URL
    and the label [name ($symbol)] of the first stored record whose URL
    contains the identifier, which right after the deployment is the deployed
    proposal's own label when no earlier record contained the identifier.
    The rejected call leaves the cooldown time stamp and the store as they
    were. *)
Theorem recorded_reference_rejected_as_duplicate o1 args1 w0 r1 w1 url tweetId :
  handleDeployToken o1 args1 w0 = (Returned r1, w1) ->
  DeploymentResult.success r1 = true ->
  DeployTokenArgs.tweet_url args1 = Some url ->
  extractTweetId url = Some tweetId ->
  (exists stored,
     In stored (deployments w1)
     /\ DeploymentRecord.tweet_url (DeploymentRecord.meta stored) = Some url
     /\ token_label stored
        = DeployTokenArgs.name args1 ++ " ($" ++ DeployTokenArgs.symbol args1 ++ ")"
     /\ (List.find (tweet_url_matches tweetId) (deployments w0) = None ->
         List.find (tweet_url_matches tweetId) (deployments w1) = Some stored))
  /\ forall w2 o2 args2,
       (exists kept,
          In kept (deployments w2)
          /\ DeploymentRecord.tweet_url (DeploymentRecord.meta kept) = Some url) ->
       DeployTokenArgs.tweet_url args2 = Some url ->
       confirm_reachable (dedup o2) = true ->
       direct_reachable (dedup o2) = true ->
       exists d w3,
         List.find (tweet_url_matches tweetId) (deployments w2) = Some d
         /\ handleDeployToken o2 args2 w2
            = (Returned (rejected (AlreadyTokenized (Some (token_label d)) url)), w3)
         /\ lastDeploymentTime w3 = lastDeploymentTime w2
         /\ deployments w3 = deployments w2.
Proof.
  intros Hrun Hok Hurl Hid.
  pose proof (contains_extractTweetId _ _ Hid) as Hcontains.
  split.
  { assert (Hstored : exists admission,
       deployments w1 = (deployments w0 ++ [deploymentRecord o1 args1 admission])%list).
    { pose proof (handleDeployToken_writes o1 args1 w0) as Hw. cbv zeta in Hw.
      rewrite Hrun in Hw. cbn [fst snd deploy_success] in Hw.
      destruct Hw as [(Hf & _) | (_ & _ & _ & _ & _ & Hd)]; [congruence | exact Hd]. }
    destruct Hstored as (admission & Hstore).
    exists (deploymentRecord o1 args1 admission).
    split; [rewrite Hstore; apply in_or_app; right; left; reflexivity|].
    split; [cbn; exact Hurl|]. split; [reflexivity|].
    intros Hnone. rewrite Hstore. apply find_app_fresh; [exact Hnone|].
    unfold tweet_url_matches. cbn. rewrite Hurl. exact Hcontains. }
  intros w2 o2 args2 (kept & Hin & Hkept) Hurl2 Hconfirm Hdirect.
  assert (Hmatch : tweet_url_matches tweetId kept = true)
    by (unfold tweet_url_matches; rewrite Hkept; exact Hcontains).
  destruct (find_matching _ _ _ Hin Hmatch) as (d & Hfind).
  destruct (handleDeployToken_cases o2 args2 w2)
    as (answer & w3 & Hdup & [Hl Hd] & Hrep & ->).
  exists d, w3. split; [exact Hfind|].
  unfold duplicateCheck in Hdup. rewrite Hurl2 in Hdup.
  assert (Htruthy : Js.truthy_string url = true)
    by (destruct url; [discriminate Hid | reflexivity]).
  rewrite Htruthy in Hdup.
  destruct (checkTweetAlreadyTokenized_run (dedup o2) url tweetId w2 Hid)
    as (wr & wc & _ & Hcheck & [_ Hdr] & _).
  rewrite Hcheck in Hdup. injection Hdup as <- <-.
  rewrite Hrep, Hurl2.
  rewrite (lookup_answer_found _ _ _ d Hconfirm Hdirect) by (rewrite Hdr; exact Hfind).
  cbn. auto.
Qed.

Lemma recorded_reference_rejected_as_duplicate_witness :
  let url := "https://x.com/lobster/status/1876543210987654321" in
  let args := Scenario.proposal (Some url) (Some 80%Q) in
  let first := handleDeployToken (Scenario.oracle Scenario.t0 1000000000) args
                 (initial_world []) in
  exists w3,
    handleDeployToken (Scenario.oracle (Scenario.t0 + 600000) 1000000000) args (snd first)
    = (Returned (rejected (AlreadyTokenized (Some "Lobster Way ($LBSTR)") url)), w3).
Proof.
  cbv zeta.
  pose proof (recorded_reference_rejected_as_duplicate
                (Scenario.oracle Scenario.t0 1000000000)
                (Scenario.proposal (Some "https://x.com/lobster/status/1876543210987654321")
                   (Some 80%Q))
                (initial_world [])
                (deployed (Scenario.oracle Scenario.t0 1000000000))
                (Scenario.after (Scenario.oracle Scenario.t0 1000000000)
                   (Scenario.proposal
                      (Some "https://x.com/lobster/status/1876543210987654321")
                      (Some 80%Q))
                   (initial_world []))
                "https://x.com/lobster/status/1876543210987654321"
                "1876543210987654321"
                eq_refl eq_refl eq_refl eq_refl) as [(stored & Hin & Hurl & _) H].
  destruct (H _ (Scenario.oracle (Scenario.t0 + 600000) 1000000000)
              (Scenario.proposal (Some "https://x.com/lobster/status/1876543210987654321")
                 (Some 80%Q))
              (ex_intro _ stored (conj Hin Hurl)) eq_refl eq_refl eq_refl)
    as (d & w3 & Hfind & Hrun & _).
  exists w3. vm_compute in Hfind. injection Hfind as <-. exact Hrun.
Defined.

(** ** Failed deployments and the cooldown *)




(** ** Two proposals within one cooldown window *)

(** The safety checks write neither the cooldown time stamp nor the store:
    a call that runs its checks while another call awaits its launch reads
    the time stamp that call has not updated yet. *)
Lemma safetyChecks_keep_stamp o args w :
  cache_only w (snd (safetyChecks o args w)).
Proof.
  destruct (duplicateCheck_total o args w) as (answer & w1 & Hdup & Hco).
  rewrite (safetyChecks_run _ _ _ _ _ Hdup).
  destruct (exists_ answer); exact Hco.
Qed.

(** A proposal within the cooldown that is no duplicate gets the cooldown
    rejection. *)
Lemma cooldown_active_run o args w :
  reportsDuplicate o args w = false ->
  0 < lastDeploymentTime w ->
  now_cooldown o - lastDeploymentTime w < MIN_DEPLOYMENT_INTERVAL ->
  exists w1,
    handleDeployToken o args w
    = (Returned (rejected (TooSoon (Js.ceil_div
         (MIN_DEPLOYMENT_INTERVAL - (now_cooldown o - lastDeploymentTime w)) 1000))), w1)
    /\ cache_only w w1.
Proof.
  intros Hdup Hlast Hnow.
  destruct (handleDeployToken_cases o args w) as (answer & w1 & _ & Hco & _ & ->).
  rewrite Hdup. unfold checksAfterDuplicate.
  rewrite (cooldownWait_Some _ _ Hlast Hnow). eauto.
Qed.

(** C9.  The code at the failing input: the last deployment is five
    minutes old and two proposals with distinct tweets arrive one second
    apart.  The second runs its safety checks while the first awaits its
    launch; it reads the time stamp the first has not yet updated, and both
    are deployed, one second apart, against the cooldown the gate checks at
    line 413 and the "Minimum 4 minutes between deployments" of the tool's
    description (line 315).  Run one after the other, the second is rejected
    for cooldown. *)
Lemma interleaved_proposals_both_deployed :
  let w := set_lastDeploymentTime (Scenario.t0 - 300000) (initial_world []) in
  let oA := Scenario.oracle Scenario.t0 1000000000 in
  let oB := Scenario.oracle (Scenario.t0 + 1000) 1000000000 in
  let oB' := Scenario.oracle (Scenario.t0 + 10000) 1000000000 in
  let argsA := Scenario.proposal (Some "https://x.com/a/status/1001") (Some 80%Q) in
  let argsB := Scenario.proposal (Some "https://x.com/b/status/2002") (Some 80%Q) in
  fst (interleaved oA argsA oB argsB w) = Returned (deployed oA, deployed oB)
  /\ now_recorded oB - now_recorded oA < MIN_DEPLOYMENT_INTERVAL
  /\ length (deployments (snd (interleaved oA argsA oB argsB w))) = 2%nat
  /\ fst (sequential oA argsA oB' argsB w)
     = Returned (deployed oA, rejected (TooSoon 239)).
Proof. vm_compute. repeat split. Qed.

(** Calls handled one after the other.  When a proposal has been deployed
    and a second call of [handleDeployToken] starts after the first has
    returned, with its cooldown check less than [MIN_DEPLOYMENT_INTERVAL]
    after the first call's time stamp, the second is not deployed: it is
    answered with the cooldown rejection (with a wait of at least one
    second) unless it is reported as a duplicate first. *)
Theorem sequential_second_proposal_cooled_down o1 args1 w r1 w1 :
  handleDeployToken o1 args1 w = (Returned r1, w1) ->
  DeploymentResult.success r1 = true ->
  0 < now_recorded o1 ->
  lastDeploymentTime w1 = now_recorded o1
  /\ forall o2 args2,
       now_cooldown o2 - now_recorded o1 < MIN_DEPLOYMENT_INTERVAL ->
       deploy_success (fst (handleDeployToken o2 args2 w1)) = false
       /\ lastDeploymentTime (snd (handleDeployToken o2 args2 w1)) = now_recorded o1
       /\ (reportsDuplicate o2 args2 w1 = false ->
           exists waitSeconds,
             fst (handleDeployToken o2 args2 w1)
             = Returned (rejected (TooSoon waitSeconds))
             /\ 0 < waitSeconds).
Proof.
  intros Hrun Hok Hpos.
  assert (Hstamp : lastDeploymentTime w1 = now_recorded o1).
  { pose proof (handleDeployToken_writes o1 args1 w) as Hw. cbv zeta in Hw.
    rewrite Hrun in Hw. cbn [fst snd deploy_success] in Hw.
    destruct Hw as [(Hf & _) | (_ & _ & _ & _ & Hl & _)]; [congruence | exact Hl]. }
  split; [exact Hstamp|].
  intros o2 args2 Hnow. rewrite <- Hstamp in Hnow, Hpos.
  destruct (reportsDuplicate o2 args2 w1) eqn:Hdup.
  - destruct (handleDeployToken_cases o2 args2 w1)
      as (answer & w2 & _ & [Hl _] & _ & ->).
    rewrite Hdup. cbn. repeat split; [congruence | discriminate].
  - destruct (cooldown_active_run o2 args2 w1 Hdup Hpos Hnow) as (w2 & -> & [Hl _]).
    cbn. repeat split; [congruence|].
    intros _. eexists. split; [reflexivity|].
    pose proof (ceil_div_bounds
      (MIN_DEPLOYMENT_INTERVAL - (now_cooldown o2 - lastDeploymentTime w1)) 1000
      ltac:(lia)).
    lia.
Qed.

Lemma sequential_second_proposal_cooled_down_witness :
  let w := set_lastDeploymentTime (Scenario.t0 - 300000) (initial_world []) in
  let oA := Scenario.oracle Scenario.t0 1000000000 in
  let argsA := Scenario.proposal (Some "https://x.com/a/status/1001") (Some 80%Q) in
  let argsB := Scenario.proposal (Some "https://x.com/b/status/2002") (Some 80%Q) in
  deploy_success
    (fst (handleDeployToken (Scenario.oracle (Scenario.t0 + 10000) 1000000000) argsB
            (Scenario.after oA argsA w)))
  = false.
Proof.
  cbv zeta.
  apply (sequential_second_proposal_cooled_down
           (Scenario.oracle Scenario.t0 1000000000)
           (Scenario.proposal (Some "https://x.com/a/status/1001") (Some 80%Q))
           (set_lastDeploymentTime (Scenario.t0 - 300000) (initial_world []))
           (deployed (Scenario.oracle Scenario.t0 1000000000))
           _ eq_refl eq_refl eq_refl).
  reflexivity.
Defined.

(** * Further properties of the deployment tools *)

(** ** [handleCanDeployNow] *)

(** The wait that [handleCanDeployNow] reports is the wait of the cooldown
    check of [handleDeployToken] at the same clock reading. *)
Lemma time_until_allowed_cooldownWait last now :
  (if 0 <? last
   then Z.max 0 (Js.ceil_div (MIN_DEPLOYMENT_INTERVAL - (now - last)) 1000)
   else 0)
  = default 0 (cooldownWait last now).
Proof.
  unfold cooldownWait. destruct (0 <? last) eqn:Hl; [|reflexivity].
  cbn [andb]. destruct (now - last <? MIN_DEPLOYMENT_INTERVAL) eqn:Hn; cbn.
  - apply Z.ltb_lt in Hn.
    pose proof (ceil_div_bounds (MIN_DEPLOYMENT_INTERVAL - (now - last)) 1000
                  ltac:(lia)). lia.
  - apply Z.ltb_ge in Hn.
    pose proof (ceil_div_bounds (MIN_DEPLOYMENT_INTERVAL - (now - last)) 1000
                  ltac:(lia)). lia.
Qed.

(** [handleCanDeployNow], run. *)
Lemma handleCanDeployNow_run (o : CanDeployOracle) (w : World) :
  exists r,
    handleCanDeployNow o w = (Returned r, w)
    /\ (CanDeployResult.can_deploy r = true <->
        cooldownWait (lastDeploymentTime w) (cd_now o) = None
        /\ Js.truthy_opt_string (privateKey_of (cd_process_env o)) = true
        /\ exists wallet, cd_wallet_rpc o = Returned wallet
                          /\ can_deploy (walletBalance wallet) = true)
    /\ CanDeployResult.reasons r <> []
    /\ (In AllChecksPassed (CanDeployResult.reasons r) <->
        CanDeployResult.can_deploy r = true /\ cd_openai_configured o = true)
    /\ CanDeployResult.time_until_allowed_seconds r
       = default 0 (cooldownWait (lastDeploymentTime w) (cd_now o))
    /\ 0 <= CanDeployResult.time_until_allowed_seconds r.
Proof.
  unfold handleCanDeployNow. run.
  rewrite time_until_allowed_cooldownWait.
  assert (Hwait : 0 <= default 0 (cooldownWait (lastDeploymentTime w) (cd_now o))).
  { rewrite <- time_until_allowed_cooldownWait.
    destruct (0 <? lastDeploymentTime w); lia. }
  unfold cooldownWait in *.
  destruct ((0 <? lastDeploymentTime w)
            && (cd_now o - lastDeploymentTime w <? MIN_DEPLOYMENT_INTERVAL));
    run; rewrite handleGetWalletBalance_run;
    (destruct (Js.truthy_opt_string (privateKey_of (cd_process_env o)));
     [destruct (cd_wallet_rpc o) as [wallet|] eqn:Hrpc;
        [destruct (can_deploy (walletBalance wallet)) eqn:Hcan|]|]);
    cbn [negb]; destruct (cd_openai_configured o); cbn;
    (eexists; split; [reflexivity|]);
    cbn [CanDeployResult.can_deploy CanDeployResult.reasons
         CanDeployResult.time_until_allowed_seconds];
    (split; [split; [try discriminate; intros _; repeat split; eauto
                    | intros (H1 & H2 & wallet' & H3 & H4);
                      try discriminate;
                      try (injection H3 as <-;
                           change (can_deploy (walletBalance wallet) = true) in H4;
                           congruence)]|]);
    (split; [discriminate|]);
    (split; [|split; [reflexivity | exact Hwait]]);
    (split; [cbn; intros H; intuition discriminate | intros [H1 H2];
             try discriminate; cbn; auto]).
Qed.


(** What the balance guard returns, and when. *)
Lemma guard_returns e rpc w balance :
  fst (handleGetWalletBalance e rpc w) = Returned balance <->
  Js.truthy_opt_string (privateKey_of e) = true
  /\ exists wallet, rpc = Returned wallet /\ balance = walletBalance wallet.
Proof.
  rewrite handleGetWalletBalance_run.
  destruct (Js.truthy_opt_string (privateKey_of e)).
  - destruct rpc as [wallet|message]; cbn [fst].
    + split.
      * intros [= <-]. eauto.
      * intros (_ & wallet' & [= <-] & ->). reflexivity.
    + split; [discriminate|]. intros (_ & wallet' & [=] & _).
  - split; [discriminate|]. intros [[=] _].
Qed.

(** X1.  [handleCanDeployNow] never throws and writes nothing.  It answers
    [can_deploy] exactly when no cooldown holds and the balance guard, called
    with the same environment and RPC node, returns a result whose
    [can_deploy] is set; how the guard computes that flag plays no part.  It
    always gives at least one reason, gives "All checks passed" exactly when
    it allows the deployment and OpenAI is configured, and its wait time is
    the wait of the cooldown check (zero when none holds). *)
Theorem canDeployNow_verdict (o : CanDeployOracle) (w : World) :
  exists r,
    handleCanDeployNow o w = (Returned r, w)
    /\ (CanDeployResult.can_deploy r = true <->
        cooldownWait (lastDeploymentTime w) (cd_now o) = None
        /\ exists balance,
             fst (handleGetWalletBalance (cd_process_env o) (cd_wallet_rpc o) w)
             = Returned balance
             /\ can_deploy balance = true)
    /\ CanDeployResult.reasons r <> []
    /\ (In AllChecksPassed (CanDeployResult.reasons r) <->
        CanDeployResult.can_deploy r = true /\ cd_openai_configured o = true)
    /\ CanDeployResult.time_until_allowed_seconds r
       = default 0 (cooldownWait (lastDeploymentTime w) (cd_now o))
    /\ 0 <= CanDeployResult.time_until_allowed_seconds r.
Proof.
  destruct (handleCanDeployNow_run o w) as (r & Hr & Hcan & Hrest).
  exists r. split; [exact Hr|]. split; [|exact Hrest].
  rewrite Hcan. split.
  - intros (Hcool & Hkey & wallet & Hrpc & Hguard).
    split; [exact Hcool|]. exists (walletBalance wallet).
    split; [|exact Hguard]. apply guard_returns. eauto.
  - intros (Hcool & balance & Hreturns & Hguard).
    apply guard_returns in Hreturns as (Hkey & wallet & Hrpc & ->).
    eauto 6.
Qed.

(** ** When [handleDeployToken] deploys *)

(** Arithmetic on concrete rationals, by cross-multiplication. *)
Ltac q_lia :=
  unfold Qlt, Qle, Qeq, Qminus, Qplus, Qopp, Qdiv, Qmult, Qinv, inject_Z,
    LAMPORTS_PER_SOL, MIN_WALLET_RESERVE in *;
  cbn in *; lia.

(** The balance guard computed in exact numbers accepts from 350,000,000
    lamports on. *)
Lemma can_deploy_lamports wallet :
  can_deploy (walletBalance wallet) = true <-> 350000000 <= lamports wallet.
Proof.
  unfold walletBalance. cbn [can_deploy]. rewrite Js_ge_spec.
  unfold Js.Math_max. destruct (Qle_bool 0 _) eqn:E.
  - apply Qle_bool_iff in E. q_lia.
  - assert (H : ~ (0 <= inject_Z (lamports wallet) / LAMPORTS_PER_SOL
                        - MIN_WALLET_RESERVE)%Q).
    { intros H. apply Qle_bool_iff in H. congruence. }
    q_lia.
Qed.

(** A call that deploys has passed every check and every deployment step,
    and conversely; what it returns and writes is then fixed. *)
Lemma handleDeployToken_deployed_iff o args w :
  deploy_success (fst (handleDeployToken o args w)) = true <->
  reachesBalanceCheck o args w = true
  /\ (exists wallet,
        wallet_rpc o = Returned wallet
        /\ can_deploy (walletBalance wallet) = true
        /\ Js.lt (available_for_deployment (walletBalance wallet))
             (requestedSpend args) = false)
  /\ deployFailure o = None.
Proof.
  unfold reachesBalanceCheck, effectiveConfidence, requestedSpend.
  destruct (handleDeployToken_cases o args w) as (answer & w1 & _ & _ & _ & ->).
  destruct (reportsDuplicate o args w); cbn [negb andb];
    [split; [discriminate | intros [H _]; discriminate]|].
  unfold checksAfterDuplicate.
  destruct (cooldownWait (lastDeploymentTime w) (now_cooldown o));
    [split; [discriminate | intros [H _]; discriminate]|].
  destruct (Js.lt _ 60%Q); cbn [negb andb];
    [split; [discriminate | intros [H _]; discriminate]|].
  destruct (Js.truthy_opt_string _); cbn [negb andb];
    [|split; [discriminate | intros [H _]; discriminate]].
  destruct (wallet_rpc o) as [wallet|];
    [|split; [discriminate | intros (_ & (wallet' & H & _) & _); discriminate]].
  destruct (can_deploy (walletBalance wallet)) eqn:Hcan; cbn [negb];
    [|split; [discriminate
             | intros (_ & (wallet' & [= <-] & H & _) & _); congruence]].
  destruct (Js.lt (available_for_deployment (walletBalance wallet)) _) eqn:Hlt;
    [split; [discriminate
            | intros (_ & (wallet' & [= <-] & _ & H) & _); congruence]|].
  destruct (deployFailure o);
    [split; [discriminate | intros (_ & _ & H); discriminate]|].
  split; [|reflexivity]. intros _. repeat split; eauto.
Qed.

(** What a deploying call returns and writes. *)
Lemma handleDeployToken_deployed o args w :
  deploy_success (fst (handleDeployToken o args w)) = true ->
  fst (handleDeployToken o args w) = Returned (deployed o)
  /\ lastDeploymentTime (snd (handleDeployToken o args w)) = now_recorded o
  /\ deployments (snd (handleDeployToken o args w))
     = (deployments w ++ [deploymentRecord o args (admissionOf o args)])%list
  /\ deployedTweetIds (snd (handleDeployToken o args w))
     = deployedTweetIds (snd (duplicateCheck o args w)).
Proof.
  unfold admissionOf, effectiveConfidence, requestedSpend.
  destruct (handleDeployToken_cases o args w)
    as (answer & w1 & Hdup & [_ Hd] & _ & ->).
  rewrite Hdup.
  destruct (reportsDuplicate o args w); [discriminate|].
  unfold checksAfterDuplicate.
  destruct (cooldownWait (lastDeploymentTime w) (now_cooldown o)); [discriminate|].
  destruct (Js.lt _ 60%Q); [discriminate|].
  destruct (negb _); [discriminate|].
  destruct (wallet_rpc o) as [wallet|]; [|discriminate].
  destruct (negb _); [discriminate|].
  destruct (Js.lt _ _); [discriminate|].
  destruct (deployFailure o); [discriminate|].
  intros _. cbn. rewrite Hd. auto.
Qed.

(** X2.  When [handleCanDeployNow] refuses, [handleDeployToken] called with
    the same clock reading, environment and RPC answer does not deploy,
    whatever the proposal; and when [handleDeployToken] answers "too soon",
    its wait is the wait [handleCanDeployNow] reports. *)
Theorem canDeployNow_refusal_blocks_deploy oc o args w r :
  cd_now oc = now_cooldown o ->
  cd_process_env oc = process_env o ->
  cd_wallet_rpc oc = wallet_rpc o ->
  handleCanDeployNow oc w = (Returned r, w) ->
  (CanDeployResult.can_deploy r = false ->
   deploy_success (fst (handleDeployToken o args w)) = false)
  /\ (forall waitSeconds,
        fst (handleDeployToken o args w) = Returned (rejected (TooSoon waitSeconds)) ->
        CanDeployResult.time_until_allowed_seconds r = waitSeconds).
Proof.
  intros Hnow Henv Hrpc Hrun.
  destruct (handleCanDeployNow_run oc w) as (r' & Hrun' & Hcan & _ & _ & Htime & _).
  rewrite Hrun in Hrun'. injection Hrun' as <-.
  rewrite Hnow, Henv, Hrpc in Hcan. rewrite Hnow in Htime. split.
  - intros Hno.
    destruct (deploy_success (fst (handleDeployToken o args w))) eqn:Hs; [|reflexivity].
    apply handleDeployToken_deployed_iff in Hs as (Hreach & (wallet & Hw & Hc & _) & _).
    unfold reachesBalanceCheck in Hreach.
    apply andb_true_iff in Hreach as [Hreach Hkey].
    apply andb_true_iff in Hreach as [Hreach _].
    apply andb_true_iff in Hreach as [_ Hcool].
    assert (CanDeployResult.can_deploy r = true); [|congruence].
    apply Hcan. split; [destruct (cooldownWait _ _); [discriminate | reflexivity]|].
    split; [exact Hkey | eauto].
  - intros waitSeconds Hres. rewrite Htime.
    destruct (handleDeployToken_cases o args w) as (answer & w1 & _ & _ & _ & Hcase).
    rewrite Hcase in Hres. clear Hcase.
    destruct (reportsDuplicate o args w); [discriminate|].
    unfold checksAfterDuplicate in Hres.
    destruct (cooldownWait (lastDeploymentTime w) (now_cooldown o)) as [ws|];
      [cbn in Hres; injection Hres as ->; reflexivity|].
    exfalso. revert Hres. each_verdict; discriminate.
Qed.

Lemma canDeployNow_refusal_blocks_deploy_witness :
  deploy_success
    (fst (handleDeployToken (Scenario.oracle (Scenario.t0 + 99998) 1000000000)
            (Scenario.proposal None (Some 90%Q))
            (set_lastDeploymentTime Scenario.t0 (initial_world []))))
  = false.
Proof.
  eapply (canDeployNow_refusal_blocks_deploy
            {| cd_now := Scenario.t0 + 100000;
               cd_process_env := {| AGENT_PRIVATE_KEY := Some "agent-key";
                                    PRIVATE_KEY := None |};
               cd_wallet_rpc := Returned {| lamports := 1000000000;
                                            address := "AgentWallet" |};
               cd_openai_configured := true |}
            (Scenario.oracle (Scenario.t0 + 99998) 1000000000)
            (Scenario.proposal None (Some 90%Q))
            (set_lastDeploymentTime Scenario.t0 (initial_world [])));
    reflexivity.
Defined.


(** ** Double precision: rounding keeps the order *)

Lemma rne_bounds m : Qfloor m <= Binary64.rne m <= Qfloor m + 1.
Proof.
  unfold Binary64.rne. cbv zeta.
  destruct (m - inject_Z (Qfloor m) ?= 1 # 2)%Q; [destruct (Z.even _)| |]; lia.
Qed.

Lemma rne_mono m m' : (m <= m')%Q -> Binary64.rne m <= Binary64.rne m'.
Proof.
  intros Hle. pose proof (Qfloor_resp_le _ _ Hle) as Hf.
  destruct (Z.eq_dec (Qfloor m) (Qfloor m')) as [Heq|Hne].
  - unfold Binary64.rne. cbv zeta. rewrite <- Heq.
    destruct (m - inject_Z (Qfloor m) ?= 1 # 2)%Q eqn:C;
      destruct (m' - inject_Z (Qfloor m) ?= 1 # 2)%Q eqn:C';
      try (destruct (Z.even (Qfloor m))); try lia;
      first [apply Qeq_alt in C | apply Qlt_alt in C | apply Qgt_alt in C];
      first [apply Qeq_alt in C' | apply Qlt_alt in C' | apply Qgt_alt in C'];
      exfalso; lra.
  - pose proof (rne_bounds m). pose proof (rne_bounds m'). lia.
Qed.

Lemma rne_inject_Z z : Binary64.rne (inject_Z z) = z.
Proof.
  unfold Binary64.rne. cbv zeta. rewrite Qfloor_Z.
  assert (H : (inject_Z z - inject_Z z ?= 1 # 2)%Q = Lt).
  { apply (proj1 (Qlt_alt _ _)). generalize (inject_Z z). intros q. lra. }
  rewrite H. reflexivity.
Qed.

Lemma pow2_pos k : (0 < 2 ^ k)%Q.
Proof. apply Qpower_0_lt. reflexivity. Qed.

Lemma pow2_le k k' : k <= k' -> (2 ^ k <= 2 ^ k')%Q.
Proof. intros H. apply Qpower_le_compat_l; [exact H | discriminate]. Qed.

Lemma pow2_succ k : (2 ^ (k + 1) == 2 * 2 ^ k)%Q.
Proof.
  rewrite Qpower_plus by discriminate. change (2 ^ 1)%Q with 2%Q. ring.
Qed.

Lemma exponent_spec x :
  (0 < x)%Q ->
  (2 ^ Binary64.exponent x <= x)%Q /\ (x < 2 ^ (Binary64.exponent x + 1))%Q.
Proof.
  intros Hx. unfold Binary64.exponent. cbv zeta.
  destruct x as [n d]. cbn [Qnum Qden].
  assert (Hn : 0 < n) by (unfold Qlt in Hx; cbn in Hx; lia).
  set (a := Z.log2 n). set (b := Z.log2 (Z.pos d)).
  assert (Ha : 2 ^ a <= n < 2 ^ (a + 1)).
  { pose proof (Z.log2_spec n Hn) as H. unfold a.
    rewrite <- Z.add_1_r in H. exact H. }
  assert (Hb : 2 ^ b <= Z.pos d < 2 ^ (b + 1)).
  { pose proof (Z.log2_spec (Z.pos d) ltac:(lia)) as H. unfold b.
    rewrite <- Z.add_1_r in H. exact H. }
  assert (Ha0 : 0 <= a) by apply Z.log2_nonneg.
  assert (Hb0 : 0 <= b) by apply Z.log2_nonneg.
  assert (Hx' : (n # d == inject_Z n / inject_Z (Z.pos d))%Q)
    by (rewrite Qmake_Qdiv; reflexivity).
  assert (Hd : (0 < inject_Z (Z.pos d))%Q) by (unfold Qlt; cbn; lia).
  assert (HA : (2 ^ a <= inject_Z n)%Q /\ (inject_Z n < 2 * 2 ^ a)%Q).
  { rewrite <- pow2_succ.
    change 2%Q with (inject_Z 2). rewrite <- !Zpower_Qpower by lia.
    rewrite <- Zle_Qle, <- Zlt_Qlt. exact Ha. }
  assert (HB : (2 ^ b <= inject_Z (Z.pos d))%Q /\ (inject_Z (Z.pos d) < 2 * 2 ^ b)%Q).
  { rewrite <- pow2_succ.
    change 2%Q with (inject_Z 2). rewrite <- !Zpower_Qpower by lia.
    rewrite <- Zle_Qle, <- Zlt_Qlt. exact Hb. }
  assert (Hab : (2 ^ (a - b) == 2 ^ a / 2 ^ b)%Q)
    by (apply Qpower_minus; discriminate).
  pose proof (pow2_pos a) as Pa. pose proof (pow2_pos b) as Pb.
  (* the bounds 2^(a-b-1) < x < 2^(a-b+1), as products *)
  assert (Hup : (n # d < 2 * 2 ^ (a - b))%Q).
  { rewrite Hx', Hab. apply Qlt_shift_div_r; [exact Hd|].
    assert (E : (2 * (2 ^ a / 2 ^ b) * inject_Z (Z.pos d)
                 == 2 * 2 ^ a * (inject_Z (Z.pos d) / 2 ^ b))%Q) by (field; lra).
    rewrite E.
    assert (1 <= inject_Z (Z.pos d) / 2 ^ b)%Q
      by (apply Qle_shift_div_l; [exact Pb | lra]).
    nra. }
  assert (Hlow : (2 ^ (a - b) < 2 * (n # d))%Q).
  { rewrite Hx', Hab.
    assert (E : (2 * (inject_Z n / inject_Z (Z.pos d))
                 == (2 * inject_Z n) / inject_Z (Z.pos d))%Q) by (field; lra).
    rewrite E. apply Qlt_shift_div_l; [exact Hd|].
    assert (E' : (2 ^ a / 2 ^ b * inject_Z (Z.pos d)
                  == 2 ^ a * (inject_Z (Z.pos d) / 2 ^ b))%Q) by (field; lra).
    rewrite E'.
    assert (inject_Z (Z.pos d) / 2 ^ b < 2)%Q
      by (apply Qlt_shift_div_r; [exact Pb | lra]).
    assert (0 < inject_Z (Z.pos d) / 2 ^ b)%Q
      by (apply Qlt_shift_div_l; [exact Pb | lra]).
    nra. }
  destruct (Qle_bool (2 ^ (a - b)) (n # d)) eqn:C.
  - apply Qle_bool_iff in C. split; [exact C|]. rewrite pow2_succ. exact Hup.
  - assert (Hlt : (n # d < 2 ^ (a - b))%Q).
    { apply Qnot_le_lt. intros H. apply Qle_bool_iff in H. congruence. }
    replace (a - b - 1 + 1) with (a - b) by lia.
    split; [|exact Hlt].
    assert (E : (2 ^ (a - b) == 2 * 2 ^ (a - b - 1))%Q).
    { rewrite <- pow2_succ. replace (a - b - 1 + 1) with (a - b) by lia.
      reflexivity. }
    rewrite E in Hlow. lra.
Qed.

Lemma exponent_mono x y :
  (0 < x)%Q -> (x <= y)%Q -> Binary64.exponent x <= Binary64.exponent y.
Proof.
  intros Hx Hxy.
  destruct (exponent_spec x Hx) as [Hx1 _].
  destruct (exponent_spec y ltac:(lra)) as [_ Hy2].
  destruct (Z_le_gt_dec (Binary64.exponent x) (Binary64.exponent y)) as [H|H];
    [exact H|].
  pose proof (pow2_le (Binary64.exponent y + 1) (Binary64.exponent x) ltac:(lia)).
  lra.
Qed.

(** Rounding at a fixed exponent. *)
Lemma round_at_mono e x y :
  (x <= y)%Q ->
  (inject_Z (Binary64.rne (x / 2 ^ (e - 52))) * 2 ^ (e - 52)
   <= inject_Z (Binary64.rne (y / 2 ^ (e - 52))) * 2 ^ (e - 52))%Q.
Proof.
  intros Hxy. pose proof (pow2_pos (e - 52)) as Hu.
  apply Qmult_le_compat_r; [|lra].
  rewrite <- Zle_Qle. apply rne_mono.
  apply Qmult_le_compat_r; [exact Hxy|].
  apply Qlt_le_weak, Qinv_lt_0_compat, Hu.
Qed.

Lemma round_at_bounds e x :
  (2 ^ e <= x)%Q -> (x < 2 ^ (e + 1))%Q ->
  (2 ^ e <= inject_Z (Binary64.rne (x / 2 ^ (e - 52))) * 2 ^ (e - 52))%Q
  /\ (inject_Z (Binary64.rne (x / 2 ^ (e - 52))) * 2 ^ (e - 52) <= 2 ^ (e + 1))%Q.
Proof.
  intros Hlo Hhi. pose proof (pow2_pos (e - 52)) as Hu.
  assert (E52 : (2 ^ e == inject_Z (2 ^ 52) * 2 ^ (e - 52))%Q).
  { rewrite Zpower_Qpower by lia. change (inject_Z 2) with 2%Q.
    rewrite <- Qpower_plus by discriminate.
    replace (52 + (e - 52)) with e by lia. reflexivity. }
  assert (E53 : (2 ^ (e + 1) == inject_Z (2 ^ 53) * 2 ^ (e - 52))%Q).
  { rewrite Zpower_Qpower by lia. change (inject_Z 2) with 2%Q.
    rewrite <- Qpower_plus by discriminate.
    replace (53 + (e - 52)) with (e + 1) by lia. reflexivity. }
  assert (Hm1 : (inject_Z (2 ^ 52) <= x / 2 ^ (e - 52))%Q).
  { apply Qle_shift_div_l; [exact Hu|]. rewrite <- E52. exact Hlo. }
  assert (Hm2 : (x / 2 ^ (e - 52) <= inject_Z (2 ^ 53))%Q).
  { apply Qle_shift_div_r; [exact Hu|]. rewrite <- E53. lra. }
  apply rne_mono in Hm1, Hm2. rewrite rne_inject_Z in Hm1, Hm2.
  rewrite E52, E53. split; (apply Qmult_le_compat_r; [|lra]);
    rewrite <- Zle_Qle; assumption.
Qed.

Lemma round_positive_mono x y :
  (0 < x)%Q -> (x <= y)%Q ->
  (Binary64.round_positive x <= Binary64.round_positive y)%Q.
Proof.
  intros Hx Hxy. unfold Binary64.round_positive. cbv zeta.
  pose proof (exponent_mono x y Hx Hxy) as He.
  destruct (exponent_spec x Hx) as [Hx1 Hx2].
  destruct (exponent_spec y ltac:(lra)) as [Hy1 Hy2].
  destruct (Z.eq_dec (Binary64.exponent x) (Binary64.exponent y)) as [Heq|Hne].
  - rewrite Heq. apply round_at_mono, Hxy.
  - destruct (round_at_bounds _ _ Hx1 Hx2) as [_ Hbx].
    destruct (round_at_bounds _ _ Hy1 Hy2) as [Hby _].
    pose proof (pow2_le (Binary64.exponent x + 1) (Binary64.exponent y) ltac:(lia)).
    lra.
Qed.

Lemma round_positive_pos x : (0 < x)%Q -> (0 < Binary64.round_positive x)%Q.
Proof.
  intros Hx. destruct (exponent_spec x Hx) as [Hx1 Hx2].
  destruct (round_at_bounds _ _ Hx1 Hx2) as [Hb _].
  pose proof (pow2_pos (Binary64.exponent x)).
  unfold Binary64.round_positive. cbv zeta. lra.
Qed.

(** Rounding keeps the order. *)
Lemma round64_mono x y :
  (x <= y)%Q -> (Binary64.round64 x <= Binary64.round64 y)%Q.
Proof.
  intros Hxy. unfold Binary64.round64.
  destruct (x ?= 0)%Q eqn:Cx; destruct (y ?= 0)%Q eqn:Cy;
    first [apply Qeq_alt in Cx | apply Qlt_alt in Cx | apply Qgt_alt in Cx];
    first [apply Qeq_alt in Cy | apply Qlt_alt in Cy | apply Qgt_alt in Cy];
    try (exfalso; lra); try lra.
  - pose proof (round_positive_pos y Cy). lra.
  - pose proof (round_positive_pos (- x) ltac:(lra)). lra.
  - pose proof (round_positive_mono (- y) (- x) ltac:(lra) ltac:(lra)). lra.
  - pose proof (round_positive_pos (- x) ltac:(lra)).
    pose proof (round_positive_pos y Cy). lra.
  - apply round_positive_mono; assumption.
Qed.

Lemma round64_comp x y : (x == y)%Q -> (Binary64.round64 x == Binary64.round64 y)%Q.
Proof.
  intros H. apply Qle_antisym; apply round64_mono; lra.
Qed.

(** ** The balance guard in double precision *)

(** The headroom before [Math.max], as a function of the lamports: it grows
    with the balance. *)
Lemma headroom_mono l l' :
  l <= l' ->
  (Binary64.sub (Binary64.div (inject_Z l) Binary64.LAMPORTS_PER_SOL)
     Binary64.MIN_WALLET_RESERVE
   <= Binary64.sub (Binary64.div (inject_Z l') Binary64.LAMPORTS_PER_SOL)
        Binary64.MIN_WALLET_RESERVE)%Q.
Proof.
  intros H. unfold Binary64.sub, Binary64.div.
  apply round64_mono.
  assert (Hd : (Binary64.round64 (inject_Z l / Binary64.LAMPORTS_PER_SOL)
                <= Binary64.round64 (inject_Z l' / Binary64.LAMPORTS_PER_SOL))%Q).
  { apply round64_mono. apply Qmult_le_compat_r; [|discriminate].
    rewrite <- Zle_Qle. exact H. }
  lra.
Qed.

Lemma Math_max_0 x :
  (0 <= Js.Math_max 0 x)%Q /\ (x <= Js.Math_max 0 x)%Q
  /\ ((x <= 0)%Q -> (Js.Math_max 0 x == 0)%Q)
  /\ ((0 < x)%Q -> (Js.Math_max 0 x == x)%Q).
Proof.
  unfold Js.Math_max. destruct (Qle_bool 0 x) eqn:E.
  - apply Qle_bool_iff in E. repeat split; try lra.
  - assert (H : ~ (0 <= x)%Q) by (intros H; apply Qle_bool_iff in H; congruence).
    repeat split; try lra.
Qed.

(** [Binary64.handleGetWalletBalance], run. *)
Lemma Binary64_handleGetWalletBalance_run e rpc w :
  Binary64.handleGetWalletBalance e rpc w =
  if Js.truthy_opt_string (privateKey_of e) then
    match rpc with
    | Returned wallet =>
        (Returned
           {| balance_sol :=
                Binary64.div (inject_Z (lamports wallet)) Binary64.LAMPORTS_PER_SOL;
              available_for_deployment :=
                Js.Math_max 0
                  (Binary64.sub
                     (Binary64.div (inject_Z (lamports wallet))
                        Binary64.LAMPORTS_PER_SOL)
                     Binary64.MIN_WALLET_RESERVE);
              can_deploy :=
                Js.ge
                  (Js.Math_max 0
                     (Binary64.sub
                        (Binary64.div (inject_Z (lamports wallet))
                           Binary64.LAMPORTS_PER_SOL)
                        Binary64.MIN_WALLET_RESERVE))
                  Binary64.MIN_DEPLOYABLE;
              reserve_amount := Binary64.MIN_WALLET_RESERVE;
              wallet_address := address wallet |}, w)
    | Thrown message => (Thrown message, w)
    end
  else (Thrown "AGENT_PRIVATE_KEY not configured", w).
Proof.
  unfold Binary64.handleGetWalletBalance.
  destruct (Js.truthy_opt_string (privateKey_of e)); [|reflexivity].
  destruct rpc; reflexivity.
Qed.

(** X3.  The balance guard in lamports, in the double arithmetic of the
    source.  With a configured key and an RPC node that reports a whole
    number of lamports a double holds exactly, [handleGetWalletBalance]
    reports [can_deploy] exactly from 350,000,001 lamports on: at exactly
    0.35 SOL the subtraction of the reserve gives a double just below 0.05
    and the guard refuses.  The headroom it reports is never negative and is
    zero exactly up to 300,000,000 lamports.  At every balance other than
    350,000,000 lamports the verdict is the one of the guard computed in
    exact numbers.  Without a key the guard throws, whatever the RPC node
    would answer. *)
Theorem balance_guard_in_lamports :
  (forall e wallet w,
     Js.truthy_opt_string (privateKey_of e) = true ->
     0 <= lamports wallet <= MAX_SAFE_INTEGER ->
     exists r,
       Binary64.handleGetWalletBalance e (Returned wallet) w = (Returned r, w)
       /\ (can_deploy r = true <-> 350000001 <= lamports wallet)
       /\ (0 <= available_for_deployment r)%Q
       /\ ((available_for_deployment r == 0)%Q <-> lamports wallet <= 300000000)
       /\ (lamports wallet <> 350000000 ->
           can_deploy r = can_deploy (walletBalance wallet)))
  /\ (forall e rpc w,
        Js.truthy_opt_string (privateKey_of e) = false ->
        Binary64.handleGetWalletBalance e rpc w
        = (Thrown "AGENT_PRIVATE_KEY not configured", w)).
Proof.
  split.
  - intros e wallet w Hkey _.
    rewrite Binary64_handleGetWalletBalance_run, Hkey.
    eexists. split; [reflexivity|].
    cbn [can_deploy available_for_deployment].
    set (headroom l :=
           Binary64.sub (Binary64.div (inject_Z l) Binary64.LAMPORTS_PER_SOL)
             Binary64.MIN_WALLET_RESERVE).
    change (Binary64.sub _ Binary64.MIN_WALLET_RESERVE)
      with (headroom (lamports wallet)).
    destruct (Math_max_0 (headroom (lamports wallet))) as (H0 & Hx & Hneg & Hpos).
    assert (Hthreshold : Js.ge (Js.Math_max 0 (headroom (lamports wallet)))
                           Binary64.MIN_DEPLOYABLE = true
                         <-> 350000001 <= lamports wallet).
    { rewrite Js_ge_spec. split.
      - intros Hge.
        destruct (Z_le_gt_dec 350000001 (lamports wallet)) as [H|H]; [exact H|].
        exfalso.
        pose proof (headroom_mono (lamports wallet) 350000000 ltac:(lia)) as Hm.
        fold (headroom (lamports wallet)) (headroom 350000000) in Hm.
        assert (Hc : (headroom 350000000%Z < Binary64.MIN_DEPLOYABLE)%Q)
          by (vm_compute; reflexivity).
        assert (Hc0 : (0 < Binary64.MIN_DEPLOYABLE)%Q) by (vm_compute; reflexivity).
        destruct (Qlt_le_dec 0 (headroom (lamports wallet))) as [Hp|Hn].
        + rewrite (Hpos Hp) in Hge. lra.
        + rewrite (Hneg Hn) in Hge. lra.
      - intros H.
        pose proof (headroom_mono 350000001 (lamports wallet) H) as Hm.
        fold (headroom (lamports wallet)) (headroom 350000001) in Hm.
        assert (Hc : (Binary64.MIN_DEPLOYABLE <= headroom 350000001%Z)%Q)
          by (vm_compute; discriminate).
        lra. }
    split; [exact Hthreshold|].
    split; [exact H0|].
    split.
    + split.
      * intros Hz.
        destruct (Z_le_gt_dec (lamports wallet) 300000000) as [H|H]; [exact H|].
        exfalso.
        pose proof (headroom_mono 300000001 (lamports wallet) ltac:(lia)) as Hm.
        fold (headroom (lamports wallet)) (headroom 300000001) in Hm.
        assert (Hc : (0 < headroom 300000001%Z)%Q) by (vm_compute; reflexivity).
        rewrite Hpos in Hz by lra. lra.
      * intros H.
        pose proof (headroom_mono (lamports wallet) 300000000 H) as Hm.
        fold (headroom (lamports wallet)) (headroom 300000000) in Hm.
        assert (Hc : (headroom 300000000%Z <= 0)%Q) by (vm_compute; discriminate).
        apply Hneg. lra.
    + intros Hne. apply eq_true_iff_eq.
      rewrite Hthreshold, can_deploy_lamports. lia.
  - intros e rpc w Hkey.
    rewrite Binary64_handleGetWalletBalance_run, Hkey. reflexivity.
Qed.

Lemma balance_guard_in_lamports_witness :
  exists r,
    Binary64.handleGetWalletBalance
      {| AGENT_PRIVATE_KEY := None; PRIVATE_KEY := Some "key" |}
      (Returned {| lamports := 350000000; address := "AgentWallet" |})
      (initial_world [])
    = (Returned r, initial_world [])
    /\ can_deploy r = false.
Proof.
  destruct balance_guard_in_lamports as [H _].
  destruct (H {| AGENT_PRIVATE_KEY := None; PRIVATE_KEY := Some "key" |}
              {| lamports := 350000000; address := "AgentWallet" |}
              (initial_world []) eq_refl)
    as (r & Hrun & Hcan & _).
  { unfold MAX_SAFE_INTEGER. cbn. lia. }
  exists r. split; [exact Hrun|].
  destruct (can_deploy r); [|reflexivity].
  exfalso. cbn in Hcan. destruct Hcan as [Hcan _]. specialize (Hcan eq_refl). lia.
Defined.
(** The checks a deploying call has passed, in numbers. *)
Lemma deployment_needs_every_check_aux o args w :
  deploy_success (fst (handleDeployToken o args w)) = true ->
  (60 <= effectiveConfidence args)%Q
  /\ exists wallet,
       wallet_rpc o = Returned wallet
       /\ can_deploy (walletBalance wallet) = true
       /\ (requestedSpend args <= available_for_deployment (walletBalance wallet))%Q.
Proof.
  intros Hs. apply handleDeployToken_deployed_iff in Hs
    as (Hreach & (wallet & Hw & Hcan & Hlt) & _).
  unfold reachesBalanceCheck in Hreach.
  apply andb_true_iff in Hreach as [Hreach _].
  apply andb_true_iff in Hreach as [_ Hconf].
  unfold Js.lt in Hconf, Hlt.
  rewrite negb_involutive in Hconf. apply Qle_bool_iff in Hconf.
  apply negb_false_iff, Qle_bool_iff in Hlt. eauto.
Qed.




(** X5.  A deployment stays within the headroom the guard reports and is
    recorded as judged.  When [handleDeployToken] deploys, the balance guard
    has returned a result whose [can_deploy] is set and whose headroom is
    not below the amount asked for; and the store has grown by exactly one
    record, which carries the proposal's tweet URL, the amount asked for,
    the confidence the gate judged (at least 60), the mint the launch
    returned and the outcome "active". *)
Theorem deployment_recorded_as_judged o args w :
  deploy_success (fst (handleDeployToken o args w)) = true ->
  (exists balance,
     fst (handleGetWalletBalance (process_env o) (wallet_rpc o) w)
     = Returned balance
     /\ can_deploy balance = true
     /\ (requestedSpend args <= available_for_deployment balance)%Q)
  /\ exists d,
       deployments (snd (handleDeployToken o args w)) = (deployments w ++ [d])%list
       /\ DeploymentRecord.tweet_url (DeploymentRecord.meta d)
          = DeployTokenArgs.tweet_url args
       /\ DeploymentRecord.initial_buy_sol d = requestedSpend args
       /\ DeploymentRecord.confidence_score (DeploymentRecord.meta d)
          = effectiveConfidence args
       /\ (60 <= DeploymentRecord.confidence_score (DeploymentRecord.meta d))%Q
       /\ DeploymentRecord.mint d = launched_mint (launch o)
       /\ DeploymentRecord.outcome (DeploymentRecord.perf d) = active.
Proof.
  intros Hs. pose proof (handleDeployToken_deployed _ _ _ Hs) as (_ & _ & Hstore & _).
  pose proof Hs as Hkey.
  apply handleDeployToken_deployed_iff in Hkey as (Hreach & _ & _).
  unfold reachesBalanceCheck in Hreach. apply andb_true_iff in Hreach as [_ Hkey].
  apply deployment_needs_every_check_aux in Hs.
  destruct Hs as (Hq & wallet & Hw & Hcan & Hlt). split.
  - exists (walletBalance wallet). split; [apply guard_returns; eauto|].
    split; assumption.
  - eexists. split; [exact Hstore|]. cbn. repeat split; assumption.
Qed.

Lemma deployment_recorded_as_judged_witness :
  exists balance,
    fst (handleGetWalletBalance
           (process_env (Scenario.oracle Scenario.t0 400000000))
           (wallet_rpc (Scenario.oracle Scenario.t0 400000000))
           (initial_world []))
    = Returned balance
    /\ can_deploy balance = true
    /\ (requestedSpend (Scenario.proposal None (Some 80%Q))
        <= available_for_deployment balance)%Q.
Proof.
  apply (deployment_recorded_as_judged (Scenario.oracle Scenario.t0 400000000)
           (Scenario.proposal None (Some 80%Q)) (initial_world [])).
  reflexivity.
Defined.
(** X6.  [handleDeployToken] throws in one case only: the proposal has got
    as far as the balance check and the RPC call throws; the exception is the
    RPC's.  A missing key is not an exception: a proposal that has passed the
    duplicate, cooldown and confidence checks is then answered with the
    rejection "AGENT_PRIVATE_KEY not configured", whatever the RPC node would
    say. *)
Theorem deploy_token_throws_only_from_rpc o args w :
  (forall message,
     fst (handleDeployToken o args w) = Thrown message <->
     reachesBalanceCheck o args w = true /\ wallet_rpc o = Thrown message)
  /\ (reportsDuplicate o args w = false ->
      cooldownWait (lastDeploymentTime w) (now_cooldown o) = None ->
      Js.lt (effectiveConfidence args) 60%Q = false ->
      Js.truthy_opt_string (privateKey_of (process_env o)) = false ->
      fst (handleDeployToken o args w) = Returned (rejected KeyNotConfigured)).
Proof.
  unfold reachesBalanceCheck, effectiveConfidence.
  destruct (handleDeployToken_cases o args w) as (answer & w1 & _ & _ & _ & ->).
  split.
  - intros message.
    destruct (reportsDuplicate o args w); cbn [negb andb];
      [split; [discriminate | intros [H _]; discriminate]|].
    unfold checksAfterDuplicate.
    destruct (cooldownWait (lastDeploymentTime w) (now_cooldown o));
      [split; [discriminate | intros [H _]; discriminate]|].
    destruct (Js.lt _ 60%Q); cbn [negb andb];
      [split; [discriminate | intros [H _]; discriminate]|].
    destruct (Js.truthy_opt_string _); cbn [negb andb];
      [|split; [discriminate | intros [H _]; discriminate]].
    destruct (wallet_rpc o) as [wallet|m];
      [|cbn; split; [intros [= ->]; auto | intros [_ [= ->]]; reflexivity]].
    split; [|intros [_ H]; discriminate].
    each_verdict; discriminate.
  - intros -> Hcool Hconf Hkey. unfold checksAfterDuplicate.
    rewrite Hcool, Hconf, Hkey. reflexivity.
Qed.

Lemma deploy_token_throws_only_from_rpc_witness :
  fst (handleDeployToken
         {| dedup := Scenario.reachable Scenario.t0;
            now_cooldown := Scenario.t0;
            process_env := {| AGENT_PRIVATE_KEY := None; PRIVATE_KEY := Some "" |};
            wallet_rpc := Thrown "fetch failed";
            openai_configured := false;
            generated_image := Returned "";
            launch := Scenario.launched;
            now_deployed_at := Scenario.t0;
            record_write := Returned tt;
            now_recorded := Scenario.t0 |}
         (Scenario.proposal None None) (initial_world []))
  = Returned (rejected KeyNotConfigured).
Proof.
  apply deploy_token_throws_only_from_rpc; reflexivity.
Defined.

(** ** The dedup check against the store *)

(** The identifier of a record occurs in the URL of that record. *)
Lemma tweetIdOf_matches d tweetId :
  tweetIdOf d = Some tweetId -> tweet_url_matches tweetId d = true.
Proof.
  unfold tweetIdOf, tweet_url_matches.
  destruct (DeploymentRecord.tweet_url (DeploymentRecord.meta d)) as [u|];
    [|discriminate].
  destruct (Js.truthy_string u); [|discriminate].
  apply contains_extractTweetId.
Qed.

(** The cache after the refresh step is sound, whatever it was before, when
    the refresh took place; otherwise it is the cache as it was. *)
Lemma refreshIfStale_sound o w :
  cache_sound w -> cache_sound (snd (refreshIfStale o w)).
Proof.
  intros Hs. unfold refreshIfStale, bind, get.
  destruct (TWEET_ID_CACHE_TTL <? now_check o - lastTweetIdCacheRefresh w);
    [|exact Hs].
  destruct (refresh_reachable o); [|exact Hs].
  rewrite refreshDeployedTweetIds_reachable. intros tweetId Hin. cbn in Hin.
  apply elem_of_fold_add_id in Hin as [Hin | (d & Hd & Hid)];
    [exfalso; exact (not_elem_of_empty _ Hin)|].
  apply filter_In in Hd as [Hd _]. exists d. split; [exact Hd|].
  apply tweetIdOf_matches, Hid.
Qed.

(** The state [checkTweetAlreadyTokenized] leaves: the state after the
    refresh step, with the identifier added to the cache when it was not
    cached and the direct lookup found a record. *)
Lemma checkTweetAlreadyTokenized_state o tweetUrl tweetId w :
  extractTweetId tweetUrl = Some tweetId ->
  let w1 := snd (refreshIfStale o w) in
  snd (checkTweetAlreadyTokenized o tweetUrl w)
  = match List.find (tweet_url_matches tweetId) (deployments w1) with
    | Some _ =>
        if negb (bool_decide (tweetId ∈ deployedTweetIds w1)) && direct_reachable o
        then set_deployedTweetIds ({[tweetId]} ∪ deployedTweetIds w1) w1
        else w1
    | None => w1
    end.
Proof.
  intros Hid. cbv zeta. unfold checkTweetAlreadyTokenized. rewrite Hid.
  destruct (refreshIfStale_run o w) as (w1 & Hr & _).
  unfold db_findOne_by_tweet_id. run. rewrite Hr. cbn [snd].
  destruct (confirm_reachable o); destruct (direct_reachable o); run;
    destruct (bool_decide (tweetId ∈ deployedTweetIds w1));
    destruct (List.find (tweet_url_matches tweetId) (deployments w1)) eqn:Hfind;
    run; rewrite ?Hfind; run; reflexivity.
Qed.

Lemma checkTweetAlreadyTokenized_sound o tweetUrl w :
  cache_sound w -> cache_sound (snd (checkTweetAlreadyTokenized o tweetUrl w)).
Proof.
  intros Hs. destruct (extractTweetId tweetUrl) as [tweetId|] eqn:Hid.
  - rewrite (checkTweetAlreadyTokenized_state _ _ _ _ Hid). cbv zeta.
    pose proof (refreshIfStale_sound o w Hs) as Hs1.
    destruct (List.find _ _) as [d|] eqn:Hfind; [|exact Hs1].
    destruct (negb _ && _); [|exact Hs1].
    intros i Hin. cbn in Hin. apply elem_of_union in Hin as [Hin | Hin].
    + apply elem_of_singleton in Hin. subst i.
      apply find_some in Hfind. exists d. exact Hfind.
    + apply Hs1, Hin.
  - rewrite (checkTweetAlreadyTokenized_unparseable _ _ _ Hid). exact Hs.
Qed.

(** Store and cache after a call of [handleDeployToken]: the cache is the
    one the duplicate check leaves, the store has at most grown. *)
Lemma handleDeployToken_state o args w :
  deployedTweetIds (snd (handleDeployToken o args w))
  = deployedTweetIds (snd (duplicateCheck o args w))
  /\ exists tail,
       deployments (snd (handleDeployToken o args w)) = (deployments w ++ tail)%list
       /\ (tail = []
           \/ (deploy_success (fst (handleDeployToken o args w)) = true
               /\ tail = [deploymentRecord o args (admissionOf o args)])).
Proof.
  destruct (deploy_success (fst (handleDeployToken o args w))) eqn:Hs.
  - destruct (handleDeployToken_deployed _ _ _ Hs) as (_ & _ & Hstore & Hcache).
    split; [exact Hcache|]. eexists. split; [exact Hstore | auto].
  - destruct (handleDeployToken_cases o args w)
      as (answer & w1 & Hdup & [_ Hd] & _ & Hcase).
    rewrite Hcase, Hdup in *. clear Hcase.
    assert (snd (if reportsDuplicate o args w
                 then (Returned (rejected (AlreadyTokenized (existingToken answer)
                         (default "" (DeployTokenArgs.tweet_url args)))), w1)
                 else match checksAfterDuplicate o args (lastDeploymentTime w) with
                      | Returned (inl rejection) => (Returned rejection, w1)
                      | Returned (inr admission) =>
                          match deployFailure o with
                          | Some message => (Returned (rejected (Message message)), w1)
                          | None =>
                              (Returned (deployed o),
                               set_lastDeploymentTime (now_recorded o)
                                 (set_deployments
                                    (deployments w1 ++ [deploymentRecord o args admission])
                                    w1))
                          end
                      | Thrown message => (Thrown message, w1)
                      end) = w1) as ->.
    { revert Hs. destruct (reportsDuplicate o args w); [reflexivity|].
      destruct (checksAfterDuplicate o args (lastDeploymentTime w)) as [[r|a]|];
        try reflexivity.
      destruct (deployFailure o); [reflexivity | discriminate]. }
    cbn [snd]. split; [reflexivity|]. exists []. rewrite app_nil_r. auto.
Qed.

Lemma duplicateCheck_sound o args w :
  cache_sound w -> cache_sound (snd (duplicateCheck o args w)).
Proof.
  intros Hs. unfold duplicateCheck.
  destruct (DeployTokenArgs.tweet_url args) as [u|]; [|exact Hs].
  destruct (Js.truthy_string u); [|exact Hs].
  apply checkTweetAlreadyTokenized_sound, Hs.
Qed.

(** X7.  With the database answering both lookups, the answer of
    [checkTweetAlreadyTokenized] is the store's alone, whatever the cache
    holds: a duplicate, labelled with the first stored record whose tweet URL
    contains the identifier, when there is such a record, and no duplicate
    otherwise.  So a proposal is also rejected when its identifier merely
    occurs inside the URL of another tweet.  After a positive answer the
    identifier is in the cache; the store is never written. *)
Theorem dedup_answer_is_store_lookup o tweetUrl tweetId w :
  extractTweetId tweetUrl = Some tweetId ->
  confirm_reachable o = true ->
  direct_reachable o = true ->
  exists answer w',
    checkTweetAlreadyTokenized o tweetUrl w = (Returned answer, w')
    /\ answer = match List.find (tweet_url_matches tweetId) (deployments w) with
                | Some d => tokenized_as (token_label d)
                | None => not_tokenized
                end
    /\ (exists_ answer = true <->
        exists d, In d (deployments w) /\ tweet_url_matches tweetId d = true)
    /\ (exists_ answer = true -> tweetId ∈ deployedTweetIds w')
    /\ deployments w' = deployments w.
Proof.
  intros Hid Hc Hd.
  destruct (checkTweetAlreadyTokenized_run o tweetUrl tweetId w Hid)
    as (w1 & w2 & Hr & Hrun & [_ Hs1] & [_ Hs2] & _).
  pose proof (checkTweetAlreadyTokenized_state o tweetUrl tweetId w Hid) as Hstate.
  cbv zeta in Hstate. rewrite Hrun, Hr in Hstate. cbn [snd] in Hstate.
  exists (lookup_answer o tweetId w1), w2. split; [exact Hrun|].
  unfold lookup_answer. rewrite Hc, Hd, Hs1 in *.
  destruct (List.find (tweet_url_matches tweetId) (deployments w)) as [d|] eqn:Hfind.
  - assert (Ha : (if bool_decide (tweetId ∈ deployedTweetIds w1)
                  then tokenized_as (token_label d)
                  else tokenized_as (token_label d)) = tokenized_as (token_label d))
      by (destruct (bool_decide _); reflexivity).
    rewrite Ha. split; [reflexivity|]. split.
    + split; [intros _; exists d; apply (find_some _ _ Hfind) | reflexivity].
    + split; [|exact Hs2]. intros _. rewrite Hstate.
      destruct (bool_decide (tweetId ∈ deployedTweetIds w1)) eqn:Hb; cbn.
      * apply bool_decide_eq_true in Hb. exact Hb.
      * apply elem_of_union. left. apply elem_of_singleton. reflexivity.
  - assert (Ha : (if bool_decide (tweetId ∈ deployedTweetIds w1)
                  then not_tokenized else not_tokenized) = not_tokenized)
      by (destruct (bool_decide _); reflexivity).
    rewrite Ha. split; [reflexivity|]. split.
    + split; [discriminate|]. intros (d & Hin & Hm).
      pose proof (find_none _ _ Hfind d Hin). congruence.
    + split; [discriminate | exact Hs2].
Qed.

Lemma dedup_answer_is_store_lookup_witness :
  let stored := deployments
                  (Scenario.after (Scenario.oracle Scenario.t0 1000000000)
                     (Scenario.proposal
                        (Some "https://x.com/lobster/status/1876543210987654321")
                        (Some 80%Q))
                     (initial_world [])) in
  exists answer w',
    checkTweetAlreadyTokenized (Scenario.reachable (Scenario.t0 + 1000))
      "https://x.com/crab/status/543210" (initial_world stored)
    = (Returned answer, w')
    /\ answer = tokenized_as "Lobster Way ($LBSTR)".
Proof.
  cbv zeta.
  destruct (dedup_answer_is_store_lookup (Scenario.reachable (Scenario.t0 + 1000))
              "https://x.com/crab/status/543210" "543210"
              (initial_world
                 (deployments
                    (Scenario.after (Scenario.oracle Scenario.t0 1000000000)
                       (Scenario.proposal
                          (Some "https://x.com/lobster/status/1876543210987654321")
                          (Some 80%Q))
                       (initial_world []))))
              eq_refl eq_refl eq_refl) as (answer & w' & Hrun & Ha & _).
  exists answer, w'. split; [exact Hrun | rewrite Ha; reflexivity].
Defined.

(** X8.  The dedup cache is sound and stays so: it is empty when the process
    starts, and [checkTweetAlreadyTokenized] and [handleDeployToken] keep the
    invariant that every cached identifier occurs in the tweet URL of a
    stored record.  Under this invariant the check never reports a duplicate
    without such a record being in the store, also when the database is
    unreachable and the answer comes from the cache. *)
Theorem dedup_cache_stays_sound :
  (forall db, cache_sound (initial_world db))
  /\ (forall o tweetUrl w,
        cache_sound w -> cache_sound (snd (checkTweetAlreadyTokenized o tweetUrl w)))
  /\ (forall o args w,
        cache_sound w -> cache_sound (snd (handleDeployToken o args w)))
  /\ (forall o tweetUrl tweetId w answer w',
        cache_sound w ->
        extractTweetId tweetUrl = Some tweetId ->
        checkTweetAlreadyTokenized o tweetUrl w = (Returned answer, w') ->
        exists_ answer = true ->
        exists d, In d (deployments w) /\ tweet_url_matches tweetId d = true).
Proof.
  split; [intros db i Hin; exfalso; exact (not_elem_of_empty _ Hin)|].
  split; [intros; apply checkTweetAlreadyTokenized_sound; assumption|].
  split.
  - intros o args w Hs. pose proof (duplicateCheck_sound o args w Hs) as Hs1.
    destruct (handleDeployToken_state o args w) as (Hcache & tail & Hstore & _).
    destruct (duplicateCheck_total o args w) as (answer & w1 & Hdup & [_ Hd]).
    rewrite Hdup in *. cbn [snd] in *.
    intros i Hin. rewrite Hcache in Hin. destruct (Hs1 i Hin) as (d & Hd' & Hm).
    exists d. split; [|exact Hm]. rewrite Hstore. apply in_or_app. left.
    rewrite <- Hd. exact Hd'.
  - intros o tweetUrl tweetId w answer w' Hs Hid Hrun Hex.
    destruct (checkTweetAlreadyTokenized_run o tweetUrl tweetId w Hid)
      as (w1 & w2 & Hr & Hrun' & [_ Hs1] & _).
    rewrite Hrun in Hrun'. injection Hrun' as -> ->.
    pose proof (refreshIfStale_sound o w Hs) as Hsound. rewrite Hr in Hsound.
    cbn [snd] in Hsound. unfold lookup_answer in Hex.
    destruct (List.find (tweet_url_matches tweetId) (deployments w1)) as [d|] eqn:Hfind.
    + exists d. rewrite <- Hs1. apply (find_some _ _ Hfind).
    + destruct (bool_decide (tweetId ∈ deployedTweetIds w1)) eqn:Hb.
      * apply bool_decide_eq_true in Hb. rewrite <- Hs1. apply Hsound, Hb.
      * destruct (direct_reachable o); discriminate.
Qed.

Lemma dedup_cache_stays_sound_witness :
  cache_sound
    (snd (handleDeployToken (Scenario.oracle Scenario.t0 1000000000)
            (Scenario.proposal (Some "https://x.com/lobster/status/1876543210987654321")
               (Some 80%Q))
            (initial_world []))).
Proof.
  destruct dedup_cache_stays_sound as (Hinit & _ & Hkeep & _).
  apply Hkeep, Hinit.
Defined.

(** ** What calls of [handleDeployToken] write *)

(** X9.  [handleDeployToken] only ever appends to the store: the records
    that were there stay, in order.  A call that deploys appends exactly its
    own record and sets [lastDeploymentTime] to the clock reading of line
    523; every other call (rejected, failed or throwing) leaves the store and
    [lastDeploymentTime] exactly as they were. *)
Theorem deploy_token_only_appends o args w :
  let r := handleDeployToken o args w in
  (deploy_success (fst r) = true ->
   deployments (snd r) = (deployments w ++ [deploymentRecord o args (admissionOf o args)])%list
   /\ lastDeploymentTime (snd r) = now_recorded o)
  /\ (deploy_success (fst r) = false ->
      deployments (snd r) = deployments w
      /\ lastDeploymentTime (snd r) = lastDeploymentTime w).
Proof.
  cbv zeta. split.
  - intros Hs. destruct (handleDeployToken_deployed _ _ _ Hs) as (_ & Hl & Hd & _).
    auto.
  - intros Hs. pose proof (handleDeployToken_writes o args w) as Hw. cbv zeta in Hw.
    destruct Hw as [(_ & Hl & Hd) | (Hr & _)]; [auto|].
    rewrite Hr in Hs. discriminate.
Qed.

Lemma deploy_token_only_appends_witness :
  deployments
    (snd (handleDeployToken (Scenario.oracle Scenario.t0 1000000000)
            (Scenario.proposal None (Some 10%Q)) (initial_world [])))
  = [].
Proof.
  apply (deploy_token_only_appends (Scenario.oracle Scenario.t0 1000000000)
           (Scenario.proposal None (Some 10%Q)) (initial_world [])).
  reflexivity.
Defined.

(** A series of calls without a deployment leaves the cooldown time stamp
    and the store as they were. *)
Lemma runCalls_none_deployed calls w :
  successes (fst (runCalls calls w)) = 0%nat ->
  lastDeploymentTime (snd (runCalls calls w)) = lastDeploymentTime w
  /\ deployments (snd (runCalls calls w)) = deployments w.
Proof.
  revert w. induction calls as [|[o args] calls IH]; intros w; cbn [runCalls].
  - auto.
  - pose proof (handleDeployToken_writes o args w) as Hw. cbv zeta in Hw.
    destruct (handleDeployToken o args w) as [result w1]. cbn [fst snd] in Hw.
    specialize (IH w1). destruct (runCalls calls w1) as [results w2].
    cbn [fst snd] in *. unfold successes in *. cbn [List.filter].
    destruct (deploy_success result) eqn:Hs; [discriminate|].
    intros Hz. destruct (IH Hz) as [Hl Hd].
    destruct Hw as [(_ & Hl1 & Hd1) | (Hr & _)]; [split; congruence|].
    rewrite Hr in Hs. discriminate.
Qed.

(** The store after one call, with the number of records added. *)
Lemma deploy_token_only_appends_aux o args w :
  exists tail,
    deployments (snd (handleDeployToken o args w)) = (deployments w ++ tail)%list
    /\ length tail
       = (if deploy_success (fst (handleDeployToken o args w)) then 1 else 0)%nat.
Proof.
  destruct (handleDeployToken_state o args w) as (_ & tail & Hd & Htail).
  exists tail. split; [exact Hd|].
  destruct Htail as [-> | [Hs ->]].
  - destruct (deploy_success _) eqn:Hs; [|reflexivity].
    destruct (handleDeployToken_deployed _ _ _ Hs) as (_ & _ & Hd' & _).
    rewrite Hd' in Hd. apply app_inv_head in Hd. discriminate.
  - rewrite Hs. reflexivity.
Qed.

(** X10.  Over any series of calls handled one after the other, the store
    grows by exactly one record per deployed call and by nothing else, and
    every call gets an answer. *)
Theorem store_counts_deployments calls w :
  length (fst (runCalls calls w)) = length calls
  /\ length (deployments (snd (runCalls calls w)))
     = (length (deployments w) + successes (fst (runCalls calls w)))%nat
  /\ exists tail, deployments (snd (runCalls calls w)) = (deployments w ++ tail)%list.
Proof.
  revert w. induction calls as [|[o args] calls IH]; intros w; cbn [runCalls].
  - cbn. split; [reflexivity|]. split; [lia|]. exists []. symmetry. apply app_nil_r.
  - destruct (deploy_token_only_appends_aux o args w) as (tail1 & Hd1 & Hcount).
    destruct (handleDeployToken o args w) as [result w1]. cbn [fst snd] in *.
    destruct (IH w1) as (Hlen & Hsize & tail & Htail).
    destruct (runCalls calls w1) as [results w2]. cbn [fst snd] in *.
    split; [cbn; lia|]. split.
    + rewrite Hsize, Hd1, length_app. unfold successes in *. cbn [List.filter].
      destruct (deploy_success result); cbn [length] in *; lia.
    + exists (tail1 ++ tail)%list. rewrite Htail, Hd1, app_assoc. reflexivity.
Qed.

(** X11.  Deployments of calls handled one after the other are spaced by
    the cooldown.  When a call is deployed at a positive clock reading, none
    of the calls after it is deployed until one is, then the cooldown check of
    that one was made at least [MIN_DEPLOYMENT_INTERVAL] (240 s) after the
    first one's time stamp. *)
Theorem deployments_spaced_by_cooldown o1 args1 between o2 args2 w :
  let w1 := snd (handleDeployToken o1 args1 w) in
  let w2 := snd (runCalls between w1) in
  deploy_success (fst (handleDeployToken o1 args1 w)) = true ->
  0 < now_recorded o1 ->
  successes (fst (runCalls between w1)) = 0%nat ->
  deploy_success (fst (handleDeployToken o2 args2 w2)) = true ->
  MIN_DEPLOYMENT_INTERVAL <= now_cooldown o2 - now_recorded o1.
Proof.
  cbv zeta. intros Hs1 Hpos Hnone Hs2.
  destruct (handleDeployToken_deployed _ _ _ Hs1) as (_ & Hl1 & _).
  destruct (runCalls_none_deployed _ _ Hnone) as [Hl2 _].
  apply handleDeployToken_deployed_iff in Hs2 as (Hreach & _).
  unfold reachesBalanceCheck in Hreach.
  apply andb_true_iff in Hreach as [Hreach _].
  apply andb_true_iff in Hreach as [Hreach _].
  apply andb_true_iff in Hreach as [_ Hcool].
  rewrite Hl2, Hl1 in Hcool. unfold cooldownWait in Hcool.
  apply Z.ltb_lt in Hpos. rewrite Hpos in Hcool. cbn [andb] in Hcool.
  destruct (now_cooldown o2 - now_recorded o1 <? MIN_DEPLOYMENT_INTERVAL) eqn:Hn;
    [discriminate|].
  apply Z.ltb_ge in Hn. exact Hn.
Qed.

Lemma deployments_spaced_by_cooldown_witness :
  MIN_DEPLOYMENT_INTERVAL
  <= now_cooldown (Scenario.oracle (Scenario.t0 + 600000) 1000000000)
     - now_recorded (Scenario.oracle Scenario.t0 1000000000).
Proof.
  apply (deployments_spaced_by_cooldown
           (Scenario.oracle Scenario.t0 1000000000)
           (Scenario.proposal None (Some 80%Q))
           [(Scenario.oracle (Scenario.t0 + 20000) 1000000000,
             Scenario.proposal None (Some 80%Q))]
           (Scenario.oracle (Scenario.t0 + 600000) 1000000000)
           (Scenario.proposal None (Some 80%Q))
           (initial_world []));
    reflexivity.
Defined.

(** ** Tool routing *)

(** Decide every comparison of the tool name with a literal. *)
Ltac by_tool_name toolName :=
  repeat match goal with
         | |- context [String.eqb toolName ?s] =>
             destruct (String.eqb_spec toolName s) as [->|?]
         | H : context [String.eqb toolName ?s] |- _ =>
             destruct (String.eqb_spec toolName s) as [->|?]
         end.

Lemma executeToolCall_advertised toolName :
  In toolName Routing.MCP_TOOLS ->
  exists handler, Routing.executeToolCall toolName = Returned handler.
Proof.
  intros H. cbn in H.
  repeat (destruct H as [<- | H]; [eexists; reflexivity|]). contradiction.
Qed.

Lemma executeToolCall_unknown toolName :
  ~ In toolName Routing.MCP_TOOLS ->
  Routing.executeToolCall toolName = Thrown ("Unknown tool: " ++ toolName).
Proof.
  intros H. unfold Routing.executeToolCall, Routing.includes. cbn [existsb].
  by_tool_name toolName; try (exfalso; apply H; cbn; tauto).
  reflexivity.
Qed.

(** The facts about the dispatchers, together. *)
Lemma routing_names :
  List.NoDup Routing.MCP_TOOLS
  /\ (forall toolName,
        In toolName Routing.MCP_TOOLS <->
        exists handler, Routing.executeToolCall toolName = Returned handler)
  /\ (forall toolName,
        ~ In toolName Routing.MCP_TOOLS ->
        Routing.executeToolCall toolName = Thrown ("Unknown tool: " ++ toolName))
  /\ (forall name1 name2 handler,
        Routing.executeToolCall name1 = Returned handler ->
        Routing.executeToolCall name2 = Returned handler ->
        name1 = name2).
Proof.
  assert (Hiff : forall toolName,
             In toolName Routing.MCP_TOOLS <->
             exists handler, Routing.executeToolCall toolName = Returned handler).
  { intros toolName. split; [apply executeToolCall_advertised|].
    intros [handler Hh].
    destruct (in_dec String.string_dec toolName Routing.MCP_TOOLS) as [Hin|Hout];
      [exact Hin|].
    rewrite (executeToolCall_unknown _ Hout) in Hh. discriminate. }
  split; [repeat constructor; cbn; intuition discriminate|].
  split; [exact Hiff|].
  split; [exact executeToolCall_unknown|].
  intros name1 name2 handler H1 H2.
  assert (Hin1 : In name1 Routing.MCP_TOOLS) by (apply Hiff; eauto).
  assert (Hin2 : In name2 Routing.MCP_TOOLS) by (apply Hiff; eauto).
  cbn in Hin1, Hin2.
  repeat (destruct Hin1 as [<- | Hin1];
          [repeat (destruct Hin2 as [<- | Hin2];
                   [first [reflexivity
                          | exfalso; vm_compute in H1, H2; congruence]|]);
           contradiction|]).
  contradiction.
Qed.

(** X12.  The router and the dispatchers agree on the tool names.  No name
    is listed twice in [MCP_TOOLS]; [executeToolCall] reaches a handler
    exactly for the listed names, a different handler for each, and throws
    "Unknown tool" for every other name, so the "Unknown ... tool" errors of
    the three sub-dispatchers are never raised through it.  The route
    [POST /mcp/tools/:toolName] reads the body of the request first: without
    a parsed body it answers 500 for every name, listed or not.  With a
    body it answers 404 exactly for the names that are not listed, and for a
    listed name it answers with what the handler of that tool returned
    (200) or threw (500) on the arguments of the body. *)
Theorem routing_agrees_with_tool_list :
  List.NoDup Routing.MCP_TOOLS
  /\ (forall toolName,
        In toolName Routing.MCP_TOOLS <->
        exists handler, Routing.executeToolCall toolName = Returned handler)
  /\ (forall toolName,
        ~ In toolName Routing.MCP_TOOLS ->
        Routing.executeToolCall toolName = Thrown ("Unknown tool: " ++ toolName))
  /\ (forall name1 name2 handler,
        Routing.executeToolCall name1 = Returned handler ->
        Routing.executeToolCall name2 = Returned handler ->
        name1 = name2)
  /\ (forall (A R : Type) (run : Routing.Handler -> option A -> outcome R) toolName,
        Routing.postTool run None toolName
        = Routing.ServerError Routing.cannot_destructure_body)
  /\ (forall (A R : Type) (run : Routing.Handler -> option A -> outcome R)
             (args : option A) toolName,
        (Routing.postTool run (Some args) toolName = Routing.NotFound toolName
         <-> ~ In toolName Routing.MCP_TOOLS)
        /\ (In toolName Routing.MCP_TOOLS ->
            exists handler,
              Routing.executeToolCall toolName = Returned handler
              /\ Routing.postTool run (Some args) toolName
                 = match run handler args with
                   | Returned result => Routing.Success result
                   | Thrown message => Routing.ServerError message
                   end)).
Proof.
  destruct routing_names as (Hnodup & Hiff & Hunknown & Hinj).
  split; [exact Hnodup|]. split; [exact Hiff|]. split; [exact Hunknown|].
  split; [exact Hinj|]. split; [reflexivity|].
  intros A R run args toolName. unfold Routing.postTool.
  destruct (List.find (String.eqb toolName) Routing.MCP_TOOLS) as [found|] eqn:Hfind.
  - apply find_some in Hfind as [Hin Heq]. apply String.eqb_eq in Heq. subst found.
    destruct (executeToolCall_advertised _ Hin) as (handler & Hh). rewrite Hh.
    split; [split; [destruct (run handler args); discriminate
                   | intros H; contradiction]|].
    intros _. exists handler. split; reflexivity.
  - assert (Hout : ~ In toolName Routing.MCP_TOOLS).
    { intros Hin. pose proof (find_none _ _ Hfind _ Hin) as Hne.
      rewrite String.eqb_refl in Hne. discriminate. }
    split; [split; [intros _; exact Hout | reflexivity]|].
    intros Hin. contradiction.
Qed.

Lemma routing_agrees_with_tool_list_witness :
  Routing.postTool (A := unit) (fun _ _ => Returned tt) (Some None) "mint_tokens"
  = Routing.NotFound "mint_tokens".
Proof.
  apply (proj2 (proj2 (proj2 (proj2 (proj2 routing_agrees_with_tool_list))))
           unit unit (fun _ _ => Returned tt) None "mint_tokens").
  cbn. intuition discriminate.
Defined.

(** ** Coin tools *)

(** Two names that reach the same handler are the same name. *)
Lemma executeToolCall_injective name1 name2 handler :
  Routing.executeToolCall name1 = Returned handler ->
  Routing.executeToolCall name2 = Returned handler ->
  name1 = name2.
Proof. exact (proj2 (proj2 (proj2 routing_names)) name1 name2 handler). Qed.

(** A coin that [findCoin] returns is a document of the collection with the
    mint asked for. *)
Lemma findCoin_Returned coins args coin :
  CoinTools.findCoin coins args = Returned coin ->
  exists documents,
    coins = Returned documents /\ In coin documents
    /\ CoinTools.mint coin = CoinTools.coin_mint args.
Proof.
  unfold CoinTools.findCoin. destruct coins as [documents|]; [|discriminate].
  destruct (List.find _ documents) as [c|] eqn:Hfind; [|discriminate].
  intros [= <-]. apply find_some in Hfind as [Hin Heq].
  apply String.eqb_eq in Heq. eauto.
Qed.

(** X13.  No coin action without its switch.  Whatever tool name and
    arguments a request carries, when [executeToolCall] ends in the call of
    an executor, the call is the one of the tool that was named, the coin
    passed to it is a stored document with the mint of the request, the flag
    of [enabled_actions] that belongs to the action is set, and for the two
    treasury actions a treasury wallet is configured.  And when no document
    has the mint, each of the six handlers throws "Coin <mint> not found",
    whatever the flags. *)
Theorem coin_action_needs_enabled_flag toolName handler coins holders args :
  Routing.executeToolCall toolName = Returned handler ->
  (forall call,
     CoinTools.coinAction handler coins holders args = Some (Returned call) ->
     CoinTools.call_tool call = toolName
     /\ (exists documents,
           coins = Returned documents
           /\ In (CoinTools.call_coin call) documents)
     /\ CoinTools.mint (CoinTools.call_coin call) = CoinTools.coin_mint args
     /\ CoinTools.enabled (CoinTools.call_flag call) (CoinTools.call_coin call) = true
     /\ (CoinTools.to_treasury call = true ->
         Js.truthy_opt_string (CoinTools.treasury_wallet (CoinTools.call_coin call))
         = true))
  /\ (forall documents result,
        coins = Returned documents ->
        (forall c, In c documents -> CoinTools.mint c <> CoinTools.coin_mint args) ->
        CoinTools.coinAction handler coins holders args = Some result ->
        result = Thrown ("Coin " ++ CoinTools.coin_mint args ++ " not found")).
Proof.
  intros Hroute. split.
  - intros call Hcall.
    assert (Htool : CoinTools.call_tool call = toolName).
    { destruct handler; try discriminate Hcall; cbn in Hcall;
        injection Hcall as Hcall;
        unfold CoinTools.handleBuyback, CoinTools.handleBurnTokens,
          CoinTools.handleAirdropSol, CoinTools.handleAirdropTokens,
          CoinTools.handleSendSolToTreasury, CoinTools.handleSendTokensToTreasury
          in Hcall;
        destruct (CoinTools.findCoin coins args); try discriminate;
        repeat (destruct (negb _); try discriminate);
        injection Hcall as <-; cbn;
        match goal with
        | |- ?n = _ => exact (executeToolCall_injective n _ _ eq_refl Hroute)
        end. }
    split; [exact Htool|].
    destruct handler; try discriminate Hcall; cbn in Hcall;
      injection Hcall as Hcall;
      unfold CoinTools.handleBuyback, CoinTools.handleBurnTokens,
        CoinTools.handleAirdropSol, CoinTools.handleAirdropTokens,
        CoinTools.handleSendSolToTreasury, CoinTools.handleSendTokensToTreasury
        in Hcall;
      destruct (CoinTools.findCoin coins args) as [coin|] eqn:Hfind;
      try discriminate;
      apply findCoin_Returned in Hfind as (documents & Hc & Hin & Hmint);
      (destruct (CoinTools.enabled _ coin) eqn:Hflag; cbn [negb] in Hcall;
       [|discriminate]);
      try (destruct (Js.truthy_opt_string (CoinTools.treasury_wallet coin)) eqn:Hw;
           cbn [negb] in Hcall; [|discriminate]);
      injection Hcall as <-; cbn;
      (split; [eauto|]); (split; [exact Hmint|]); (split; [exact Hflag|]);
      first [discriminate | intros _; exact Hw].
  - intros documents result Hc Hnone Hres.
    assert (Hfind : CoinTools.findCoin coins args
                    = Thrown ("Coin " ++ CoinTools.coin_mint args ++ " not found")).
    { unfold CoinTools.findCoin. rewrite Hc.
      destruct (List.find _ documents) as [c|] eqn:Hf; [|reflexivity].
      apply find_some in Hf as [Hin Heq]. apply String.eqb_eq in Heq.
      exfalso. exact (Hnone c Hin Heq). }
    destruct handler; try discriminate Hres; cbn in Hres; injection Hres as <-;
      unfold CoinTools.handleBuyback, CoinTools.handleBurnTokens,
        CoinTools.handleAirdropSol, CoinTools.handleAirdropTokens,
        CoinTools.handleSendSolToTreasury, CoinTools.handleSendTokensToTreasury;
      rewrite Hfind; reflexivity.
Qed.

Lemma coin_action_needs_enabled_flag_witness :
  let call := CoinTools.executeBuyback lobster_coin (Some 0.1%Q) in
  CoinTools.call_tool call = "buyback"
  /\ (exists documents,
        Returned [lobster_coin] = Returned documents
        /\ In (CoinTools.call_coin call) documents)
  /\ CoinTools.mint (CoinTools.call_coin call) = CoinTools.coin_mint lobster_buyback
  /\ CoinTools.enabled (CoinTools.call_flag call) (CoinTools.call_coin call) = true
  /\ (CoinTools.to_treasury call = true ->
      Js.truthy_opt_string (CoinTools.treasury_wallet (CoinTools.call_coin call))
      = true).
Proof.
  apply (proj1 (coin_action_needs_enabled_flag "buyback" Routing.handleBuyback
                  (Returned [lobster_coin]) (Thrown "offline") lobster_buyback
                  eq_refl)
           (CoinTools.executeBuyback lobster_coin (Some 0.1%Q))).
  reflexivity.
Defined.

(** ** [launchToken] *)

(** The [try] block gives the mint address and a signature exactly when
    every step answers. *)
Lemma launchSteps_Done o privateKey request mintKey signature :
  PumpPortal.launchSteps o privateKey request = PumpPortal.Done (mintKey, signature)
  <-> mintKey = PumpPortal.mint_address o
      /\ launch_chain o privateKey request signature.
Proof.
  unfold PumpPortal.launchSteps, launch_chain, PumpPortal.andThen. split.
  - destruct (PumpPortal.signer o privateKey) as [signerKey|]; [|discriminate].
    destruct (PumpPortal.fetch_image o _) as [imageResponse|]; [|discriminate].
    destruct (PumpPortal.image_ok imageResponse) eqn:Hok; cbn [negb];
      [|discriminate].
    destruct (PumpPortal.image_buffer imageResponse) as [imageBuffer|] eqn:Hbuf;
      [|discriminate].
    destruct (PumpPortal.post_metadata o _) as [metadataResponse|] eqn:Hmd;
      [|discriminate].
    destruct (PumpPortal.metadata_ok metadataResponse) eqn:Hmok; cbn [negb];
      [|destruct (PumpPortal.metadata_text metadataResponse); discriminate].
    destruct (PumpPortal.metadata_json metadataResponse) as [metadataJson|] eqn:Hjson;
      [|discriminate].
    destruct (PumpPortal.post_create o _) as [response|] eqn:Hcreate;
      [|discriminate].
    destruct (PumpPortal.create_status response =? 200) eqn:Hstatus; cbn [negb];
      [|destruct (PumpPortal.create_text response); discriminate].
    destruct (PumpPortal.create_arrayBuffer response) as [data|] eqn:Hdata;
      [|discriminate].
    destruct (PumpPortal.deserialize o data) as [tx|] eqn:Htx; [|discriminate].
    destruct (PumpPortal.sign o tx) as [signed|] eqn:Hsign; [|discriminate].
    destruct (PumpPortal.getBalance o) as [balance|] eqn:Hbal; [|discriminate].
    destruct (PumpPortal.sendTransaction o signed) as [sig|] eqn:Hsend;
      [|discriminate].
    intros [= <- <-]. split; [reflexivity|].
    apply Z.eqb_eq in Hstatus.
    exists signerKey, imageResponse, imageBuffer, metadataResponse, metadataJson,
      response, data, tx, signed, balance.
    repeat (split; [first [reflexivity | assumption]|]). assumption.
  - intros (-> & signerKey & imageResponse & imageBuffer & metadataResponse
            & metadataJson & response & data & tx & signed & balance
            & -> & -> & -> & -> & -> & -> & -> & -> & Hstatus & -> & -> & ->
            & -> & ->).
    cbn [negb]. rewrite Hstatus. reflexivity.
Qed.

(** The balance that [launchToken] reads is logged and nothing else. *)
Lemma launchSteps_with_balance o privateKey request balance balance' :
  PumpPortal.launchSteps (with_balance o balance) privateKey request
  = PumpPortal.launchSteps (with_balance o balance') privateKey request.
Proof. reflexivity. Qed.

(** X14.  What [launchToken] answers.  It never throws, and its answer has
    one of two shapes: the mint address with a signature and no error, or an
    error and neither mint nor signature.  The first shape is given exactly
    when every step has answered: the key is readable, the image is fetched
    with an OK status, the metadata upload is OK and its JSON readable, the
    create request is answered with status 200 and a body that deserialises,
    signing and the balance read do not throw, and [sendTransaction] returns
    the signature that is reported; the mint is then the generated one.  The
    amount of the create request is the requested initial buy, or 0.01 when
    that is missing or 0.  The balance read before sending vetoes nothing:
    the answer is the same for every balance it returns. *)
Theorem launch_reports_mint_iff_sent o privateKey request :
  let answer := PumpPortal.launchToken o privateKey request in
  ((exists signature,
       answer = {| launched_mint := Some (PumpPortal.mint_address o);
                   launched_signature := Some signature;
                   launch_error := None |})
   \/ (exists text,
         answer = {| launched_mint := None;
                     launched_signature := None;
                     launch_error := Some text |}))
  /\ (forall signature,
        launched_signature answer = Some signature
        <-> launch_chain o privateKey request signature)
  /\ (forall signerKey metadataJson,
        (PumpPortal.amount
           (PumpPortal.createRequest request signerKey (PumpPortal.mint_address o)
              metadataJson)
         == match PumpPortal.initialBuyAmount request with
            | Some buy => if Qeq_bool buy 0 then 0.01 else buy
            | None => 0.01
            end)%Q)
  /\ (forall balance balance',
        PumpPortal.launchToken (with_balance o balance) privateKey request
        = PumpPortal.launchToken (with_balance o balance') privateKey request).
Proof.
  cbv zeta. unfold PumpPortal.launchToken.
  split; [|split; [|split]].
  - destruct (PumpPortal.launchSteps o privateKey request) as [[mintKey sig]|e] eqn:Hs.
    + left. apply launchSteps_Done in Hs as [-> _]. eauto.
    + right. eauto.
  - intros signature.
    destruct (PumpPortal.launchSteps o privateKey request) as [[mintKey sig]|e] eqn:Hs;
      cbn [launched_signature].
    + apply launchSteps_Done in Hs as [-> Hchain]. split.
      * intros [= <-]. exact Hchain.
      * intros Hchain'.
        assert (Hd : PumpPortal.launchSteps o privateKey request
                     = PumpPortal.Done (PumpPortal.mint_address o, signature))
          by (apply launchSteps_Done; auto).
        assert (Hd' : PumpPortal.launchSteps o privateKey request
                      = PumpPortal.Done (PumpPortal.mint_address o, sig))
          by (apply launchSteps_Done; auto).
        congruence.
    + split; [discriminate|]. intros Hchain.
      assert (Hd : PumpPortal.launchSteps o privateKey request
                   = PumpPortal.Done (PumpPortal.mint_address o, signature))
        by (apply launchSteps_Done; auto).
      congruence.
  - intros signerKey metadataJson. cbn [PumpPortal.createRequest PumpPortal.amount].
    unfold Js.number_or, Js.truthy_number.
    destruct (PumpPortal.initialBuyAmount request) as [buy|]; [|reflexivity].
    destruct (Qeq_bool buy 0); reflexivity.
  - intros balance balance'.
    rewrite (launchSteps_with_balance o privateKey request balance balance').
    reflexivity.
Qed.

(** The message of a failed launch is empty only for an exception with an
    empty message. *)
Lemma launchErrorMessage_empty e :
  Js.truthy_string (PumpPortal.launchErrorMessage e) = false ->
  PumpPortal.message e = "".
Proof.
  unfold PumpPortal.launchErrorMessage.
  destruct (PumpPortal.has_logs e && contains "0x1" (PumpPortal.message e)).
  - unfold PumpPortal.insufficient_balance_hint. rewrite append_String.
    discriminate.
  - destruct (PumpPortal.message e); [reflexivity | discriminate].
Qed.

(** X15.  What a reported deployment means.  Let [handleDeployToken] call
    [launchToken] (line 486; the statement holds for whatever key and
    request are passed) and report success.  Then either every step of the
    launch has answered, and the result carries the generated mint address,
    the signature [sendTransaction] returned and the URL
    https://pump.fun/<mint>, and the record appended to the store has that
    mint; or the launch failed with an exception whose message is empty,
    which [if (result.error)] takes for no error: the deployment is then
    reported and recorded without a mint. *)
Theorem reported_deployment_was_sent o lo privateKey request args w :
  launch o = PumpPortal.launchToken lo privateKey request ->
  deploy_success (fst (handleDeployToken o args w)) = true ->
  let result := fst (handleDeployToken o args w) in
  let stored := deployments (snd (handleDeployToken o args w)) in
  (exists signature,
      launch_chain lo privateKey request signature
      /\ result
         = Returned
             {| DeploymentResult.success := true;
                DeploymentResult.mint := Some (PumpPortal.mint_address lo);
                DeploymentResult.signature := Some signature;
                DeploymentResult.url :=
                  Some ("https://pump.fun/" ++ PumpPortal.mint_address lo);
                DeploymentResult.error := None;
                DeploymentResult.deployment_id :=
                  Some (PumpPortal.mint_address lo) |}
      /\ exists d,
           stored = (deployments w ++ [d])%list
           /\ DeploymentRecord.mint d = Some (PumpPortal.mint_address lo))
  \/ (exists e,
        PumpPortal.launchSteps lo privateKey request = PumpPortal.Failed e
        /\ PumpPortal.message e = ""
        /\ (exists r,
              result = Returned r
              /\ DeploymentResult.mint r = None
              /\ DeploymentResult.signature r = None)
        /\ exists d,
             stored = (deployments w ++ [d])%list
             /\ DeploymentRecord.mint d = None).
Proof.
  intros Hlaunch Hok. cbv zeta.
  destruct (handleDeployToken_deployed o args w Hok) as (Hres & _ & Hstore & _).
  apply handleDeployToken_deployed_iff in Hok as (_ & _ & Hfail).
  rewrite Hres, Hstore. unfold deployed, pump_url.
  assert (Herr : Js.truthy_opt_string (launch_error (launch o)) = false).
  { unfold deployFailure in Hfail.
    destruct (if openai_configured o then generated_image o else Returned "");
      [|discriminate].
    destruct (Js.truthy_opt_string (launch_error (launch o)));
      [discriminate | reflexivity]. }
  rewrite Hlaunch in Herr |- *. unfold PumpPortal.launchToken in *.
  destruct (PumpPortal.launchSteps lo privateKey request) as [[mintKey sig]|e] eqn:Hs.
  - left. apply launchSteps_Done in Hs as [-> Hchain].
    exists sig. split; [exact Hchain|]. split; [reflexivity|].
    eexists. split; [reflexivity|].
    cbn. rewrite Hlaunch. reflexivity.
  - right. exists e. split; [reflexivity|].
    split; [apply launchErrorMessage_empty; exact Herr|].
    split; [eexists; split; [reflexivity|]; split; reflexivity|].
    eexists. split; [reflexivity|].
    cbn. rewrite Hlaunch. reflexivity.
Qed.

Lemma reported_deployment_was_sent_witness :
  let o := Scenario.oracle_with
             (PumpPortal.launchToken launch_answers "agent-key" launch_request)
             Scenario.t0 400000000 in
  let args := Scenario.proposal None (Some 80%Q) in
  let result := fst (handleDeployToken o args (initial_world [])) in
  let stored := deployments (snd (handleDeployToken o args (initial_world []))) in
  (exists signature,
      launch_chain launch_answers "agent-key" launch_request signature
      /\ result
         = Returned
             {| DeploymentResult.success := true;
                DeploymentResult.mint := Some (PumpPortal.mint_address launch_answers);
                DeploymentResult.signature := Some signature;
                DeploymentResult.url :=
                  Some ("https://pump.fun/" ++ PumpPortal.mint_address launch_answers);
                DeploymentResult.error := None;
                DeploymentResult.deployment_id :=
                  Some (PumpPortal.mint_address launch_answers) |}
      /\ exists d,
           stored = (deployments (initial_world []) ++ [d])%list
           /\ DeploymentRecord.mint d = Some (PumpPortal.mint_address launch_answers))
  \/ (exists e,
        PumpPortal.launchSteps launch_answers "agent-key" launch_request
        = PumpPortal.Failed e
        /\ PumpPortal.message e = ""
        /\ (exists r,
              result = Returned r
              /\ DeploymentResult.mint r = None
              /\ DeploymentResult.signature r = None)
        /\ exists d,
             stored = (deployments (initial_world []) ++ [d])%list
             /\ DeploymentRecord.mint d = None).
Proof.
  apply (reported_deployment_was_sent
           (Scenario.oracle_with
              (PumpPortal.launchToken launch_answers "agent-key" launch_request)
              Scenario.t0 400000000)
           launch_answers "agent-key" launch_request
           (Scenario.proposal None (Some 80%Q)) (initial_world []));
    reflexivity.
Defined.

(** The second case occurs: signing throws an error with an empty message,
    and the call reports a deployment without a mint and records it. *)
Example silent_launch_failure_is_recorded :
  let o := Scenario.oracle_with
             (PumpPortal.launchToken launch_fails_silently "agent-key" launch_request)
             Scenario.t0 400000000 in
  let args := Scenario.proposal None (Some 80%Q) in
  launch_error (launch o) = Some ""
  /\ deploy_success (fst (handleDeployToken o args (initial_world []))) = true
  /\ List.map DeploymentRecord.mint
       (deployments (snd (handleDeployToken o args (initial_world []))))
     = [None].
Proof. vm_compute. repeat split. Qed.


(** ** Twitter tools *)

Lemma Math_round_mono x y :
  (x <= y)%Q -> TwitterTools.Math_round x <= TwitterTools.Math_round y.
Proof.
  intros H. unfold TwitterTools.Math_round. apply Qfloor_resp_le. lra.
Qed.

(** The older the tweet, the lower the number that is rounded to its
    score. *)
Lemma freshness_antitone age age' :
  age <= age' ->
  (TwitterTools.freshness (Binary64.div (inject_Z age') 3600000)
   <= TwitterTools.freshness (Binary64.div (inject_Z age) 3600000))%Q.
Proof.
  intros H. unfold TwitterTools.freshness, Binary64.sub, Binary64.div, Binary64.mul.
  apply round64_mono.
  assert (H1 : (Binary64.round64 (inject_Z age / 3600000)
                <= Binary64.round64 (inject_Z age' / 3600000))%Q).
  { apply round64_mono. apply Qmult_le_compat_r; [|discriminate].
    rewrite <- Zle_Qle. exact H. }
  assert (H2 : (Binary64.round64 (Binary64.round64 (inject_Z age / 3600000) * 50)
                <= Binary64.round64
                     (Binary64.round64 (inject_Z age' / 3600000) * 50))%Q)
    by (apply round64_mono; lra).
  assert (H3 : (Binary64.round64
                  (Binary64.round64 (Binary64.round64 (inject_Z age / 3600000) * 50)
                   / 48)
                <= Binary64.round64
                     (Binary64.round64
                        (Binary64.round64 (inject_Z age' / 3600000) * 50)
                      / 48))%Q).
  { apply round64_mono. apply Qmult_le_compat_r; [exact H2 | discriminate]. }
  lra.
Qed.

Lemma freshnessScore_Some now created :
  TwitterTools.freshnessScore now (Some created)
  = Some (Z.max 0
            (TwitterTools.Math_round
               (TwitterTools.freshness
                  (Binary64.div (inject_Z (now - created)) 3600000)))).
Proof. reflexivity. Qed.

Lemma freshnessScore_nonneg now created score :
  TwitterTools.freshnessScore now created = Some score -> 0 <= score.
Proof.
  destruct created as [t|]; [|discriminate].
  rewrite freshnessScore_Some. intros [= <-]. lia.
Qed.

(** The number rounded to the score, by the age in milliseconds. *)
Lemma freshness_at_ages :
  TwitterTools.Math_round
    (TwitterTools.freshness (Binary64.div (inject_Z 0) 3600000)) = 50
  /\ TwitterTools.Math_round
       (TwitterTools.freshness (Binary64.div (inject_Z 1728000) 3600000)) = 50
  /\ TwitterTools.Math_round
       (TwitterTools.freshness (Binary64.div (inject_Z 1728001) 3600000)) = 49
  /\ TwitterTools.Math_round
       (TwitterTools.freshness (Binary64.div (inject_Z 171072000) 3600000)) = 1
  /\ TwitterTools.Math_round
       (TwitterTools.freshness (Binary64.div (inject_Z 171072001) 3600000)) = 0.
Proof. vm_compute. repeat split. Qed.

(** X16.  The freshness score of the Twitter tools, in the double
    arithmetic of the source.  For a tweet that is not from the future and
    whose age in milliseconds a double holds exactly, the score is a whole
    number from 0 to 50; it is 50 exactly up to an age of 1,728,000 ms (28.8
    minutes) and 0 exactly when the age exceeds 171,072,000 ms (47.52
    hours), so before the 48 hours of the formula are over; and it never
    rises as time passes.  A date that does not parse gives no score
    ([NaN]). *)
Theorem freshness_score_by_age now created :
  0 <= now - created <= MAX_SAFE_INTEGER ->
  (exists score,
     TwitterTools.freshnessScore now (Some created) = Some score
     /\ 0 <= score <= 50
     /\ (score = 50 <-> now - created <= 1728000)
     /\ (score = 0 <-> 171072000 < now - created)
     /\ forall later score',
          now <= later ->
          later - created <= MAX_SAFE_INTEGER ->
          TwitterTools.freshnessScore later (Some created) = Some score' ->
          score' <= score)
  /\ TwitterTools.freshnessScore now None = None.
Proof.
  intros [Hage _]. split; [|reflexivity].
  rewrite freshnessScore_Some. eexists. split; [reflexivity|].
  set (number age :=
         TwitterTools.Math_round
           (TwitterTools.freshness (Binary64.div (inject_Z age) 3600000))).
  change (TwitterTools.Math_round _) with (number (now - created)).
  assert (Hanti : forall age age', age <= age' -> number age' <= number age).
  { intros age age' H. apply Math_round_mono, freshness_antitone, H. }
  destruct freshness_at_ages as (H0 & H50 & H49 & H1 & Hz).
  fold (number 0) in H0. fold (number 1728000) in H50.
  fold (number 1728001) in H49. fold (number 171072000) in H1.
  fold (number 171072001) in Hz.
  pose proof (Hanti 0 (now - created) Hage) as Hle50.
  split; [lia|]. split; [|split].
  - split.
    + intros Hs.
      destruct (Z_le_gt_dec (now - created) 1728000) as [H|H]; [exact H|].
      pose proof (Hanti 1728001 (now - created) ltac:(lia)). lia.
    + intros H. pose proof (Hanti (now - created) 1728000 H). lia.
  - split.
    + intros Hs.
      destruct (Z_le_gt_dec (now - created) 171072000) as [H|H]; [|lia].
      pose proof (Hanti (now - created) 171072000 H). lia.
    + intros H. pose proof (Hanti 171072001 (now - created) ltac:(lia)). lia.
  - intros later score' Hlater _. rewrite freshnessScore_Some. intros [= <-].
    fold (number (later - created)).
    pose proof (Hanti (now - created) (later - created) ltac:(lia)). lia.
Qed.

Lemma freshness_score_by_age_witness :
  exists score,
    TwitterTools.freshnessScore (Scenario.t0 + 171072001) (Some Scenario.t0)
    = Some score
    /\ score = 0.
Proof.
  destruct (freshness_score_by_age (Scenario.t0 + 171072001) Scenario.t0)
    as [(score & Hscore & _ & _ & Hzero & _) _].
  { unfold Scenario.t0, MAX_SAFE_INTEGER. cbn. lia. }
  exists score. split; [exact Hscore|].
  apply Hzero. unfold Scenario.t0. lia.
Defined.

(** Where the doubles of the source and exact numbers part: at these ages
    the exact value of the formula is a whole number and a half, which
    [Math.round] would round up; the doubles fall just below it. *)
Example freshness_rounds_the_doubles :
  TwitterTools.freshnessScore 63936000 (Some 0) = Some 31
  /\ TwitterTools.freshnessScore 139968000 (Some 0) = Some 9
  /\ TwitterTools.freshnessScore 143424000 (Some 0) = Some 8
  /\ TwitterTools.roundedAge 63936000 (Some 0) = Some 18.
Proof. vm_compute. repeat split. Qed.
(** The text of a formatted tweet. *)
Lemma length_append (s t : string) :
  String.length (s ++ t) = (String.length s + String.length t)%nat.
Proof.
  induction s as [|c s IH]; [rewrite append_empty; reflexivity|].
  rewrite append_String. cbn. rewrite IH. reflexivity.
Qed.

Lemma append_empty_r (s : string) : s ++ "" = s.
Proof.
  induction s as [|c s IH]; [apply append_empty|].
  rewrite append_String, IH. reflexivity.
Qed.

Lemma substring_all n (s : string) :
  (String.length s <= n)%nat -> substring 0 n s = s.
Proof.
  revert n. induction s as [|c s IH]; intros [|n] H; cbn in *;
    try reflexivity; try lia.
  rewrite IH by lia. reflexivity.
Qed.

Lemma length_substring n (s : string) :
  String.length (substring 0 n s) = Nat.min n (String.length s).
Proof.
  revert n. induction s as [|c s IH]; intros [|n]; cbn; try reflexivity.
  rewrite IH. reflexivity.
Qed.

Lemma truncate_spec text :
  (String.length (TwitterTools.truncate text) <= 203)%nat
  /\ ((String.length text <= 200)%nat -> TwitterTools.truncate text = text)
  /\ ((200 < String.length text)%nat ->
      TwitterTools.truncate text = substring 0 200 text ++ "..."
      /\ String.length (TwitterTools.truncate text) = 203%nat).
Proof.
  unfold TwitterTools.truncate.
  destruct (200 <? String.length text)%nat eqn:Hlong.
  - apply Nat.ltb_lt in Hlong.
    assert (Hlen : String.length (substring 0 200 text ++ "...") = 203%nat).
    { rewrite length_append, length_substring.
      change (String.length "...") with 3%nat. lia. }
    split; [lia|]. split; [lia|]. intros _. split; [reflexivity | exact Hlen].
  - apply Nat.ltb_ge in Hlong.
    rewrite append_empty_r, substring_all by exact Hlong.
    split; [lia|]. split; [reflexivity | lia].
Qed.

(** X17.  What [search_twitter_custom] answers.  Without a query the
    handler throws before the client is called.  With one, the client is
    called once, with the query; when it throws, the handler throws the
    same; when it answers, the handler reports success with the client's
    statistics, at most 20 tweets and at most 10 moments, taken from the
    head of the client's lists in their order.  A tweet's identifier and URL
    are handed on; its text is handed on whole up to 200 characters and
    otherwise cut to 200 characters followed by "...", so it never exceeds
    203; and a freshness score, when there is one, is not negative. *)
Theorem search_custom_answer_is_capped config searchCustom clock args :
  let answer := TwitterTools.handleSearchTwitterCustom config searchCustom clock args in
  (TwitterTools.query args = None ->
   answer = Thrown (TwitterTools.cannot_read "substring"))
  /\ (forall query,
        TwitterTools.query args = Some query ->
        exists settings,
          TwitterTools.sp_query settings = query
          /\ match searchCustom settings with
             | Thrown message => answer = Thrown message
             | Returned result =>
                 exists r,
                   answer = Returned r
                   /\ TwitterTools.cr_success r = true
                   /\ TwitterTools.cr_query r = query
                   /\ TwitterTools.cr_settings r = settings
                   /\ TwitterTools.cr_stats r = TwitterTools.result_stats result
                   /\ length (TwitterTools.cr_tweets r)
                      = Nat.min 20 (length (TwitterTools.result_tweets result))
                   /\ length (TwitterTools.cr_moments r)
                      = Nat.min 10 (length (TwitterTools.result_moments result))
                   /\ (forall i f,
                         TwitterTools.cr_tweets r !! i = Some f ->
                         exists t,
                           TwitterTools.result_tweets result !! i = Some t
                           /\ TwitterTools.ft_id f = TwitterTools.id t
                           /\ TwitterTools.ft_url f = TwitterTools.url t
                           /\ (String.length (TwitterTools.ft_text f) <= 203)%nat
                           /\ ((String.length (TwitterTools.text t) <= 200)%nat ->
                               TwitterTools.ft_text f = TwitterTools.text t)
                           /\ ((200 < String.length (TwitterTools.text t))%nat ->
                               TwitterTools.ft_text f
                               = substring 0 200 (TwitterTools.text t) ++ "..."))
                   /\ (forall j f,
                         TwitterTools.cr_moments r !! j = Some f ->
                         exists m,
                           TwitterTools.result_moments result !! j = Some m
                           /\ TwitterTools.fm_concept f = TwitterTools.tokenizableConcept m
                           /\ TwitterTools.fm_viralityScore f = TwitterTools.viralityScore m
                           /\ forall score,
                                TwitterTools.fm_freshnessScore f = Some score ->
                                0 <= score)
             end).
Proof.
  cbv zeta. unfold TwitterTools.handleSearchTwitterCustom. split.
  - intros ->. reflexivity.
  - intros query ->.
    match goal with |- context [searchCustom ?s] => exists s end.
    split; [reflexivity|].
    match goal with |- context [searchCustom ?s] => destruct (searchCustom s) as [result|] end;
      [|reflexivity].
    eexists. split; [reflexivity|]. cbn.
    repeat (split; [reflexivity|]).
    split; [rewrite length_imap, length_take; reflexivity|].
    split; [rewrite length_imap, length_take; reflexivity|].
    split.
    + intros i f Hf.
      apply list_lookup_imap_Some in Hf as (t & Ht & ->).
      apply lookup_take_Some in Ht as [Ht _].
      exists t. split; [exact Ht|]. cbn.
      destruct (truncate_spec (TwitterTools.text t)) as (Hmax & Hshort & Hlong).
      repeat (split; [first [reflexivity | assumption]|]).
      intros H. apply Hlong, H.
    + intros j f Hf.
      apply list_lookup_imap_Some in Hf as (m & Hm & ->).
      apply lookup_take_Some in Hm as [Hm _].
      exists m. split; [exact Hm|]. cbn.
      repeat (split; [reflexivity|]).
      intros score. apply freshnessScore_nonneg.
Qed.

(** X18.  What [search_twitter_fresh] answers.  Without a query the
    handler throws before the client is called.  With one, the client is
    asked for the latest 20 results of the query, with a window of 48 hours
    unless another one is given; when it throws, the handler throws the
    same; when it answers, the handler reports success with at most 15
    moments from the head of the client's list.  The summary says that
    nothing was found exactly when the client found nothing; otherwise it
    counts the moments that are returned and gives the age and the concept
    ("N/A" when there is none) of the first one. *)
Theorem search_fresh_answer_is_capped config searchFreshContent clock args :
  let answer :=
    TwitterTools.handleSearchTwitterFresh config searchFreshContent clock args in
  (TwitterTools.fresh_query args = None ->
   answer = Thrown (TwitterTools.cannot_read "substring"))
  /\ (forall query,
        TwitterTools.fresh_query args = Some query ->
        exists params,
          TwitterTools.fp_query params = query
          /\ TwitterTools.fp_maxResults params = 20%Q
          /\ TwitterTools.fp_sortBy params = "latest"
          /\ (TwitterTools.fresh_hoursAgo args = None ->
              TwitterTools.fp_hoursAgo params = 48%Q)
          /\ match searchFreshContent params with
             | Thrown message => answer = Thrown message
             | Returned moments =>
                 exists r,
                   answer = Returned r
                   /\ TwitterTools.fresh_success r = true
                   /\ length (TwitterTools.freshMoments r)
                      = Nat.min 15 (length moments)
                   /\ (forall i f,
                         TwitterTools.freshMoments r !! i = Some f ->
                         exists m,
                           moments !! i = Some m
                           /\ TwitterTools.fr_url f
                              = TwitterTools.url (TwitterTools.tweet m)
                           /\ (String.length (TwitterTools.fr_text f) <= 203)%nat
                           /\ forall score,
                                TwitterTools.fr_freshnessScore f = Some score ->
                                0 <= score)
                   /\ (TwitterTools.summary r = TwitterTools.NoFreshMoments
                       <-> moments = [])
                   /\ (forall first rest,
                         moments = first :: rest ->
                         TwitterTools.summary r
                         = TwitterTools.FoundFresh
                             (Nat.min 15 (length moments))
                             (TwitterTools.roundedAge (clock 0%nat)
                                (TwitterTools.createdAt (TwitterTools.tweet first)))
                             (TwitterTools.string_or
                                (TwitterTools.tokenizableConcept first) "N/A"))
             end).
Proof.
  cbv zeta. unfold TwitterTools.handleSearchTwitterFresh. split.
  - intros ->. reflexivity.
  - intros query ->.
    match goal with |- context [searchFreshContent ?p] => exists p end.
    split; [reflexivity|].
    split; [reflexivity|]. split; [reflexivity|].
    split; [intros ->; reflexivity|].
    match goal with
    | |- context [searchFreshContent ?p] =>
        destruct (searchFreshContent p) as [moments|]
    end; [|reflexivity].
    eexists. split; [reflexivity|]. cbn.
    split; [reflexivity|].
    split; [rewrite length_imap, length_take; reflexivity|].
    split.
    + intros i f Hf.
      apply list_lookup_imap_Some in Hf as (m & Hm & ->).
      apply lookup_take_Some in Hm as [Hm _].
      exists m. split; [exact Hm|]. cbn.
      split; [reflexivity|].
      split; [apply truncate_spec|].
      intros score. apply freshnessScore_nonneg.
    + destruct moments as [|first rest]; cbn.
      * split; [split; reflexivity|]. intros ? ? [=].
      * split; [split; discriminate|].
        intros first' rest' [= <- <-].
        rewrite length_imap, length_take. reflexivity.
Qed.

(** X19.  [get_tweet_details] never succeeds.  For every URL it answers
    [success: false] with an error: "Invalid tweet URL" exactly when the URL
    has no "status/" followed by a digit, and these are references that the
    duplicate check of [deploy_token] passes without a lookup; otherwise the
    note that a lookup needs direct API access, naming the identifier that
    the duplicate check extracts from the same URL: a non-empty run of
    digits that stands after "status/" in the URL.  Without a URL the
    handler throws. *)
Theorem tweet_details_never_succeed u :
  exists r,
    TwitterTools.handleGetTweetDetails (Some u) = Returned r
    /\ TwitterTools.details_success r = false
    /\ TwitterTools.details_error r <> None
    /\ (TwitterTools.details_error r = Some TwitterTools.InvalidTweetUrl
        <-> ~ has_status_id u)
    /\ (TwitterTools.details_error r = Some TwitterTools.InvalidTweetUrl ->
        forall o w, checkTweetAlreadyTokenized o u w = (Returned not_tokenized, w))
    /\ (forall tweetId,
          TwitterTools.details_error r
          = Some (TwitterTools.LookupNeedsDirectAccess tweetId)
          <-> extractTweetId u = Some tweetId)
    /\ (forall tweetId,
          TwitterTools.details_error r
          = Some (TwitterTools.LookupNeedsDirectAccess tweetId) ->
          tweetId <> ""
          /\ all_digits tweetId = true
          /\ exists pre post, u = pre ++ "status/" ++ tweetId ++ post)
    /\ TwitterTools.handleGetTweetDetails None
       = Thrown (TwitterTools.cannot_read "match").
Proof.
  unfold TwitterTools.handleGetTweetDetails.
  destruct (extractTweetId u) as [tweetId|] eqn:Hid.
  - eexists. split; [reflexivity|]. cbn.
    split; [reflexivity|]. split; [discriminate|].
    split.
    { split; [discriminate|]. intros Hno.
      apply extractTweetId_None in Hno. congruence. }
    split; [discriminate|].
    split.
    { intros tweetId'. split; intros [= ->]; reflexivity. }
    split; [|reflexivity].
    intros tweetId' [= <-].
    destruct (extractTweetId_Some _ _ Hid) as (pre & post & Hu & Hne & Hdigits).
    split; [exact Hne|]. split; [exact Hdigits|]. exists pre, post. exact Hu.
  - eexists. split; [reflexivity|]. cbn.
    split; [reflexivity|]. split; [discriminate|].
    split.
    { split; [|reflexivity]. intros _. apply extractTweetId_None, Hid. }
    split.
    { intros _ o w. apply checkTweetAlreadyTokenized_unparseable, Hid. }
    split.
    { intros tweetId. split; discriminate. }
    split; [|reflexivity].
    intros tweetId [=].
Qed.
Lemma search_custom_answer_is_capped_witness :
  exists settings,
    TwitterTools.sp_query settings = "lobster"
    /\ exists r,
         TwitterTools.handleSearchTwitterCustom twitter_config finds_lobster
           (fun _ => Scenario.t0) lobster_query
         = Returned r
         /\ length (TwitterTools.cr_tweets r) = 1%nat.
Proof.
  destruct (proj2 (search_custom_answer_is_capped twitter_config finds_lobster
                     (fun _ => Scenario.t0) lobster_query) "lobster" eq_refl)
    as (settings & Hq & r & Hr & _ & _ & _ & _ & Hlen & _).
  exists settings. split; [exact Hq|]. exists r. split; [exact Hr | exact Hlen].
Defined.

Lemma search_fresh_answer_is_capped_witness :
  exists r,
    TwitterTools.handleSearchTwitterFresh twitter_config
      (fun _ => Returned [lobster_moment]) (fun _ => Scenario.t0) lobster_fresh_query
    = Returned r
    /\ TwitterTools.summary r = TwitterTools.FoundFresh 1 (Some 1) "N/A".
Proof.
  destruct (proj2 (search_fresh_answer_is_capped twitter_config
                     (fun _ => Returned [lobster_moment]) (fun _ => Scenario.t0)
                     lobster_fresh_query) "lobster" eq_refl)
    as (params & _ & _ & _ & _ & r & Hr & _ & _ & _ & _ & Hsummary).
  exists r. split; [exact Hr|].
  rewrite (Hsummary lobster_moment [] eq_refl). reflexivity.
Defined.

(** ** Research tools *)








(** [handleDeployToken] gives the low-confidence rejection only for a
    judged confidence below 60. *)
Lemma confidence_rejection_below_60 o args w confidence :
  deploy_error (fst (handleDeployToken o args w)) = Some (ConfidenceTooLow confidence) ->
  (effectiveConfidence args < 60)%Q.
Proof.
  unfold effectiveConfidence.
  destruct (handleDeployToken_cases o args w) as (answer & w1 & _ & _ & _ & ->).
  destruct (reportsDuplicate o args w); [discriminate|].
  unfold checksAfterDuplicate.
  destruct (cooldownWait (lastDeploymentTime w) (now_cooldown o)); [discriminate|].
  destruct (Js.lt _ 60%Q) eqn:Hlt.
  - intros _. apply Js_lt_spec in Hlt. exact Hlt.
  - destruct (negb _); [discriminate|].
    destruct (wallet_rpc o) as [wallet|]; [|discriminate].
    destruct (negb _); [discriminate|].
    destruct (Js.lt (available_for_deployment _) _); [discriminate|].
    destruct (deployFailure o); cbn; discriminate.
Qed.

(** X21.  What [find_all_opportunities] recommends.  The handler throws
    only what the opportunity finder throws.  Otherwise it hands on the
    finder's opportunities and best opportunity, and recommends to deploy
    exactly when there is a best opportunity with a confidence of at least
    70; its reasoning speaks of high confidence exactly then, and of no
    clear opportunity exactly when there is no best one.  A proposal that
    carries the confidence of a recommended opportunity is never rejected by
    [deploy_token] for low confidence. *)
Theorem recommendation_needs_confidence_70 findOpportunities :
  match findOpportunities with
  | Thrown message =>
      ResearchTools.handleFindAllOpportunities findOpportunities = Thrown message
  | Returned analysis =>
      exists r,
        ResearchTools.handleFindAllOpportunities findOpportunities = Returned r
        /\ ResearchTools.opportunities r = ResearchTools.analysis_opportunities analysis
        /\ ResearchTools.bestOpportunity r
           = ResearchTools.analysis_bestOpportunity analysis
        /\ (ResearchTools.shouldDeploy r = true <->
            exists best,
              ResearchTools.analysis_bestOpportunity analysis = Some best
              /\ (70 <= ResearchTools.confidence best)%Q)
        /\ (ResearchTools.shouldDeploy r = true <->
            exists type confidence reasoning,
              ResearchTools.result_reasoning r
              = ResearchTools.HighConfidence type confidence reasoning)
        /\ (ResearchTools.result_reasoning r = ResearchTools.NoClearOpportunities <->
            ResearchTools.analysis_bestOpportunity analysis = None)
        /\ (ResearchTools.shouldDeploy r = true ->
            forall best o args w rejected_confidence,
              ResearchTools.bestOpportunity r = Some best ->
              DeployTokenArgs.confidence_score args
              = Some (ResearchTools.confidence best) ->
              deploy_error (fst (handleDeployToken o args w))
              <> Some (ConfidenceTooLow rejected_confidence))
  end.
Proof.
  destruct findOpportunities as [analysis|message]; [|reflexivity].
  unfold ResearchTools.handleFindAllOpportunities.
  eexists. split; [reflexivity|]. cbn.
  split; [reflexivity|]. split; [reflexivity|].
  destruct (ResearchTools.analysis_bestOpportunity analysis) as [best|].
  - destruct (Js.ge (ResearchTools.confidence best) 70%Q) eqn:Hge.
    + pose proof (proj1 (Js_ge_spec _ _) Hge) as H70.
      split; [split; [intros _; eauto | reflexivity]|].
      split; [split; [intros _; eauto | reflexivity]|].
      split; [split; discriminate|].
      intros _ best' o args w c [= <-] Hargs Herr.
      apply confidence_rejection_below_60 in Herr.
      unfold effectiveConfidence, Js.number_or in Herr. rewrite Hargs in Herr.
      destruct (Js.truthy_number (ResearchTools.confidence best)); lra.
    + split.
      { split; [discriminate|]. intros (best' & [= <-] & H70).
        apply Js_ge_spec in H70. congruence. }
      split; [split; [discriminate | intros (? & ? & ? & [=])]|].
      split; [split; discriminate|].
      discriminate.
  - split; [split; [discriminate | intros (? & [=] & _)]|].
    split; [split; [discriminate | intros (? & ? & ? & [=])]|].
    split; [split; reflexivity|].
    discriminate.
Qed.

Lemma recommendation_needs_confidence_70_witness :
  exists r,
    ResearchTools.handleFindAllOpportunities (Returned confident_analysis) = Returned r
    /\ ResearchTools.shouldDeploy r = true.
Proof.
  destruct (recommendation_needs_confidence_70 (Returned confident_analysis))
    as (r & Hr & _ & _ & Hdeploy & _).
  exists r. split; [exact Hr|].
  apply Hdeploy. eexists. split; [reflexivity|]. cbn. lra.
Defined.

(** ** Airdrops and the holders query *)

(** X22.  An airdrop runs on what the holders query gives.  [getHolders]
    never throws: when the request fails, is answered with a status that is
    not OK, or has a body that is not JSON, it gives the empty list; and
    otherwise one holder for each entry of [accounts], or of [holders] when
    there is no [accounts] array (an empty [accounts] array hides
    [holders]), in their order.  For a stored coin with the airdrop
    switched on, [handleAirdropSol] and [handleAirdropTokens] call their
    executor with that list whatever it is: after a failed holders query
    the airdrop is started with no holders. *)
Theorem airdrop_runs_on_holders_query coins response args coin :
  CoinTools.findCoin coins args = Returned coin ->
  let holders := CoinTools.getHolders response in
  (CoinTools.enabled CoinTools.airdrop_sol coin = true ->
   CoinTools.handleAirdropSol coins response args
   = Returned (CoinTools.executeAirdropSol coin (CoinTools.amount_sol args) holders))
  /\ (CoinTools.enabled CoinTools.airdrop_tokens coin = true ->
      CoinTools.handleAirdropTokens coins response args
      = Returned (CoinTools.executeAirdropTokens coin (CoinTools.percentage args)
                    holders))
  /\ (holders_query_fails response -> holders = [])
  /\ (forall r data,
        response = Returned r ->
        CoinTools.ok r = true ->
        CoinTools.json r = Returned data ->
        (forall accounts,
           CoinTools.body_accounts data = Some accounts ->
           holders = List.map CoinTools.toHolder accounts)
        /\ (CoinTools.body_accounts data = None ->
            holders
            = List.map CoinTools.toHolder (default [] (CoinTools.body_holders data)))).
Proof.
  intros Hfind. cbv zeta.
  unfold CoinTools.handleAirdropSol, CoinTools.handleAirdropTokens.
  rewrite Hfind.
  split; [intros ->; reflexivity|].
  split; [intros ->; reflexivity|].
  split.
  - unfold holders_query_fails, CoinTools.getHolders.
    destruct response as [r|]; [|reflexivity].
    intros [Hok | [message Hjson]].
    + rewrite Hok. reflexivity.
    + rewrite Hjson. destruct (negb (CoinTools.ok r)); reflexivity.
  - intros r data -> Hok Hjson. unfold CoinTools.getHolders.
    rewrite Hok, Hjson. cbn [negb].
    split.
    + intros accounts ->. reflexivity.
    + intros ->. reflexivity.
Qed.

Lemma airdrop_runs_on_holders_query_witness :
  CoinTools.handleAirdropSol (Returned [airdrop_coin]) (Thrown "fetch failed")
    lobster_buyback
  = Returned (CoinTools.executeAirdropSol airdrop_coin (Some 0.1%Q) []).
Proof.
  apply (proj1 (airdrop_runs_on_holders_query (Returned [airdrop_coin])
                  (Thrown "fetch failed") lobster_buyback airdrop_coin eq_refl)).
  reflexivity.
Defined.

(** ** The refresh of the dedup cache *)

Lemma tweetIdOf_Some d tweetId :
  tweetIdOf d = Some tweetId <->
  exists tweetUrl,
    DeploymentRecord.tweet_url (DeploymentRecord.meta d) = Some tweetUrl
    /\ extractTweetId tweetUrl = Some tweetId.
Proof.
  unfold tweetIdOf.
  destruct (DeploymentRecord.tweet_url (DeploymentRecord.meta d)) as [u|].
  - destruct u as [|c u]; cbn [Js.truthy_string].
    + split; [discriminate|]. intros (u' & [= <-] & H). discriminate H.
    + split; [eauto|]. intros (u' & [= <-] & H). exact H.
  - split; [discriminate|]. intros (u' & [=] & _).
Qed.

(** X23.  [refreshDeployedTweetIds] rebuilds the cache from the store.  It
    never throws and touches neither the store nor the time stamp of the
    last deployment.  When the database answers, the cache afterwards holds
    exactly the tweet identifiers of the stored tweet URLs, so identifiers
    it held before without a stored record are dropped, and the refresh time
    is the clock reading; when the database does not answer, the old cache
    and the old refresh time are kept. *)
Theorem refresh_rebuilds_cache_from_store reachable now w :
  let after := snd (refreshDeployedTweetIds reachable now w) in
  fst (refreshDeployedTweetIds reachable now w) = Returned tt
  /\ deployments after = deployments w
  /\ lastDeploymentTime after = lastDeploymentTime w
  /\ (reachable = true ->
      lastTweetIdCacheRefresh after = now
      /\ forall tweetId,
           tweetId ∈ deployedTweetIds after <->
           exists d tweetUrl,
             In d (deployments w)
             /\ DeploymentRecord.tweet_url (DeploymentRecord.meta d) = Some tweetUrl
             /\ extractTweetId tweetUrl = Some tweetId)
  /\ (reachable = false -> after = w).
Proof.
  cbv zeta. destruct reachable.
  - split; [rewrite refreshDeployedTweetIds_reachable; reflexivity|].
    split; [rewrite refreshDeployedTweetIds_reachable; reflexivity|].
    split; [rewrite refreshDeployedTweetIds_reachable; reflexivity|].
    split; [|discriminate]. intros _.
    split; [rewrite refreshDeployedTweetIds_reachable; reflexivity|].
    intros tweetId. rewrite refreshed_cache_complete. split.
    + intros (d & Hin & Hd). apply tweetIdOf_Some in Hd as (u & Hu & Hid). eauto.
    + intros (d & u & Hin & Hu & Hid). exists d. split; [exact Hin|].
      apply tweetIdOf_Some. eauto.
  - rewrite refreshDeployedTweetIds_unreachable.
    repeat (split; [reflexivity|]). split; [discriminate | reflexivity].
Qed.

Lemma launch_reports_mint_iff_sent_witness :
  launch_chain launch_answers "agent-key" launch_request
    "5VERv8NMvzbJMEkV8xnrLkEaWRtSz9CosKDYjCJjBRnb".
Proof.
  destruct (launch_reports_mint_iff_sent launch_answers "agent-key" launch_request)
    as (_ & Hsent & _).
  apply Hsent. reflexivity.
Defined.

(** X24.  The dedup cache is refreshed by its age.  A check of a parseable
    URL rebuilds the cache exactly when more than [TWEET_ID_CACHE_TTL]
    (300000 ms) have passed since the last refresh and the database answers
    the query, and only then is the refresh time advanced, to the clock
    reading of the refresh: a refresh that fails is tried again by the next
    check.  Without a rebuild the cache keeps every identifier it held and
    gains at most the identifier that is checked. *)
Theorem cache_refresh_follows_ttl o tweetUrl tweetId w :
  extractTweetId tweetUrl = Some tweetId ->
  let after := snd (checkTweetAlreadyTokenized o tweetUrl w) in
  let rebuilt :=
    (TWEET_ID_CACHE_TTL <? now_check o - lastTweetIdCacheRefresh w)
    && refresh_reachable o in
  TWEET_ID_CACHE_TTL = 300000
  /\ lastTweetIdCacheRefresh after
     = (if rebuilt then now_refreshed o else lastTweetIdCacheRefresh w)
  /\ (rebuilt = true ->
      forall cached,
        cached ∈ deployedTweetIds after ->
        cached = tweetId
        \/ exists d, In d (deployments w) /\ tweetIdOf d = Some cached)
  /\ (rebuilt = false ->
      deployedTweetIds w ⊆ deployedTweetIds after
      /\ deployedTweetIds after ⊆ {[tweetId]} ∪ deployedTweetIds w).
Proof.
  intros Hid. cbv zeta. split; [reflexivity|].
  rewrite (checkTweetAlreadyTokenized_state _ _ _ _ Hid). cbv zeta.
  assert (Hw1 : snd (refreshIfStale o w)
                = if (TWEET_ID_CACHE_TTL <? now_check o - lastTweetIdCacheRefresh w)
                     && refresh_reachable o
                  then snd (refreshDeployedTweetIds true (now_refreshed o) w)
                  else w).
  { unfold refreshIfStale, bind, get.
    destruct (TWEET_ID_CACHE_TTL <? now_check o - lastTweetIdCacheRefresh w);
      [|reflexivity].
    destruct (refresh_reachable o); reflexivity. }
  rewrite Hw1.
  destruct ((TWEET_ID_CACHE_TTL <? now_check o - lastTweetIdCacheRefresh w)
            && refresh_reachable o).
  - set (w1 := snd (refreshDeployedTweetIds true (now_refreshed o) w)).
    assert (Hstamp : lastTweetIdCacheRefresh w1 = now_refreshed o)
      by (unfold w1; rewrite refreshDeployedTweetIds_reachable; reflexivity).
    assert (Hcache : forall cached,
               cached ∈ deployedTweetIds w1 ->
               exists d, In d (deployments w) /\ tweetIdOf d = Some cached)
      by (intros cached; unfold w1; apply refreshed_cache_complete).
    split.
    { destruct (List.find _ (deployments w1)); [|exact Hstamp].
      destruct (negb _ && direct_reachable o); exact Hstamp. }
    split; [|discriminate]. intros _ cached.
    destruct (List.find _ (deployments w1)); [|auto].
    destruct (negb _ && direct_reachable o); [|auto].
    cbn. intros [->%elem_of_singleton | H]%elem_of_union; auto.
  - split.
    { destruct (List.find _ (deployments w)); [|reflexivity].
      destruct (negb _ && direct_reachable o); reflexivity. }
    split; [discriminate|]. intros _.
    destruct (List.find _ (deployments w)); [|set_solver].
    destruct (negb _ && direct_reachable o); cbn; set_solver.
Qed.

Lemma cache_refresh_follows_ttl_witness :
  lastTweetIdCacheRefresh
    (snd (checkTweetAlreadyTokenized (Scenario.unreachable (Scenario.t0 + 400000))
            "https://x.com/lobsterfan/status/1893456789012345678"
            (set_lastTweetIdCacheRefresh Scenario.t0 (initial_world []))))
  = Scenario.t0.
Proof.
  destruct (cache_refresh_follows_ttl (Scenario.unreachable (Scenario.t0 + 400000))
              "https://x.com/lobsterfan/status/1893456789012345678"
              "1893456789012345678"
              (set_lastTweetIdCacheRefresh Scenario.t0 (initial_world []))
              eq_refl) as (_ & Hstamp & _).
  exact Hstamp.
Defined.
